(** * ZoneAlert backend: boundary-breach alerting and counter maintenance

    A shallow embedding of the route handlers of the ZoneAlert livestock
    monitoring backend (Express + Firestore + Realtime Database), with the
    properties of its alerting rule, live-status staleness rule, analytics
    folds and denormalised counters.

    Two generations of the sensor routes live in the repository:
    - src/routes/sensor.routes.js: lower-case collections, threshold field
      [boundary_threshold], a notification next to every alert; its handlers
      keep their names ([post_reading], [createAlert], ...);
    - the routes/sensor.routes.js kept in src/unnamed/part_003: capitalised
      collections, threshold field [max_distance_threshold], handlers
      wrapped in [asyncHandler]; its handlers carry the suffix [_v2]. *)

From Stdlib Require Import QArith Qcanon Qround.
From stdpp Require Import base numbers option list strings pretty gmap sorting.

Open Scope string_scope.
Open Scope list_scope.

(** ** JavaScript numbers

    Every number the handlers compare is a finite IEEE double (JSON cannot
    carry NaN or Infinity, and [isFloat] rejects them); comparison of finite
    doubles is comparison of the rationals they denote, so numbers are
    canonical rationals [Qc]. A field that is absent from a document
    ([undefined]) is [None]. *)

Definition num (z : Z) : Qc := Q2Qc (inject_Z z).

(** [x || dflt] on a numeric field: [undefined] and [0] are falsy. *)
Definition js_or (x : option Qc) (dflt : Qc) : Qc :=
  match x with
  | Some v => if bool_decide (v = num 0) then dflt else v
  | None => dflt
  end.

(** [a < b] on numbers. *)
Definition js_lt (a b : Qc) : bool := bool_decide (a < b)%Qc.

(** [Math.round]: the integer nearest to [x], ties towards +Infinity. *)
Definition Math_round (x : Qc) : Qc :=
  Q2Qc (inject_Z (Qfloor (x + Q2Qc (1 # 2))%Qc)).

(** ** Template literals

    A template literal is kept as its pieces, so that no rendering of a
    double to decimal digits has to be fixed: two literals are equal when
    their text and the numbers in their holes are. *)

Inductive Piece :=
  | Lit (s : string)
  | Hole (q : Qc).

Definition Template := list Piece.

(** ** Handlers as computations over a datastore

    A handler is an [async] function: it threads the state of the external
    services and may throw. Every [await] of a datastore call consults the
    head of [faults]: [true] makes that call reject (the provider failed),
    [false] lets it go through; an exhausted list means no more failures.
    What was written before a rejection stays written: no call is part of a
    transaction. [clock] is what [Date.now()] returns, [next_key] feeds the
    generated document ids and push keys, and [console] collects the labels
    passed to [console.error]. *)

Record World (S : Type) := mkWorld {
  store : S;
  faults : list bool;
  clock : Z;
  next_key : N;
  console : list string
}.
Arguments mkWorld {S}.
Arguments store {S}.
Arguments faults {S}.
Arguments clock {S}.
Arguments next_key {S}.
Arguments console {S}.

Inductive Outcome (A : Type) :=
  | Returned (a : A)
  | Thrown (e : string).
Arguments Returned {A}.
Arguments Thrown {A}.

Definition M (S A : Type) : Type := World S -> Outcome A * World S.

Definition ret {S A} (a : A) : M S A := fun w => (Returned a, w).

Definition bind {S A B} (m : M S A) (k : A -> M S B) : M S B :=
  fun w =>
    match m w with
    | (Returned a, w') => k a w'
    | (Thrown e, w') => (Thrown e, w')
    end.

Definition throw {S A} (e : string) : M S A := fun w => (Thrown e, w).

(** [try { m } catch (error) { h error }] *)
Definition try_catch {S A} (m : M S A) (h : string -> M S A) : M S A :=
  fun w =>
    match m w with
    | (Returned a, w') => (Returned a, w')
    | (Thrown e, w') => h e w'
    end.

Declare Scope js_scope.
Delimit Scope js_scope with js.
Notation "x <- c1 ;; c2" := (bind c1 (fun x => c2))
  (at level 100, c1 at next level, right associativity) : js_scope.
Notation "c1 ;; c2" := (bind c1 (fun _ => c2))
  (at level 100, right associativity) : js_scope.
Open Scope js_scope.

(** One round trip to the provider. *)
Definition await_db {S} : M S unit :=
  fun w =>
    match faults w with
    | true :: fs =>
        (Thrown "datastore error",
         mkWorld (store w) fs (clock w) (next_key w) (console w))
    | false :: fs =>
        (Returned tt, mkWorld (store w) fs (clock w) (next_key w) (console w))
    | [] => (Returned tt, w)
    end.

Definition read {S A} (f : S -> A) : M S A := fun w => (Returned (f (store w)), w).

Definition write {S} (f : S -> S) : M S unit :=
  fun w =>
    (Returned tt, mkWorld (f (store w)) (faults w) (clock w) (next_key w) (console w)).

Definition Date_now {S} : M S Z := fun w => (Returned (clock w), w).

(** A generated id: Firestore's auto-id of [add], the key of RTDB's [push]. *)
Definition fresh_key {S} : M S N :=
  fun w =>
    (Returned (next_key w),
     mkWorld (store w) (faults w) (clock w) (N.succ (next_key w)) (console w)).

Definition console_error {S} (label : string) : M S unit :=
  fun w =>
    (Returned tt,
     mkWorld (store w) (faults w) (clock w) (next_key w) (console w ++ [label])).

(** ** HTTP responses: [res.status(code).json(body)] *)

Inductive Body (D : Type) :=
  | Success (message : string) (data : D)
  | Failure (message : string) (error : option string)
  | Invalid (errors : list string).
Arguments Success {D}.
Arguments Failure {D}.
Arguments Invalid {D}.

Record Response (D : Type) := mkResponse { code : nat; body : Body D }.
Arguments mkResponse {D}.
Arguments code {D}.
Arguments body {D}.

(** [FieldValue.increment(delta)]: an absent field counts from 0. *)
Definition increment (delta : Z) (field : option Z) : option Z :=
  Some (default 0%Z field + delta)%Z.

Definition msPerDay : Z := 86400000.
Definition msPerHour : Z := 3600000.

(** [new Date(t).toISOString().split('T')[0]]: the UTC calendar day of [t],
    kept as the number of that day since the epoch. *)
Definition toISODate (t : Z) : Z := (t `div` msPerDay)%Z.

(** ** Sensor routes: documents and store *)

(** A document of [sensor_units] / [Sensor_Units]. *)
Record SensorDoc := mkSensorDoc {
  sensor_zone_id : string;
  sensor_farm_id : string;
  sensor_farmer_id : option string;
  location_description : string;
  boundary_threshold : option Qc;
  max_distance_threshold : option Qc;
  sensor_last_reading : option Qc;
  last_reading_time : option Z;
  is_operational : bool;
  total_readings_today : option Z
}.

(** A child of [sensor_readings/<dateKey>/<sensor_id>] in the RTDB. *)
Record ReadingData := mkReadingData {
  reading_sensor_id : string;
  reading_distance : Qc;
  reading_sensor_type : string;
  reading_status : string;
  reading_timestamp : Z;
  reading_zone_id : option string;
  reading_farm_id : option string
}.

(** The last path segment of a stored reading: a push key (single-reading
    endpoint) or the digits of [Date.now()] (batch endpoint). *)
Inductive ChildKey :=
  | PushKey (k : N)
  | TimeKey (t : Z).

#[global] Instance ChildKey_eq_dec : EqDecision ChildKey.
Proof. solve_decision. Defined.

Definition ReadingPath : Type := Z * string * ChildKey.

(** [sensor_status/<sensor_id>] in the RTDB. The battery endpoint writes the
    child [battery_level] alone, so every other field can be absent. *)
Record LiveStatus := mkLiveStatus {
  last_reading : option Qc;
  last_timestamp : option Z;
  live_status : option string;
  is_online : option bool;
  battery_level : option Qc
}.

(** A document of the [alerts] collection (src/routes/sensor.routes.js). *)
Record AlertDoc := mkAlertDoc {
  alert_sensor_id : string;
  alert_zone_id : string;
  alert_farm_id : string;
  alert_type : string;
  security_level : string;
  trigger_distance : Qc;
  description : Template;
  is_resolved : bool;
  detected_at : Z;
  resolved_at : option Z
}.

(** A document of the [Alerts] collection (part_003). *)
Record AlertDocV2 := mkAlertDocV2 {
  v2_sensor_id : string;
  v2_zone_id : string;
  v2_farm_id : string;
  v2_alert_type : string;
  breach_level : string;
  breach_distance : Qc;
  v2_description : Template;
  v2_is_resolved : bool;
  v2_detected_at : Z;
  v2_resolved_at : option Z
}.

(** A document of the [notifications] collection. *)
Record NotificationDoc := mkNotificationDoc {
  alert_id : N;
  notif_farmer_id : option string;
  notif_message : Template;
  is_read : bool;
  delivery_status : string;
  sent_at : Z
}.

(** Firestore collections are written in their two spellings, as the two
    generations of the routes name them; the RTDB subtrees follow. A
    collection filled by [add] is the list of its rows in insertion order,
    each with its generated id. *)
Record SensorStore := mkSensorStore {
  sensor_units : gmap string SensorDoc;
  Sensor_Units : gmap string SensorDoc;
  alerts : list (N * AlertDoc);
  Alerts : list (N * AlertDocV2);
  notifications : list (N * NotificationDoc);
  sensor_readings : list (ReadingPath * ReadingData);
  sensor_status : gmap string LiveStatus
}.

Definition set_sensor_units (f : gmap string SensorDoc -> gmap string SensorDoc)
    (s : SensorStore) : SensorStore :=
  mkSensorStore (f (sensor_units s)) (Sensor_Units s) (alerts s) (Alerts s)
    (notifications s) (sensor_readings s) (sensor_status s).

Definition set_Sensor_Units (f : gmap string SensorDoc -> gmap string SensorDoc)
    (s : SensorStore) : SensorStore :=
  mkSensorStore (sensor_units s) (f (Sensor_Units s)) (alerts s) (Alerts s)
    (notifications s) (sensor_readings s) (sensor_status s).

Definition set_alerts (f : list (N * AlertDoc) -> list (N * AlertDoc))
    (s : SensorStore) : SensorStore :=
  mkSensorStore (sensor_units s) (Sensor_Units s) (f (alerts s)) (Alerts s)
    (notifications s) (sensor_readings s) (sensor_status s).

Definition set_Alerts (f : list (N * AlertDocV2) -> list (N * AlertDocV2))
    (s : SensorStore) : SensorStore :=
  mkSensorStore (sensor_units s) (Sensor_Units s) (alerts s) (f (Alerts s))
    (notifications s) (sensor_readings s) (sensor_status s).

Definition set_notifications
    (f : list (N * NotificationDoc) -> list (N * NotificationDoc))
    (s : SensorStore) : SensorStore :=
  mkSensorStore (sensor_units s) (Sensor_Units s) (alerts s) (Alerts s)
    (f (notifications s)) (sensor_readings s) (sensor_status s).

Definition set_sensor_readings
    (f : list (ReadingPath * ReadingData) -> list (ReadingPath * ReadingData))
    (s : SensorStore) : SensorStore :=
  mkSensorStore (sensor_units s) (Sensor_Units s) (alerts s) (Alerts s)
    (notifications s) (f (sensor_readings s)) (sensor_status s).

Definition set_sensor_status (f : gmap string LiveStatus -> gmap string LiveStatus)
    (s : SensorStore) : SensorStore :=
  mkSensorStore (sensor_units s) (Sensor_Units s) (alerts s) (Alerts s)
    (notifications s) (sensor_readings s) (f (sensor_status s)).

(** [ref(path).set(value)] on a reading: the value at [path] is replaced. *)
Definition put_reading (path : ReadingPath) (r : ReadingData)
    (l : list (ReadingPath * ReadingData)) : list (ReadingPath * ReadingData) :=
  filter (fun row => row.1 ≠ path) l ++ [(path, r)].

(** [process.env] as the handlers read it. *)
Record Env := mkEnv { IOT_API_KEY : option string }.

(** The body of [POST /reading] once parsed. *)
Record ReadingRequest := mkReadingRequest {
  sensor_id : string;
  distance_measured : Qc;
  sensor_type : string;
  api_key : string
}.

(** The [data] of the 200 response; [threshold] and the echoed distance are
    sent by the part_003 generation only. *)
Record ReadingReply := mkReadingReply {
  reading_id : N;
  status : string;
  timestamp : Z;
  reply_distance : option Qc;
  reply_threshold : option Qc
}.

(** ** Firestore and RTDB calls *)

(** [collection(c).doc(id).get()] *)
Definition doc_get {S D} (coll : S -> gmap string D) (id : string) : M S (option D) :=
  await_db;; read (fun s => coll s !! id).

(** [collection(c).add(doc)]: a new row under a generated id. *)
Definition add {S D} (upd : (list (N * D) -> list (N * D)) -> S -> S) (doc : D) : M S N :=
  await_db;;
  id <- fresh_key;;
  write (upd (fun rows => rows ++ [(id, doc)]));;
  ret id.

(** [collection(c).doc(id).update(fields)]: rejects when the document does
    not exist. *)
Definition doc_update {S D} (coll : S -> gmap string D)
    (upd : (gmap string D -> gmap string D) -> S -> S)
    (id : string) (f : D -> D) : M S unit :=
  await_db;;
  d <- read (fun s => coll s !! id);;
  match d with
  | Some _ => write (upd (alter f id))
  | None => throw "No document to update"
  end.

(** [collection(c).doc(id).delete()]: succeeds whether or not the document
    exists. *)
Definition doc_delete {S D} (upd : (gmap string D -> gmap string D) -> S -> S)
    (id : string) : M S unit :=
  await_db;; write (upd (delete id)).

(** ** src/routes/sensor.routes.js *)

(** The express-validator chain of [POST /reading]: the fields that fail. *)
Definition validationResult (sensor_types : list string) (b : ReadingRequest)
    : list string :=
  (if bool_decide (sensor_id b = "") then ["sensor_id"] else []) ++
  (if js_lt (distance_measured b) (num 0) then ["distance_measured"] else []) ++
  (if bool_decide (sensor_type b ∈ sensor_types) then [] else ["sensor_type"]) ++
  (if bool_decide (api_key b = "") then ["api_key"] else []).

(** [distance_measured < threshold ? 'alert' : 'normal'] *)
Definition derive_status (distance_measured threshold : Qc) : string :=
  if js_lt distance_measured threshold then "alert" else "normal".

Definition describe (distance : Qc) (sensorData : SensorDoc) : Template :=
  [Lit "Livestock detected "; Hole distance; Lit "m from boundary at ";
   Lit (location_description sensorData)].

(** [createAlert], lines 490-525. *)
Definition createAlert (sensor_id : string) (sensorData : SensorDoc) (distance : Qc)
    : M SensorStore unit :=
  try_catch
    (now <- Date_now;;
     let alertData :=
       {| alert_sensor_id := sensor_id;
          alert_zone_id := sensor_zone_id sensorData;
          alert_farm_id := sensor_farm_id sensorData;
          alert_type := "boundary_breach";
          security_level := if js_lt distance (num 25) then "critical" else "high";
          trigger_distance := distance;
          description := describe distance sensorData;
          is_resolved := false;
          detected_at := now;
          resolved_at := None |} in
     alertRef <- add set_alerts alertData;;
     add set_notifications
       {| alert_id := alertRef;
          notif_farmer_id := sensor_farmer_id sensorData;
          notif_message := description alertData;
          is_read := false;
          delivery_status := "pending";
          sent_at := now |};;
     ret tt)
    (fun error => console_error "Error creating alert:").

(** [router.post('/reading', ...)], lines 13-118. *)
Definition post_reading (env : Env) (b : ReadingRequest)
    : M SensorStore (Response ReadingReply) :=
  try_catch
    (let errors := validationResult ["LIDAR"; "ULTRASONIC"] b in
     if negb (bool_decide (errors = [])) then
       ret (mkResponse 400 (Invalid errors))
     else if negb (bool_decide (Some (api_key b) = IOT_API_KEY env)) then
       ret (mkResponse 401 (Failure "Invalid API key" None))
     else
       sensorDoc <- doc_get sensor_units (sensor_id b);;
       match sensorDoc with
       | None => ret (mkResponse 404 (Failure "Sensor not found" None))
       | Some sensorData =>
           let threshold := js_or (boundary_threshold sensorData) (num 50) in
           let status := derive_status (distance_measured b) threshold in
           timestamp <- Date_now;;
           let dateKey := toISODate timestamp in
           let readingData :=
             {| reading_sensor_id := sensor_id b;
                reading_distance := distance_measured b;
                reading_sensor_type := sensor_type b;
                reading_status := status;
                reading_timestamp := timestamp;
                reading_zone_id := Some (sensor_zone_id sensorData);
                reading_farm_id := Some (sensor_farm_id sensorData) |} in
           readingRef <- fresh_key;;
           await_db;;
           write (set_sensor_readings
                    (put_reading (dateKey, sensor_id b, PushKey readingRef) readingData));;
           await_db;;
           write (set_sensor_status
                    <[sensor_id b :=
                       {| last_reading := Some (distance_measured b);
                          last_timestamp := Some timestamp;
                          live_status := Some status;
                          is_online := Some true;
                          battery_level := None |}]>);;
           doc_update sensor_units set_sensor_units (sensor_id b)
             (fun d =>
                {| sensor_zone_id := sensor_zone_id d;
                   sensor_farm_id := sensor_farm_id d;
                   sensor_farmer_id := sensor_farmer_id d;
                   location_description := location_description d;
                   boundary_threshold := boundary_threshold d;
                   max_distance_threshold := max_distance_threshold d;
                   sensor_last_reading := Some (distance_measured b);
                   last_reading_time := Some timestamp;
                   is_operational := true;
                   total_readings_today := increment 1 (total_readings_today d) |});;
           (if bool_decide (status = "alert")
            then createAlert (sensor_id b) sensorData (distance_measured b)
            else ret tt);;
           ret (mkResponse 200
                  (Success "Sensor reading recorded"
                     {| reading_id := readingRef;
                        status := status;
                        timestamp := timestamp;
                        reply_distance := None;
                        reply_threshold := None |}))
       end)
    (fun error =>
       console_error "Sensor reading error:";;
       ret (mkResponse 500 (Failure "Failed to record sensor reading" (Some error)))).

(** One item of the [readings] array of [POST /batch]. Nothing validates the
    items: the distance may be negative, and a timestamp that is not a date
    makes [toISOString] throw. *)
Record BatchReading := mkBatchReading {
  batch_sensor_id : string;
  batch_distance : Qc;
  batch_sensor_type : string;
  batch_timestamp : option Z
}.

Record BatchRequest := mkBatchRequest {
  readings : list BatchReading;
  batch_api_key : option string
}.

(** [reading.distance_measured < 50 ? 'alert' : 'normal'], line 150. *)
Definition batch_status (reading : BatchReading) : string :=
  if js_lt (batch_distance reading) (num 50) then "alert" else "normal".

(** The [for (const reading of readings)] loop, lines 142-155: the [updates]
    object and the [results] array it leaves. *)
Fixpoint batch_loop (readings : list BatchReading)
    (updates : list (ReadingPath * ReadingData)) (results : list (string * string))
    : M SensorStore (list (ReadingPath * ReadingData) * list (string * string)) :=
  match readings with
  | [] => ret (updates, results)
  | reading :: rest =>
      match batch_timestamp reading with
      | None => throw "Invalid time value"
      | Some t =>
          let dateKey := toISODate t in
          now <- Date_now;;
          let path := (dateKey, batch_sensor_id reading, TimeKey now) in
          batch_loop rest
            (put_reading path
               {| reading_sensor_id := batch_sensor_id reading;
                  reading_distance := batch_distance reading;
                  reading_sensor_type := batch_sensor_type reading;
                  reading_status := batch_status reading;
                  reading_timestamp := t;
                  reading_zone_id := None;
                  reading_farm_id := None |} updates)
            (results ++ [(batch_sensor_id reading, "queued")])
      end
  end.

(** The body of the batch handler, common to both generations (lines 130-164
    here, 246-279 in part_003). *)
Definition batch_body (env : Env) (b : BatchRequest)
    : M SensorStore (Response (list (string * string))) :=
  if negb (bool_decide (batch_api_key b = IOT_API_KEY env)) then
    ret (mkResponse 401 (Failure "Invalid API key" None))
  else
    built <- batch_loop (readings b) [] [];;
    let '(updates, results) := built in
    await_db;;
    write (set_sensor_readings
             (fun tree => foldl (fun acc row => put_reading row.1 row.2 acc) tree updates));;
    ret (mkResponse 200
           (Success (pretty (length (readings b)) +:+ " readings processed") results)).

(** [router.post('/batch', ...)], lines 125-174; the validators are declared
    but their result is never read. *)
Definition post_batch (env : Env) (b : BatchRequest)
    : M SensorStore (Response (list (string * string))) :=
  try_catch (batch_body env b)
    (fun error =>
       console_error "Batch reading error:";;
       ret (mkResponse 500 (Failure "Failed to process batch readings" (Some error)))).

(** The [data] of [GET /live/:sensorId]. *)
Record LiveReply := mkLiveReply {
  liveData : LiveStatus;
  is_stale : bool;
  age_seconds : option Z
}.

(** The body of the live-status handler once [verifyToken] has let the
    request through, common to both generations (lines 243-270 here, 327-351
    in part_003). With no [last_timestamp] the difference is NaN: the
    comparison is false and the age serialises as null. *)
Definition live_body (sensorId : string) : M SensorStore (Response LiveReply) :=
  await_db;;
  statusSnapshot <- read (fun s => sensor_status s !! sensorId);;
  match statusSnapshot with
  | None => ret (mkResponse 404 (Failure "No live data available for this sensor" None))
  | Some liveData =>
      now <- Date_now;;
      let isStale :=
        match last_timestamp liveData with
        | Some ts => bool_decide (now - ts > 300000)%Z
        | None => false
        end in
      now' <- Date_now;;
      ret (mkResponse 200
             (Success "Live sensor status"
                {| liveData := liveData;
                   is_stale := isStale;
                   age_seconds :=
                     match last_timestamp liveData with
                     | Some ts => Some ((now' - ts) `div` 1000)%Z
                     | None => None
                     end |}))
  end.

(** [router.get('/live/:sensorId', verifyToken, ...)], lines 241-280. *)
Definition get_live (sensorId : string) : M SensorStore (Response LiveReply) :=
  try_catch (live_body sensorId)
    (fun error =>
       console_error "Get live status error:";;
       ret (mkResponse 500 (Failure "Failed to get live status" (Some error)))).

(** ** routes/sensor.routes.js of part_003

    Its handlers are wrapped in [asyncHandler]: a rejection is handed to
    [next], so the computation itself ends in [Thrown]. *)

(** The [validate] middleware after the chain: an answer when a field fails. *)
Definition validate {D} (errors : list string) : option (Response D) :=
  if negb (bool_decide (errors = [])) then Some (mkResponse 400 (Invalid errors))
  else None.

(** [createAlert] of part_003, lines 521-544: no notification is written. *)
Definition createAlert_v2 (sensor_id : string) (sensorData : SensorDoc) (distance : Qc)
    : M SensorStore unit :=
  try_catch
    (now <- Date_now;;
     let alertData :=
       {| v2_sensor_id := sensor_id;
          v2_zone_id := sensor_zone_id sensorData;
          v2_farm_id := sensor_farm_id sensorData;
          v2_alert_type := "Boundary Breach";
          breach_level := if js_lt distance (num 25) then "Critical" else "High";
          breach_distance := distance;
          v2_description := describe distance sensorData;
          v2_is_resolved := false;
          v2_detected_at := now;
          v2_resolved_at := None |} in
     alertRef <- add set_Alerts alertData;;
     ret tt)
    (fun error => console_error "Error creating alert:").

(** [router.post('/reading', ...)] of part_003, lines 160-239. *)
Definition post_reading_v2 (env : Env) (b : ReadingRequest)
    : M SensorStore (Response ReadingReply) :=
  match validate (validationResult ["LIDAR"; "ULTRASONIC"; "Ultrasonic"] b) with
  | Some rejected => ret rejected
  | None =>
      if negb (bool_decide (Some (api_key b) = IOT_API_KEY env)) then
        ret (mkResponse 401 (Failure "Invalid API key" None))
      else
        sensorDoc <- doc_get Sensor_Units (sensor_id b);;
        match sensorDoc with
        | None =>
            ret (mkResponse 404
                   (Failure ("Sensor not found with ID: " +:+ sensor_id b) None))
        | Some sensorData =>
            let threshold := js_or (max_distance_threshold sensorData) (num 50) in
            let status := derive_status (distance_measured b) threshold in
            timestamp <- Date_now;;
            let dateKey := toISODate timestamp in
            let readingData :=
              {| reading_sensor_id := sensor_id b;
                 reading_distance := distance_measured b;
                 reading_sensor_type := sensor_type b;
                 reading_status := status;
                 reading_timestamp := timestamp;
                 reading_zone_id := Some (sensor_zone_id sensorData);
                 reading_farm_id := Some (sensor_farm_id sensorData) |} in
            readingRef <- fresh_key;;
            await_db;;
            write (set_sensor_readings
                     (put_reading (dateKey, sensor_id b, PushKey readingRef) readingData));;
            await_db;;
            write (set_sensor_status
                     <[sensor_id b :=
                        {| last_reading := Some (distance_measured b);
                           last_timestamp := Some timestamp;
                           live_status := Some status;
                           is_online := Some true;
                           battery_level := None |}]>);;
            doc_update Sensor_Units set_Sensor_Units (sensor_id b)
              (fun d =>
                 {| sensor_zone_id := sensor_zone_id d;
                    sensor_farm_id := sensor_farm_id d;
                    sensor_farmer_id := sensor_farmer_id d;
                    location_description := location_description d;
                    boundary_threshold := boundary_threshold d;
                    max_distance_threshold := max_distance_threshold d;
                    sensor_last_reading := Some (distance_measured b);
                    last_reading_time := Some timestamp;
                    is_operational := true;
                    total_readings_today := total_readings_today d |});;
            (if bool_decide (status = "alert")
             then createAlert_v2 (sensor_id b) sensorData (distance_measured b)
             else ret tt);;
            ret (mkResponse 200
                   (Success "Sensor reading recorded"
                      {| reading_id := readingRef;
                         status := status;
                         timestamp := timestamp;
                         reply_distance := Some (distance_measured b);
                         reply_threshold := Some threshold |}))
        end
  end.

(** [router.post('/batch', ...)] of part_003, lines 241-280: [validate] runs
    first, so a missing or empty [api_key] is answered 400. *)
Definition post_batch_v2 (env : Env) (b : BatchRequest)
    : M SensorStore (Response (list (string * string))) :=
  match validate (if bool_decide (batch_api_key b = None ∨ batch_api_key b = Some "")
                  then ["api_key"] else []) with
  | Some rejected => ret rejected
  | None => batch_body env b
  end.

(** [router.get('/live/:sensorId', verifyToken, ...)] of part_003, lines
    326-352. *)
Definition get_live_v2 (sensorId : string) : M SensorStore (Response LiveReply) :=
  live_body sensorId.

(** ** routes/livestock.routes.js and routes/farm.routes.js (part_004, part_006) *)

(** A document of [livestock]. *)
Record LivestockDoc := mkLivestockDoc {
  zone_id : option string;
  farm_id : option string;
  zone_name : option string;
  identification_tag : string
}.

(** A document of [boundary_zones]. *)
Record ZoneDoc := mkZoneDoc {
  boundary_zone_name : string;
  current_livestock_count : option Z
}.

(** A document of [farms]. *)
Record FarmDoc := mkFarmDoc {
  farmer_id : string;
  farm_name : string;
  zones_count : option Z;
  livestock_count : option Z;
  sensors_count : option Z;
  active_alerts : option Z
}.

(** A document of [farmers]. *)
Record FarmerDoc := mkFarmerDoc {
  name : string;
  farms_count : option Z
}.

Record FarmStore := mkFarmStore {
  livestock : gmap string LivestockDoc;
  boundary_zones : gmap string ZoneDoc;
  farms : gmap string FarmDoc;
  farmers : gmap string FarmerDoc
}.

Definition set_livestock (f : gmap string LivestockDoc -> gmap string LivestockDoc)
    (s : FarmStore) : FarmStore :=
  mkFarmStore (f (livestock s)) (boundary_zones s) (farms s) (farmers s).

Definition set_boundary_zones (f : gmap string ZoneDoc -> gmap string ZoneDoc)
    (s : FarmStore) : FarmStore :=
  mkFarmStore (livestock s) (f (boundary_zones s)) (farms s) (farmers s).

Definition set_farms (f : gmap string FarmDoc -> gmap string FarmDoc)
    (s : FarmStore) : FarmStore :=
  mkFarmStore (livestock s) (boundary_zones s) (f (farms s)) (farmers s).

Definition set_farmers (f : gmap string FarmerDoc -> gmap string FarmerDoc)
    (s : FarmStore) : FarmStore :=
  mkFarmStore (livestock s) (boundary_zones s) (farms s) (f (farmers s)).

(** [update({ current_livestock_count: FieldValue.increment(delta) })] *)
Definition bump_zone (delta : Z) (z : ZoneDoc) : ZoneDoc :=
  {| boundary_zone_name := boundary_zone_name z;
     current_livestock_count := increment delta (current_livestock_count z) |}.

(** [update({ livestock_count: FieldValue.increment(delta) })] *)
Definition bump_farm (delta : Z) (f : FarmDoc) : FarmDoc :=
  {| farmer_id := farmer_id f;
     farm_name := farm_name f;
     zones_count := zones_count f;
     livestock_count := increment delta (livestock_count f);
     sensors_count := sensors_count f;
     active_alerts := active_alerts f |}.

(** [update({ farms_count: FieldValue.increment(delta) })] *)
Definition bump_farmer (delta : Z) (f : FarmerDoc) : FarmerDoc :=
  {| name := name f; farms_count := increment delta (farms_count f) |}.

(** [collection(c).doc(id)] with [id] read off a document: an absent field
    is not a document path. *)
Definition doc_path {S} (id : option string) : M S string :=
  match id with
  | Some p => ret p
  | None => throw "Value for argument documentPath is not a valid resource path"
  end.

(** The [data] of a livestock removal. *)
Record LivestockRemoved := mkLivestockRemoved {
  livestock_id : string;
  removed_tag : string
}.

(** [router.delete('/:livestockId', ...)], part_004 lines 377-435. *)
Definition delete_livestock (livestockId : string)
    : M FarmStore (Response LivestockRemoved) :=
  try_catch
    (livestockDoc <- doc_get livestock livestockId;;
     match livestockDoc with
     | None => ret (mkResponse 404 (Failure "Livestock not found" None))
     | Some livestockData =>
         doc_delete set_livestock livestockId;;
         zone <- doc_path (zone_id livestockData);;
         doc_update boundary_zones set_boundary_zones zone (bump_zone (-1));;
         farm <- doc_path (farm_id livestockData);;
         doc_update farms set_farms farm (bump_farm (-1));;
         ret (mkResponse 200
                (Success "Livestock removed successfully"
                   {| livestock_id := livestockId;
                      removed_tag := identification_tag livestockData |}))
     end)
    (fun error =>
       console_error "Delete livestock error:";;
       ret (mkResponse 500 (Failure "Failed to remove livestock" (Some error)))).

(** [router.delete('/:farmId', ...)], part_006 lines 212-243. [user] is
    [req.user.userId]; the route mounts no [verifyToken] of its own, and a
    request without [req.user] throws on the property read. *)
Definition delete_farm (user : option string) (farmId : string)
    : M FarmStore (Response unit) :=
  try_catch
    (match user with
     | None => throw "Cannot read properties of undefined (reading 'userId')"
     | Some farmer_id =>
         doc_delete set_farms farmId;;
         doc_update farmers set_farmers farmer_id (bump_farmer (-1));;
         ret (mkResponse 200 (Success "Farm deleted successfully" tt))
     end)
    (fun error =>
       console_error "Delete farm error:";;
       ret (mkResponse 500 (Failure "Failed to delete farm" (Some error)))).

(** The number of farm documents that name [f] as their farmer: what
    [farms_count] of [f] caches. *)
Definition farms_of (f : string) (s : FarmStore) : nat :=
  length (filter (fun row => farmer_id row.2 = f) (map_to_list (farms s))).

(** ** src/routes/analytics.routes.js *)

(** A document of [Alerts] as the analytics routes read it. [alert] and
    [resolved] are read for their truthiness only. *)
Record AlertRecord := mkAlertRecord {
  deviceId : option string;
  alert : bool;
  resolved : bool;
  distance : option Qc;
  created_at : option Z
}.

(** The store of the analytics routes: the rows of [Alerts]. *)
Abbreviation AlertLog := (list AlertRecord).

(** [where('created_at', '>=', d)]: a document without the field is never
    matched. *)
Definition created_from (d : Z) (r : AlertRecord) : bool :=
  match created_at r with
  | Some t => bool_decide (d <= t)%Z
  | None => false
  end.

(** [where('created_at', '<=', d)] *)
Definition created_until (d : Z) (r : AlertRecord) : bool :=
  match created_at r with
  | Some t => bool_decide (t <= d)%Z
  | None => false
  end.

(** [where('deviceId', '==', id)] *)
Definition of_device (id : string) (r : AlertRecord) : bool :=
  bool_decide (deviceId r = Some id).

(** [if (deviceId) query = query.where('deviceId', '==', deviceId)]: an
    absent or empty query parameter adds no condition. *)
Definition if_device (id : option string) (r : AlertRecord) : bool :=
  match id with
  | None => true
  | Some id => if bool_decide (id = "") then true else of_device id r
  end.

(** [if (d) query = query.where(...)] for an optional date bound. *)
Definition if_bound (cond : Z -> AlertRecord -> bool) (d : option Z)
    (r : AlertRecord) : bool :=
  match d with
  | None => true
  | Some d => cond d r
  end.

(** [await query.get()] *)
Definition query_get (conds : AlertRecord -> bool) : M AlertLog (list AlertRecord) :=
  await_db;; read (filter (fun r => conds r = true)).

(** [data.alert && !data.resolved] *)
Definition is_active (r : AlertRecord) : bool := alert r && negb (resolved r).

(** [data.distance || 0] *)
Definition distance_or_0 (r : AlertRecord) : Qc := js_or (distance r) (num 0).

(** [Math.round(x * 100) / 100] *)
Definition round2 (x : Qc) : Qc := (Math_round (x * num 100) / num 100)%Qc.

(** The [data] of [GET /dashboard]. *)
Record Dashboard := mkDashboard {
  timeRange : string;
  totalAlerts : Z;
  activeAlerts : Z;
  totalDevices : nat;
  avgDistance : Qc;
  alertRate : Qc
}.

(** The counters of the [snapshot.forEach] of lines 51-57. *)
Record DashboardAcc := mkDashboardAcc {
  acc_totalAlerts : Z;
  acc_activeAlerts : Z;
  acc_totalDistance : Qc;
  acc_devices : gset (option string)
}.

Definition dashboard_step (a : DashboardAcc) (r : AlertRecord) : DashboardAcc :=
  {| acc_totalAlerts := acc_totalAlerts a + 1;
     acc_activeAlerts := if is_active r then acc_activeAlerts a + 1 else acc_activeAlerts a;
     acc_totalDistance := (acc_totalDistance a + distance_or_0 r)%Qc;
     acc_devices := acc_devices a ∪ {[deviceId r]} |}.

(** [router.get('/dashboard', ...)], lines 11-82. [startDate] is the date the
    switch of lines 19-32 leaves. *)
Definition get_dashboard (deviceId : option string) (timeRange : string)
    (startDate : Z) : M AlertLog (Response Dashboard) :=
  try_catch
    (snapshot <- query_get (fun r => created_from startDate r && if_device deviceId r);;
     let a := foldl dashboard_step (mkDashboardAcc 0 0 (num 0) ∅) snapshot in
     let avgDistance :=
       if bool_decide (acc_totalAlerts a > 0)%Z
       then (acc_totalDistance a / num (acc_totalAlerts a))%Qc
       else num 0 in
     ret (mkResponse 200
            (Success "Dashboard statistics retrieved"
               {| timeRange := timeRange;
                  totalAlerts := acc_totalAlerts a;
                  activeAlerts := acc_activeAlerts a;
                  totalDevices := size (acc_devices a);
                  avgDistance := round2 avgDistance;
                  alertRate :=
                    (num (acc_totalAlerts a) /
                     (if bool_decide (timeRange = "today") then num 24
                      else if bool_decide (timeRange = "week") then num 168
                      else num 720))%Qc |})))
    (fun error =>
       console_error "Get dashboard error:";;
       ret (mkResponse 500 (Failure "Failed to get dashboard statistics" (Some error)))).

(** A running minimum that starts at [Infinity]. *)
Inductive ExtNum :=
  | Finite (q : Qc)
  | Infinity.

(** The [data] of [GET /devices/:deviceId]. *)
Record DeviceDetail := mkDeviceDetail {
  detail_deviceId : string;
  detail_totalAlerts : Z;
  detail_activeAlerts : Z;
  detail_avgDistance : Qc;
  minDistance : Qc;
  maxDistance : Qc
}.

(** The counters of the [snapshot.forEach] of lines 328-337. *)
Record DetailAcc := mkDetailAcc {
  d_totalAlerts : Z;
  d_activeAlerts : Z;
  d_totalDistance : Qc;
  d_minDistance : ExtNum;
  d_maxDistance : Qc
}.

Definition detail_step (a : DetailAcc) (r : AlertRecord) : DetailAcc :=
  let distance := distance_or_0 r in
  {| d_totalAlerts := d_totalAlerts a + 1;
     d_activeAlerts := if is_active r then d_activeAlerts a + 1 else d_activeAlerts a;
     d_totalDistance := (d_totalDistance a + distance)%Qc;
     d_minDistance :=
       match d_minDistance a with
       | Infinity => Finite distance
       | Finite m => if js_lt distance m then Finite distance else Finite m
       end;
     d_maxDistance := if js_lt (d_maxDistance a) distance then distance else d_maxDistance a |}.

(** [router.get('/devices/:deviceId', ...)], lines 303-362. *)
Definition get_device (deviceId : string) (startDate endDate : option Z)
    : M AlertLog (Response DeviceDetail) :=
  try_catch
    (snapshot <- query_get (fun r => of_device deviceId r
                                     && if_bound created_from startDate r
                                     && if_bound created_until endDate r);;
     let a := foldl detail_step (mkDetailAcc 0 0 (num 0) Infinity (num 0)) snapshot in
     let avgDistance :=
       if bool_decide (d_totalAlerts a > 0)%Z
       then (d_totalDistance a / num (d_totalAlerts a))%Qc
       else num 0 in
     ret (mkResponse 200
            (Success "Device detailed analytics retrieved"
               {| detail_deviceId := deviceId;
                  detail_totalAlerts := d_totalAlerts a;
                  detail_activeAlerts := d_activeAlerts a;
                  detail_avgDistance := round2 avgDistance;
                  minDistance :=
                    match d_minDistance a with
                    | Infinity => num 0
                    | Finite m => m
                    end;
                  maxDistance := d_maxDistance a |})))
    (fun error =>
       console_error "Get device detailed analytics error:";;
       ret (mkResponse 500 (Failure "Failed to get device analytics" (Some error)))).

(** ** Local time

    [Date] getters work on local time. [LocalTZA t isUTC] is the offset of
    the server's time zone in milliseconds, as ECMAScript names it; daylight
    saving makes it depend on [t]. *)

Definition TimeZone : Type := Z -> bool -> Z.

Definition LocalTime (tz : TimeZone) (t : Z) : Z := (t + tz t true)%Z.

Definition UTC (tz : TimeZone) (t : Z) : Z := (t - tz t false)%Z.

(** [date.getDay()]: 0 is Sunday; day 0 of the epoch was a Thursday. *)
Definition getDay (tz : TimeZone) (t : Z) : Z :=
  ((LocalTime tz t `div` msPerDay + 4) `mod` 7)%Z.

(** [date.getHours()] *)
Definition getHours (tz : TimeZone) (t : Z) : Z :=
  ((LocalTime tz t `div` msPerHour) `mod` 24)%Z.

(** Year, month (1 to 12) and day of the month of a day number, in the
    proleptic Gregorian calendar. *)
Definition civil (days : Z) : Z * Z * Z :=
  let z := (days + 719468)%Z in
  let era := (z `div` 146097)%Z in
  let doe := (z - era * 146097)%Z in
  let yoe := ((doe - doe `div` 1460 + doe `div` 36524 - doe `div` 146096) `div` 365)%Z in
  let doy := (doe - (365 * yoe + yoe `div` 4 - yoe `div` 100))%Z in
  let mp := ((5 * doy + 2) `div` 153)%Z in
  let d := (doy - (153 * mp + 2) `div` 5 + 1)%Z in
  let m := if bool_decide (mp < 10)%Z then (mp + 3)%Z else (mp - 9)%Z in
  let y := (yoe + era * 400)%Z in
  (if bool_decide (m <= 2)%Z then (y + 1)%Z else y, m, d).

Definition getFullYear (tz : TimeZone) (t : Z) : Z :=
  (civil (LocalTime tz t `div` msPerDay)).1.1.

(** [date.getMonth()]: 0 is January. *)
Definition getMonth (tz : TimeZone) (t : Z) : Z :=
  ((civil (LocalTime tz t `div` msPerDay)).1.2 - 1)%Z.

Definition getDate (tz : TimeZone) (t : Z) : Z :=
  (civil (LocalTime tz t `div` msPerDay)).2.

(** ** Heatmap *)

Abbreviation Heatmap := (list (list Z)).

(** [Array.from({ length: 7 }, () => Array.from({ length: 24 }, () => 0))] *)
Definition heatmap_init : Heatmap := replicate 7 (replicate 24 0%Z).

(** [heatmap[dayOfWeek][hour]++]. Without such a row the read throws.
    Without such a cell JavaScript would store NaN in a new slot; the cells
    here are integers, so that case is reported as [None] as well: it is
    never taken, since [getDay] stays below 7 and [getHours] below 24. *)
Definition heatmap_incr (dayOfWeek hour : Z) (heatmap : Heatmap) : option Heatmap :=
  if bool_decide (0 <= dayOfWeek)%Z && bool_decide (0 <= hour)%Z then
    match heatmap !! Z.to_nat dayOfWeek with
    | Some row =>
        match row !! Z.to_nat hour with
        | Some n =>
            Some (<[Z.to_nat dayOfWeek := <[Z.to_nat hour := (n + 1)%Z]> row]> heatmap)
        | None => None
        end
    | None => None
    end
  else None.

(** The [snapshot.forEach] of lines 391-397. *)
Fixpoint heatmap_fold (tz : TimeZone) (snapshot : list AlertRecord) (heatmap : Heatmap)
    : M AlertLog Heatmap :=
  match snapshot with
  | [] => ret heatmap
  | data :: rest =>
      match created_at data with
      | None => throw "Cannot read properties of undefined (reading 'toDate')"
      | Some date =>
          match heatmap_incr (getDay tz date) (getHours tz date) heatmap with
          | Some heatmap' => heatmap_fold tz rest heatmap'
          | None => throw "Cannot read properties of undefined"
          end
      end
  end.

(** The [data] of [GET /heatmap], without the constant [labels]. *)
Record HeatmapReply := mkHeatmapReply {
  weeks : Z;
  heatmap : Heatmap
}.

(** [router.get('/heatmap', ...)], lines 369-420. [weeks] is
    [parseInt(weeks)] and [weeksAgo] the date lines 373-374 leave. *)
Definition get_heatmap (tz : TimeZone) (deviceId : option string) (weeks weeksAgo : Z)
    : M AlertLog (Response HeatmapReply) :=
  try_catch
    (snapshot <- query_get (fun r => created_from weeksAgo r && if_device deviceId r);;
     heatmap <- heatmap_fold tz snapshot heatmap_init;;
     ret (mkResponse 200
            (Success "Heatmap data retrieved" {| weeks := weeks; heatmap := heatmap |})))
    (fun error =>
       console_error "Get heatmap error:";;
       ret (mkResponse 500 (Failure "Failed to get heatmap data" (Some error)))).

(** The sum of all the cells of a matrix. *)
Definition heatmap_total (heatmap : Heatmap) : Z :=
  foldr Z.add 0%Z (map (foldr Z.add 0%Z) heatmap).

(** ** Hourly breakdown *)

Record HourBucket := mkHourBucket {
  hour : Z;
  total : Z;
  alerts_in_hour : Z;
  normal : Z
}.

(** [Array.from({ length: 24 }, (_, i) => ({ hour: i, total: 0, ... }))] *)
Definition hourly_init : list HourBucket :=
  map (fun i => mkHourBucket (Z.of_nat i) 0 0 0) (seq 0 24).

(** [hourly[hour].total++] and the branch on [data.alert]. *)
Definition hourly_incr (is_alert : bool) (b : HourBucket) : HourBucket :=
  {| hour := hour b;
     total := total b + 1;
     alerts_in_hour := if is_alert then alerts_in_hour b + 1 else alerts_in_hour b;
     normal := if is_alert then normal b else normal b + 1 |}.

(** The [snapshot.forEach] of lines 198-204. *)
Fixpoint hourly_fold (tz : TimeZone) (snapshot : list AlertRecord) (hourly : list HourBucket)
    : M AlertLog (list HourBucket) :=
  match snapshot with
  | [] => ret hourly
  | data :: rest =>
      match created_at data with
      | None => throw "Cannot read properties of undefined (reading 'toDate')"
      | Some date =>
          let h := getHours tz date in
          if bool_decide (0 <= h)%Z then
            match hourly !! Z.to_nat h with
            | Some b => hourly_fold tz rest (<[Z.to_nat h := hourly_incr (alert data) b]> hourly)
            | None => throw "Cannot read properties of undefined (reading 'total')"
            end
          else throw "Cannot read properties of undefined (reading 'total')"
      end
  end.

Record HourlyReply := mkHourlyReply {
  date : Z;
  hourly : list HourBucket
}.

(** [router.get('/hourly', ...)], lines 169-223. [targetDate] is the date
    asked for (or now), [startOfDay] and [endOfDay] its local midnight and
    last millisecond as lines 174-177 compute them. *)
Definition get_hourly (tz : TimeZone) (deviceId : option string)
    (targetDate startOfDay endOfDay : Z) : M AlertLog (Response HourlyReply) :=
  try_catch
    (snapshot <- query_get (fun r => created_from startOfDay r
                                     && created_until endOfDay r
                                     && if_device deviceId r);;
     hourly <- hourly_fold tz snapshot hourly_init;;
     ret (mkResponse 200
            (Success "Hourly breakdown retrieved"
               {| date := toISODate targetDate; hourly := hourly |})))
    (fun error =>
       console_error "Get hourly breakdown error:";;
       ret (mkResponse 500 (Failure "Failed to get hourly breakdown" (Some error)))).

(** ** Trends *)

(** The bucket key of [GET /trends], one constructor per template of the
    switch of lines 120-135; [NoKey] is the [undefined] an interval outside
    the four cases leaves. *)
Inductive TrendKey :=
  | HourKey (y m d h : Z)
  | DayKey (y m d : Z)
  | WeekKey (weekStart : Z)
  | MonthKey (y m : Z)
  | NoKey.

#[global] Instance TrendKey_eq_dec : EqDecision TrendKey.
Proof. solve_decision. Defined.

Record TrendBucket := mkTrendBucket {
  trend_total : Z;
  trend_alerts : Z;
  trend_normal : Z
}.

Definition trend_key (tz : TimeZone) (interval : string) (date : Z) : TrendKey :=
  if bool_decide (interval = "hour") then
    HourKey (getFullYear tz date) (getMonth tz date + 1) (getDate tz date) (getHours tz date)
  else if bool_decide (interval = "day") then
    DayKey (getFullYear tz date) (getMonth tz date + 1) (getDate tz date)
  else if bool_decide (interval = "week") then
    let weekStart := UTC tz (LocalTime tz date - getDay tz date * msPerDay) in
    WeekKey (toISODate weekStart)
  else if bool_decide (interval = "month") then
    MonthKey (getFullYear tz date) (getMonth tz date + 1)
  else NoKey.

Definition trend_incr (is_alert : bool) (b : TrendBucket) : TrendBucket :=
  {| trend_total := trend_total b + 1;
     trend_alerts := if is_alert then trend_alerts b + 1 else trend_alerts b;
     trend_normal := if is_alert then trend_normal b else trend_normal b + 1 |}.

(** Lines 137-142: the bucket of [key] is created on first use, then bumped. *)
Fixpoint trend_bump (key : TrendKey) (is_alert : bool)
    (trends : list (TrendKey * TrendBucket)) : list (TrendKey * TrendBucket) :=
  match trends with
  | [] => [(key, trend_incr is_alert (mkTrendBucket 0 0 0))]
  | (k, b) :: rest =>
      if bool_decide (k = key) then (k, trend_incr is_alert b) :: rest
      else (k, b) :: trend_bump key is_alert rest
  end.

Fixpoint trends_fold (tz : TimeZone) (interval : string) (snapshot : list AlertRecord)
    (trends : list (TrendKey * TrendBucket)) : M AlertLog (list (TrendKey * TrendBucket)) :=
  match snapshot with
  | [] => ret trends
  | data :: rest =>
      match created_at data with
      | None => throw "Cannot read properties of undefined (reading 'toDate')"
      | Some date =>
          trends_fold tz interval rest (trend_bump (trend_key tz interval date) (alert data) trends)
      end
  end.

(** A stable sort by a JavaScript comparator ([cmp a b <= 0] keeps [a]
    first). *)
Fixpoint insert_by {A} (cmp : A -> A -> Z) (x : A) (l : list A) : list A :=
  match l with
  | [] => [x]
  | y :: l' => if bool_decide (cmp x y <= 0)%Z then x :: y :: l' else y :: insert_by cmp x l'
  end.

Definition sort_by {A} (cmp : A -> A -> Z) (l : list A) : list A :=
  foldr (insert_by cmp) [] l.

Record TrendsReply := mkTrendsReply {
  interval : string;
  trends : list (TrendKey * TrendBucket)
}.

(** [router.get('/trends', ...)], lines 89-162. The bounds are the parsed
    query parameters, [None] when absent or empty. *)
Definition get_trends (tz : TimeZone) (startDate endDate : option Z)
    (deviceId : option string) (interval : string) : M AlertLog (Response TrendsReply) :=
  try_catch
    (match startDate, endDate with
     | Some s, Some e =>
         matched <- query_get (fun r => created_from s r && created_until e r
                                        && if_device deviceId r);;
         let snapshot :=
           sort_by (fun a b => default 0 (created_at a) - default 0 (created_at b))%Z matched in
         trends <- trends_fold tz interval snapshot [];;
         ret (mkResponse 200
                (Success "Trends data retrieved" {| interval := interval; trends := trends |}))
     | _, _ => ret (mkResponse 400 (Failure "startDate and endDate are required" None))
     end)
    (fun error =>
       console_error "Get trends error:";;
       ret (mkResponse 500 (Failure "Failed to get trends" (Some error)))).

(** ** Per-device analytics *)

(** An entry of [deviceStats]; [stat_avgDistance] is [None] for NaN. *)
Record DeviceStats := mkDeviceStats {
  stat_deviceId : option string;
  stat_totalAlerts : Z;
  stat_activeAlerts : Z;
  stat_totalDistance : Qc;
  stat_avgDistance : option Qc;
  lastSeen : option Z
}.

(** The body of the [forEach] of lines 256-263 on the entry of the device. *)
Definition stats_incr (data : AlertRecord) (s : DeviceStats) : DeviceStats :=
  {| stat_deviceId := stat_deviceId s;
     stat_totalAlerts := stat_totalAlerts s + 1;
     stat_activeAlerts := if is_active data then stat_activeAlerts s + 1 else stat_activeAlerts s;
     stat_totalDistance := (stat_totalDistance s + distance_or_0 data)%Qc;
     stat_avgDistance := stat_avgDistance s;
     lastSeen :=
       match created_at data, lastSeen s with
       | Some timestamp, None => Some timestamp
       | Some timestamp, Some seen =>
           if bool_decide (timestamp > seen)%Z then Some timestamp else Some seen
       | None, seen => seen
       end |}.

(** [deviceStats] is a plain object, so a record is filed under a property
    name: its device id, or "undefined" when it has none. A record without
    an id and a record whose id is the string "undefined" share an entry. *)
Definition property_key (deviceId : option string) : string :=
  default "undefined" deviceId.

(** The names every plain object inherits from [Object.prototype] as the
    engine starts it. Under such a name [deviceStats[name]] finds a
    function (under "__proto__" the prototype itself), which is truthy. *)
Definition Object_prototype : list string :=
  ["constructor"; "__defineGetter__"; "__defineSetter__"; "hasOwnProperty";
   "__lookupGetter__"; "__lookupSetter__"; "isPrototypeOf"; "propertyIsEnumerable";
   "toString"; "valueOf"; "__proto__"; "toLocaleString"].

(** [deviceStats] during the [forEach]: its own properties in the order
    they were created, and whether [Object.prototype] carries a [lastSeen].
    The handler itself can leave one there: for a record filed under
    "__proto__" lines 256-263 work on the prototype, where [totalAlerts]
    and [totalDistance] become NaN ([activeAlerts] too if the record is
    active), which is falsy, and [lastSeen] becomes the date of the
    record, if it has one, which is truthy. *)
Record DeviceTable := mkDeviceTable {
  own : list (string * DeviceStats);
  prototype_lastSeen : bool
}.

(** [deviceStats[key]] is truthy without [key] being an own property. *)
Definition inherited (t : DeviceTable) (key : string) : bool :=
  bool_decide (key ∈ Object_prototype)
  || (prototype_lastSeen t && bool_decide (key = "lastSeen")).

(** Lines 256-263 on the own property [key], if there is one. *)
Fixpoint bump_own (key : string) (data : AlertRecord) (entries : list (string * DeviceStats))
    : option (list (string * DeviceStats)) :=
  match entries with
  | [] => None
  | (k, s) :: rest =>
      if bool_decide (k = key) then Some ((k, stats_incr data s) :: rest)
      else cons (k, s) <$> bump_own key data rest
  end.

(** Lines 243-263 for one record. An own entry is bumped. Without one, a
    truthy inherited value stands in for the entry, nothing is created and
    the record shows in no entry; otherwise the entry is created, then
    bumped. *)
Definition stats_bump (data : AlertRecord) (t : DeviceTable) : DeviceTable :=
  let key := property_key (deviceId data) in
  match bump_own key data (own t) with
  | Some entries => {| own := entries; prototype_lastSeen := prototype_lastSeen t |}
  | None =>
      if inherited t key then
        {| own := own t;
           prototype_lastSeen :=
             prototype_lastSeen t
             || (bool_decide (key = "__proto__") && bool_decide (is_Some (created_at data))) |}
      else
        {| own := own t ++
                    [(key, stats_incr data
                             (mkDeviceStats (deviceId data) 0 0 (num 0) (Some (num 0)) None))];
           prototype_lastSeen := prototype_lastSeen t |}
  end.

(** A decimal digit, and the number a string of digits writes. *)
Definition digit (a : Ascii.ascii) : option N :=
  let n := Ascii.N_of_ascii a in
  if bool_decide (48 <= n <= 57)%N then Some (n - 48)%N else None.

Fixpoint digits (acc : N) (s : string) : option N :=
  match s with
  | EmptyString => Some acc
  | String a rest => d ← digit a; digits (10 * acc + d)%N rest
  end.

(** An array index: the canonical numeral of an integer below [2^32 - 1]. *)
Definition array_index (key : string) : option N :=
  n ← digits 0 key;
  if bool_decide (pretty n = key) && bool_decide (n < 4294967295)%N then Some n else None.

(** [Object.values]: the properties whose names are array indices come
    first, in increasing order of index, then the others in the order they
    were created. *)
Definition Object_values {A} (entries : list (string * A)) : list A :=
  let indexed := omap (fun row => n ← array_index row.1; Some (n, row.2)) entries in
  let named := filter (fun row => array_index row.1 = None) entries in
  map snd (sort_by (fun a b => Z.of_N a.1 - Z.of_N b.1)%Z indexed) ++ map snd named.

(** Lines 267-270: the average of each entry. *)
Definition with_average (device : DeviceStats) : DeviceStats :=
  {| stat_deviceId := stat_deviceId device;
     stat_totalAlerts := stat_totalAlerts device;
     stat_activeAlerts := stat_activeAlerts device;
     stat_totalDistance := stat_totalDistance device;
     stat_avgDistance :=
       if bool_decide (stat_totalAlerts device = 0)%Z then None
       else Some (round2 (stat_totalDistance device / num (stat_totalAlerts device))%Qc);
     lastSeen := lastSeen device |}.

(** The comparator of lines 273-277. *)
Definition device_cmp (sortBy : string) (a b : DeviceStats) : Z :=
  if bool_decide (sortBy = "alerts") then (stat_totalAlerts b - stat_totalAlerts a)%Z
  else if bool_decide (sortBy = "lastSeen") then
    (default 0 (lastSeen b) - default 0 (lastSeen a))%Z
  else 0%Z.

(** [array.slice(0, n)], [n = None] standing for NaN. *)
Definition slice0 {A} (n : option Z) (l : list A) : list A :=
  match n with
  | None => []
  | Some n =>
      if bool_decide (n < 0)%Z then take (length l - Z.to_nat (- n)) l
      else take (Z.to_nat n) l
  end.

Record DevicesReply := mkDevicesReply {
  count : nat;
  devices : list DeviceStats
}.

(** The process that serves [GET /devices]: the rows of [Alerts], and
    whether an earlier request has left a [lastSeen] on
    [Object.prototype]. *)
Record DeviceProcess := mkDeviceProcess {
  Alerts_log : AlertLog;
  prototype_polluted : bool
}.

(** [router.get('/devices', ...)], lines 230-296; [limit] is
    [parseInt(limit)]. *)
Definition get_devices (sortBy : string) (limit : option Z)
    : M DeviceProcess (Response DevicesReply) :=
  try_catch
    (await_db;;
     snapshot <- read Alerts_log;;
     polluted <- read prototype_polluted;;
     let deviceStats :=
       foldl (fun acc data => stats_bump data acc) (mkDeviceTable [] polluted) snapshot in
     write (fun s => mkDeviceProcess (Alerts_log s) (prototype_lastSeen deviceStats));;
     let devices :=
       sort_by (device_cmp sortBy) (map with_average (Object_values (own deviceStats))) in
     ret (mkResponse 200
            (Success "Device analytics retrieved"
               {| count := length devices; devices := slice0 limit devices |})))
    (fun error =>
       console_error "Get device analytics error:";;
       ret (mkResponse 500 (Failure "Failed to get device analytics" (Some error)))).

(** ** Specification vocabulary *)

(** [accepts n fs]: the provider lets the next [n] calls through. *)
Fixpoint accepts (n : nat) (fs : list bool) : bool :=
  match n, fs with
  | O, _ => true
  | S _, [] => true
  | S n, f :: fs => negb f && accepts n fs
  end.

(** [outcome m Q E w]: run from [w], the handler [m] either returns a value
    and a world that satisfy [Q], or throws an error and leaves a world that
    satisfy [E]. Handlers are total functions of the world, so this is total
    correctness. *)
Definition outcome {S A} (m : M S A) (Q : A -> World S -> Prop)
    (E : string -> World S -> Prop) (w : World S) : Prop :=
  match m w with
  | (Returned a, w') => Q a w'
  | (Thrown e, w') => E e w'
  end.

(** The handler returns: it does not throw. *)
Definition returns {S A} (m : M S A) (Q : A -> World S -> Prop) (w : World S) : Prop :=
  outcome m Q (fun _ _ => False) w.

(** The two generations of the sensor routes. *)
Inductive Generation := Legacy | V2.

Definition units_of (g : Generation) : SensorStore -> gmap string SensorDoc :=
  match g with Legacy => sensor_units | V2 => Sensor_Units end.

Definition threshold_of (g : Generation) : SensorDoc -> option Qc :=
  match g with Legacy => boundary_threshold | V2 => max_distance_threshold end.

Definition sensor_types_of (g : Generation) : list string :=
  match g with
  | Legacy => ["LIDAR"; "ULTRASONIC"]
  | V2 => ["LIDAR"; "ULTRASONIC"; "Ultrasonic"]
  end.

Definition reading_handler (g : Generation)
    : Env -> ReadingRequest -> M SensorStore (Response ReadingReply) :=
  match g with Legacy => post_reading | V2 => post_reading_v2 end.

Definition batch_handler (g : Generation)
    : Env -> BatchRequest -> M SensorStore (Response (list (string * string))) :=
  match g with Legacy => post_batch | V2 => post_batch_v2 end.

Definition live_handler (g : Generation) : string -> M SensorStore (Response LiveReply) :=
  match g with Legacy => get_live | V2 => get_live_v2 end.

(** The severity label each generation writes on an alert, and the rows it
    has written so far. *)
Definition severities (g : Generation) (s : SensorStore) : list (N * string) :=
  match g with
  | Legacy => map (fun row => (row.1, security_level row.2)) (alerts s)
  | V2 => map (fun row => (row.1, breach_level row.2)) (Alerts s)
  end.

Definition alert_recorder (g : Generation)
    : string -> SensorDoc -> Qc -> M SensorStore unit :=
  match g with Legacy => createAlert | V2 => createAlert_v2 end.

(** What one run of the alert recorder on distance [d] adds to the store:
    a row of the alert collection, and in the first generation a row of
    [notifications] that refers to it. *)
Definition recorded (g : Generation) (sid : string) (d : Qc) (s s' : SensorStore) : Prop :=
  match g with
  | Legacy =>
      exists id a nid n,
        alerts s' = alerts s ++ [(id, a)] /\
        alert_sensor_id a = sid /\ trigger_distance a = d /\
        notifications s' = notifications s ++ [(nid, n)] /\ alert_id n = id
  | V2 =>
      exists id a,
        Alerts s' = Alerts s ++ [(id, a)] /\
        v2_sensor_id a = sid /\ breach_distance a = d /\
        notifications s' = notifications s
  end.

(** The labels of the two severity tiers in each generation. *)
Definition critical_label (g : Generation) : string :=
  match g with Legacy => "critical" | V2 => "Critical" end.

Definition high_label (g : Generation) : string :=
  match g with Legacy => "high" | V2 => "High" end.

(** The alert recorder fails: one of its writes is rejected. *)
Definition recording_fails (g : Generation) (fs : list bool) : Prop :=
  match g with
  | Legacy => head fs = Some true \/ (head fs = Some false /\ head (tail fs) = Some true)
  | V2 => head fs = Some true
  end.

(** What a reading that passes validation leaves behind, as long as the
    provider lets the sensor lookup and the three writes of the reading
    through; the alert recorder may fail or not. [st] is the status derived
    for the reading. *)
Definition reading_recorded (g : Generation) (b : ReadingRequest) (st : string)
    (w : World SensorStore) (resp : Response ReadingReply) (w' : World SensorStore) : Prop :=
  (exists reply,
     resp = mkResponse 200 (Success "Sensor reading recorded" reply) /\
     status reply = st /\ reading_id reply = next_key w /\ timestamp reply = clock w) /\
  (exists r,
     ((toISODate (clock w), sensor_id b, PushKey (next_key w)), r) ∈ sensor_readings (store w') /\
     reading_distance r = distance_measured b /\ reading_status r = st) /\
  (exists live,
     sensor_status (store w') !! sensor_id b = Some live /\
     last_reading live = Some (distance_measured b) /\
     last_timestamp live = Some (clock w) /\
     live_status live = Some st /\ is_online live = Some true) /\
  (st <> "alert" ->
   severities g (store w') = severities g (store w) /\
   notifications (store w') = notifications (store w) /\
   console w' = console w) /\
  (st = "alert" -> recording_fails g (drop 4 (faults w)) ->
   console w' = console w ++ ["Error creating alert:"]).

(** ** Sample data

    A sensor with threshold 50 in both collections, a world around it with a
    chosen plan of faults, and requests on it. *)

Definition sample_sensor : SensorDoc :=
  mkSensorDoc "zone-1" "farm-1" (Some "farmer-1") "north fence corner"
    (Some (num 50)) (Some (num 50)) None None true None.

Definition sample_store : SensorStore :=
  mkSensorStore {["sensor-1" := sample_sensor]} {["sensor-1" := sample_sensor]}
    [] [] [] [] ∅.

Definition sample_world (fs : list bool) : World SensorStore :=
  mkWorld sample_store fs 1700000000000 0 [].

Definition sample_env : Env := mkEnv (Some "secret").

Definition sample_reading (d : Z) : ReadingRequest :=
  mkReadingRequest "sensor-1" (num d) "LIDAR" "secret".

(** The same sensor with its threshold set to 100, and a batch of one
    reading of it. *)
Definition wide_sensor : SensorDoc :=
  mkSensorDoc "zone-1" "farm-1" (Some "farmer-1") "north fence corner"
    (Some (num 100)) (Some (num 100)) None None true None.

Definition wide_world : World SensorStore :=
  mkWorld
    (mkSensorStore {["sensor-1" := wide_sensor]} {["sensor-1" := wide_sensor]}
       [] [] [] [] ∅)
    [] 1700000000000 0 [].

Definition sample_batch (d : Z) : BatchRequest :=
  mkBatchRequest [mkBatchReading "sensor-1" (num d) "LIDAR" (Some 1700000000000%Z)]
    (Some "secret").

(** A heatmap has seven rows of twenty-four cells. *)
Definition heatmap_shape (heatmap : Heatmap) : Prop :=
  length heatmap = 7%nat /\ Forall (fun row => length row = 24%nat) heatmap.

(** The server's time zone in the samples: UTC+8 all year. *)
Definition sample_tz : TimeZone := fun _ _ => (8 * msPerHour)%Z.

(** Three alerts as the analytics routes read them: two of device "dev-1"
    late on 2023-11-14 UTC (22:13 and 23:13), an older one of "dev-2". *)
Definition sample_log : AlertLog :=
  [ mkAlertRecord (Some "dev-1") true false (Some (num 30)) (Some 1700000000000%Z);
    mkAlertRecord (Some "dev-1") true true (Some (num 10)) (Some 1700003600000%Z);
    mkAlertRecord (Some "dev-2") true false None (Some 1600000000000%Z) ].

Definition sample_log_world : World AlertLog := mkWorld sample_log [] 1700010000000 0 [].

(** The cached counters as a reader sees them: the count of a zone, of a
    farm, of a farmer ([None] when there is no such document; a document
    without the field counts 0, as [FieldValue.increment] takes it). *)
Definition zone_count (s : FarmStore) (zone : string) : option Z :=
  z ← boundary_zones s !! zone; Some (default 0%Z (current_livestock_count z)).

Definition farm_count (s : FarmStore) (farm : string) : option Z :=
  f ← farms s !! farm; Some (default 0%Z (livestock_count f)).

Definition farmer_count (s : FarmStore) (farmer : string) : option Z :=
  f ← farmers s !! farmer; Some (default 0%Z (farms_count f)).

(** The counters of a farm that a livestock removal must leave alone. *)
Definition other_farm_counters (f : FarmDoc) : option Z * option Z * option Z :=
  (zones_count f, sensors_count f, active_alerts f).

(** A farmer "farmer-1" with one farm, one zone and one animal, every
    cached counter equal to the true count. *)
Definition sample_farm_store : FarmStore :=
  mkFarmStore
    {["cow-1" := mkLivestockDoc (Some "zone-1") (Some "farm-1") (Some "North") "TAG-1"]}
    {["zone-1" := mkZoneDoc "North" (Some 1%Z)]}
    {["farm-1" := mkFarmDoc "farmer-1" "Hill farm" (Some 1%Z) (Some 1%Z) (Some 0%Z) (Some 0%Z)]}
    {["farmer-1" := mkFarmerDoc "Ana" (Some 1%Z)]}.

Definition sample_farm_world : World FarmStore :=
  mkWorld sample_farm_store [] 1700000000000 0 [].

(** ** Further vocabulary *)

(** What is left when the update of the sensor document, the third write
    of a reading, is rejected: the reading and the live status written just
    before, an untouched sensor document, and no alert. *)
Definition reading_half_written (g : Generation) (b : ReadingRequest) (st : string)
    (w w' : World SensorStore) : Prop :=
  (exists r,
     ((toISODate (clock w), sensor_id b, PushKey (next_key w)), r) ∈ sensor_readings (store w') /\
     reading_distance r = distance_measured b /\ reading_status r = st) /\
  (exists live,
     sensor_status (store w') !! sensor_id b = Some live /\
     last_reading live = Some (distance_measured b) /\ live_status live = Some st) /\
  units_of g (store w') = units_of g (store w) /\
  severities g (store w') = severities g (store w) /\
  notifications (store w') = notifications (store w).

(** The batch route, whatever it answers, has touched nothing but the
    stored readings and the console. *)
Definition batch_untouched (s s' : SensorStore) : Prop :=
  alerts s' = alerts s /\ Alerts s' = Alerts s /\
  notifications s' = notifications s /\
  sensor_status s' = sensor_status s /\
  sensor_units s' = sensor_units s /\ Sensor_Units s' = Sensor_Units s.







(** The sample log behind a process whose prototype is clean. *)
Definition sample_device_world : World DeviceProcess :=
  mkWorld (mkDeviceProcess sample_log false) [] 1700010000000 0 [].

(** ** Livestock added and changed (part_004) *)

(** Firestore's auto-id of [add], as a document id: the digits of the
    generated key. *)
Definition auto_id (k : N) : string := pretty k.

(** [collection(c).add(doc)] on a collection kept by document id. *)
Definition add_doc {S D} (upd : (gmap string D -> gmap string D) -> S -> S) (doc : D)
    : M S string :=
  await_db;;
  k <- fresh_key;;
  write (upd <[auto_id k := doc]>);;
  ret (auto_id k).

(** The body of [POST /api/livestock] once parsed. The optional fields are
    [None] when the body has no such key. *)
Record LivestockRequest := mkLivestockRequest {
  body_zone_id : string;
  body_farm_id : string;
  body_animal_type : string;
  body_identification_tag : string;
  body_age_months : option Qc;
  body_weight_kg : option Qc;
  body_health_status : option string
}.

(** [isInt({ min: 0 })] on a number. *)
Definition isInt_min0 (q : Qc) : bool :=
  bool_decide (Qden q = 1%positive) && negb (js_lt q (num 0)).

(** [optional().<check>]: an absent field passes. *)
Definition optional {A} (check : A -> bool) (field : string) (v : option A) : list string :=
  match v with
  | Some x => if check x then [] else [field]
  | None => []
  end.

(** The express-validator chain of [POST /api/livestock], lines 12-20: the
    fields that fail. *)
Definition livestock_validation (b : LivestockRequest) : list string :=
  (if bool_decide (body_zone_id b = "") then ["zone_id"] else []) ++
  (if bool_decide (body_farm_id b = "") then ["farm_id"] else []) ++
  (if bool_decide (body_animal_type b ∈ ["Goat"; "Chicken"; "Cow"; "Sheep"; "Pig"])
   then [] else ["animal_type"]) ++
  (if bool_decide (body_identification_tag b = "") then ["identification_tag"] else []) ++
  optional isInt_min0 "age_months" (body_age_months b) ++
  optional (fun q => negb (js_lt q (num 0))) "weight_kg" (body_weight_kg b) ++
  optional (fun h => bool_decide (h ∈ ["healthy"; "sick"; "injured"; "quarantine"]))
    "health_status" (body_health_status b).

(** [where('identification_tag', '==', tag).where('farm_id', '==', farm)] on
    [livestock]. *)
Definition tag_in_farm (tag farm : string) (s : FarmStore) : list (string * LivestockDoc) :=
  filter (fun row => identification_tag row.2 = tag /\ farm_id row.2 = Some farm)
    (map_to_list (livestock s)).

(** The [data] of the 201 answer: the new id and the document written, of
    which a [LivestockDoc] keeps the fields that the routes read back. *)
Record LivestockAdded := mkLivestockAdded {
  added_id : string;
  added_doc : LivestockDoc
}.

(** [router.post('/', ...)], part_004 lines 12-138. [trim] is the sanitizer
    of express-validator, run on [identification_tag] after its check. *)
Definition post_livestock (trim : string -> string) (b : LivestockRequest)
    : M FarmStore (Response LivestockAdded) :=
  try_catch
    (let errors := livestock_validation b in
     if negb (bool_decide (errors = [])) then
       ret (mkResponse 400 (Invalid errors))
     else
       let tag := trim (body_identification_tag b) in
       await_db;;
       existingTag <- read (fun s => take 1 (tag_in_farm tag (body_farm_id b) s));;
       match existingTag with
       | _ :: _ => ret (mkResponse 409 (Failure "Identification tag already exists" None))
       | [] =>
           zoneDoc <- doc_get boundary_zones (body_zone_id b);;
           match zoneDoc with
           | None => ret (mkResponse 404 (Failure "Zone not found" None))
           | Some zoneData =>
               let livestockData :=
                 {| zone_id := Some (body_zone_id b);
                    zone_name := Some (boundary_zone_name zoneData);
                    farm_id := Some (body_farm_id b);
                    identification_tag := tag |} in
               livestockRef <- add_doc set_livestock livestockData;;
               doc_update boundary_zones set_boundary_zones (body_zone_id b) (bump_zone 1);;
               doc_update farms set_farms (body_farm_id b) (bump_farm 1);;
               ret (mkResponse 201
                      (Success "Livestock added successfully"
                         {| added_id := livestockRef; added_doc := livestockData |}))
           end
       end)
    (fun error =>
       console_error "Add livestock error:";;
       ret (mkResponse 500 (Failure "Failed to add livestock" (Some error)))).

(** The body of [PUT /api/livestock/:livestockId]: its own keys in their
    order, and the values of those that a [LivestockDoc] keeps. The handler
    never asks for the result of its validation chain, so any body gets
    through. *)
Record LivestockPatch := mkLivestockPatch {
  patch_keys : list string;
  patch_zone_id : option string;
  patch_farm_id : option string;
  patch_zone_name : option string;
  patch_identification_tag : option string
}.

(** [updateData[key] = value] as [Object.keys] sees it: a key that is there
    keeps its place, a new one goes last. *)
Definition assign_key (key : string) (keys : list string) : list string :=
  if bool_decide (key ∈ keys) then keys else keys ++ [key].

(** [updateData.zone_name = name] *)
Definition assign_zone_name (name : string) (p : LivestockPatch) : LivestockPatch :=
  {| patch_keys := assign_key "zone_name" (patch_keys p);
     patch_zone_id := patch_zone_id p;
     patch_farm_id := patch_farm_id p;
     patch_zone_name := Some name;
     patch_identification_tag := patch_identification_tag p |}.

(** [updateData.updated_at = FieldValue.serverTimestamp()] *)
Definition assign_updated_at (p : LivestockPatch) : LivestockPatch :=
  {| patch_keys := assign_key "updated_at" (patch_keys p);
     patch_zone_id := patch_zone_id p;
     patch_farm_id := patch_farm_id p;
     patch_zone_name := patch_zone_name p;
     patch_identification_tag := patch_identification_tag p |}.

(** A field of a document under [update]: written when the patch has it. *)
Definition patched {A} (new : option A) (old : option A) : option A :=
  match new with
  | Some v => Some v
  | None => old
  end.

(** [update(updateData)] on a livestock document. *)
Definition apply_patch (p : LivestockPatch) (d : LivestockDoc) : LivestockDoc :=
  {| zone_id := patched (patch_zone_id p) (zone_id d);
     farm_id := patched (patch_farm_id p) (farm_id d);
     zone_name := patched (patch_zone_name p) (zone_name d);
     identification_tag := default (identification_tag d) (patch_identification_tag p) |}.

(** The [data] of the 200 answer of an update. *)
Record Updated := mkUpdated {
  updated_id : string;
  updated_fields : list string
}.

(** [if (updateData.zone_id) { ... }], part_004 lines 311-346: the counts of
    the old and of the new zone, then the name of the new zone. *)
Definition move_zone (livestockId : string) (updateData : LivestockPatch)
    : M FarmStore LivestockPatch :=
  match patch_zone_id updateData with
  | Some new_zone =>
      if bool_decide (new_zone = "") then ret updateData
      else
        livestockDoc <- doc_get livestock livestockId;;
        match livestockDoc with
        | Some livestockData =>
            oldZoneId <- doc_path (zone_id livestockData);;
            doc_update boundary_zones set_boundary_zones oldZoneId (bump_zone (-1));;
            doc_update boundary_zones set_boundary_zones new_zone (bump_zone 1);;
            newZoneDoc <- doc_get boundary_zones new_zone;;
            match newZoneDoc with
            | Some zoneData => ret (assign_zone_name (boundary_zone_name zoneData) updateData)
            | None => ret updateData
            end
        | None => ret updateData
        end
  | None => ret updateData
  end.

(** [router.put('/:livestockId', ...)], part_004 lines 292-370. *)
Definition put_livestock (livestockId : string) (b : LivestockPatch)
    : M FarmStore (Response Updated) :=
  try_catch
    (updateData <- move_zone livestockId (assign_updated_at b);;
     doc_update livestock set_livestock livestockId (apply_patch updateData);;
     ret (mkResponse 200
            (Success "Livestock updated successfully"
               {| updated_id := livestockId;
                  updated_fields := patch_keys updateData |})))
    (fun error =>
       console_error "Update livestock error:";;
       ret (mkResponse 500 (Failure "Failed to update livestock" (Some error)))).

(** The number of livestock documents that name [zone] as their zone, and
    [farm] as their farm: what [current_livestock_count] of the zone and
    [livestock_count] of the farm cache. *)
Definition livestock_in_zone (zone : string) (s : FarmStore) : nat :=
  length (filter (fun row => zone_id row.2 = Some zone) (map_to_list (livestock s))).

Definition livestock_of_farm (farm : string) (s : FarmStore) : nat :=
  length (filter (fun row => farm_id row.2 = Some farm) (map_to_list (livestock s))).

(** The cached count of a zone, of a farm, is the true one. *)
Definition zone_exact (s : FarmStore) (zone : string) : Prop :=
  zone_count s zone = Some (Z.of_nat (livestock_in_zone zone s)).

Definition farm_exact (s : FarmStore) (farm : string) : Prop :=
  farm_count s farm = Some (Z.of_nat (livestock_of_farm farm s)).

(** A request to add a goat to the zone and the farm of the sample store. *)
Definition sample_livestock_request : LivestockRequest :=
  mkLivestockRequest "zone-1" "farm-1" "Goat" "TAG-2" (Some (num 14)) None None.

(** The sample store with a second, empty zone. *)
Definition two_zone_store : FarmStore :=
  set_boundary_zones <["zone-2" := mkZoneDoc "South" (Some 0%Z)]> sample_farm_store.

Definition two_zone_world : World FarmStore :=
  mkWorld two_zone_store [] 1700000000000 0 [].

(** ** src/routes/farm.routes.js: farms behind an ownership check *)

(** The collections of the newer farm routes, in their own spelling. *)
Record FarmStoreV2 := mkFarmStoreV2 {
  Farms : gmap string FarmDoc;
  Farmers : gmap string FarmerDoc
}.

Definition set_Farms (f : gmap string FarmDoc -> gmap string FarmDoc)
    (s : FarmStoreV2) : FarmStoreV2 :=
  mkFarmStoreV2 (f (Farms s)) (Farmers s).

Definition set_Farmers (f : gmap string FarmerDoc -> gmap string FarmerDoc)
    (s : FarmStoreV2) : FarmStoreV2 :=
  mkFarmStoreV2 (Farms s) (f (Farmers s)).

(** [router.delete('/:farmId', verifyToken, ...)], lines 295-353, once
    [verifyToken] has let the request through; [user] is
    [req.user.userId]. *)
Definition delete_farm_v2 (user farmId : string) : M FarmStoreV2 (Response unit) :=
  try_catch
    (farmDoc <- doc_get Farms farmId;;
     match farmDoc with
     | None => ret (mkResponse 404 (Failure "Farm not found" None))
     | Some farmData =>
         if negb (bool_decide (farmer_id farmData = user)) then
           ret (mkResponse 403 (Failure "Access denied" None))
         else
           doc_delete set_Farms farmId;;
           farmerDoc <- doc_get Farmers user;;
           match farmerDoc with
           | Some _ => doc_update Farmers set_Farmers user (bump_farmer (-1))
           | None => ret tt
           end;;
           ret (mkResponse 200 (Success "Farm deleted successfully" tt))
     end)
    (fun error =>
       console_error "Delete farm error:";;
       ret (mkResponse 500 (Failure "Failed to delete farm" (Some error)))).

(** The body of [PUT /api/farms/:farmId]: its own keys in their order, and
    the values of those that a [FarmDoc] keeps. Nothing validates it. *)
Record FarmPatch := mkFarmPatch {
  farm_patch_keys : list string;
  patch_farmer_id : option string;
  patch_farm_name : option string;
  patch_zones_count : option Z;
  patch_livestock_count : option Z;
  patch_sensors_count : option Z;
  patch_active_alerts : option Z
}.

(** [update(updateData)] on a farm document. *)
Definition apply_farm_patch (p : FarmPatch) (d : FarmDoc) : FarmDoc :=
  {| farmer_id := default (farmer_id d) (patch_farmer_id p);
     farm_name := default (farm_name d) (patch_farm_name p);
     zones_count := patched (patch_zones_count p) (zones_count d);
     livestock_count := patched (patch_livestock_count p) (livestock_count d);
     sensors_count := patched (patch_sensors_count p) (sensors_count d);
     active_alerts := patched (patch_active_alerts p) (active_alerts d) |}.

(** [router.put('/:farmId', verifyToken, ...)], lines 238-288. *)
Definition put_farm_v2 (user farmId : string) (b : FarmPatch)
    : M FarmStoreV2 (Response Updated) :=
  try_catch
    (farmDoc <- doc_get Farms farmId;;
     match farmDoc with
     | None => ret (mkResponse 404 (Failure "Farm not found" None))
     | Some farmData =>
         if negb (bool_decide (farmer_id farmData = user)) then
           ret (mkResponse 403 (Failure "Access denied" None))
         else
           let updateData_keys := assign_key "updated_at" (farm_patch_keys b) in
           doc_update Farms set_Farms farmId (apply_farm_patch b);;
           ret (mkResponse 200
                  (Success "Farm updated successfully"
                     {| updated_id := farmId; updated_fields := updateData_keys |}))
     end)
    (fun error =>
       console_error "Update farm error:";;
       ret (mkResponse 500 (Failure "Failed to update farm" (Some error)))).

(** The number of farm documents of [Farms] that name [f] as their farmer,
    the count of farms cached on [f], and the two being equal. *)
Definition Farms_of (f : string) (s : FarmStoreV2) : nat :=
  length (filter (fun row => farmer_id row.2 = f) (map_to_list (Farms s))).

Definition Farmer_count (s : FarmStoreV2) (farmer : string) : option Z :=
  f ← Farmers s !! farmer; Some (default 0%Z (farms_count f)).

Definition farmer_exact (s : FarmStoreV2) (farmer : string) : Prop :=
  Farmer_count s farmer = Some (Z.of_nat (Farms_of farmer s)).

(** Two farmers, the first with one farm, every count exact. *)
Definition sample_farm_store_v2 : FarmStoreV2 :=
  mkFarmStoreV2
    {["farm-1" := mkFarmDoc "farmer-1" "Hill farm" (Some 1%Z) (Some 1%Z) (Some 0%Z) (Some 0%Z)]}
    {["farmer-1" := mkFarmerDoc "Ana" (Some 1%Z);
      "farmer-2" := mkFarmerDoc "Ben" (Some 0%Z)]}.

Definition sample_farm_world_v2 : World FarmStoreV2 :=
  mkWorld sample_farm_store_v2 [] 1700000000000 0 [].

(** ** Sensors registered (src/routes/sensor.routes.js) *)

(** The body of [POST /register] once parsed; a coordinate is [None] when
    it is absent or not a number. *)
Record RegisterRequest := mkRegisterRequest {
  reg_device_id : string;
  reg_sensor_type : string;
  reg_zone_id : string;
  reg_farm_id : string;
  reg_location_description : string;
  reg_latitude : option Qc;
  reg_longitude : option Qc
}.

(** The express-validator chain of [POST /register], lines 287-295: the
    fields that fail. *)
Definition register_validation (b : RegisterRequest) : list string :=
  (if bool_decide (reg_device_id b = "") then ["device_id"] else []) ++
  (if bool_decide (reg_sensor_type b ∈ ["LIDAR"; "ULTRASONIC"]) then [] else ["sensor_type"]) ++
  (if bool_decide (reg_zone_id b = "") then ["zone_id"] else []) ++
  (if bool_decide (reg_farm_id b = "") then ["farm_id"] else []) ++
  (if bool_decide (reg_location_description b = "") then ["location_description"] else []) ++
  (if reg_latitude b is Some _ then [] else ["coordinates.latitude"]) ++
  (if reg_longitude b is Some _ then [] else ["coordinates.longitude"]).

(** The [data] of the 201 answer: the new id and the document written, of
    which a [SensorDoc] keeps the fields that the routes read back. *)
Record Registered := mkRegistered {
  registered_id : string;
  registered_doc : SensorDoc
}.

(** [router.post('/register', verifyToken, ...)], lines 287-362, once
    [verifyToken] has let the request through. The document gets no
    [farmer_id]. *)
Definition post_register (b : RegisterRequest) : M SensorStore (Response Registered) :=
  try_catch
    (let errors := register_validation b in
     if negb (bool_decide (errors = [])) then
       ret (mkResponse 400 (Invalid errors))
     else
       let sensorData :=
         {| sensor_zone_id := reg_zone_id b;
            sensor_farm_id := reg_farm_id b;
            sensor_farmer_id := None;
            location_description := reg_location_description b;
            boundary_threshold := Some (num 50);
            max_distance_threshold := None;
            sensor_last_reading := None;
            last_reading_time := None;
            is_operational := true;
            total_readings_today := Some 0%Z |} in
       sensorRef <- add_doc set_sensor_units sensorData;;
       now <- Date_now;;
       await_db;;
       write (set_sensor_status
                <[sensorRef :=
                   {| last_reading := Some (num 0);
                      last_timestamp := Some now;
                      live_status := Some "inactive";
                      is_online := Some false;
                      battery_level := None |}]>);;
       ret (mkResponse 201
              (Success "Sensor registered successfully"
                 {| registered_id := sensorRef; registered_doc := sensorData |})))
    (fun error =>
       console_error "Sensor registration error:";;
       ret (mkResponse 500 (Failure "Failed to register sensor" (Some error)))).

(** A registration for the zone and the farm of the sample sensor. *)
Definition sample_registration : RegisterRequest :=
  mkRegisterRequest "esp32-7" "LIDAR" "zone-1" "farm-1" "east gate"
    (Some (num 10)) (Some (num 124)).

(** ** The alerts of the sensor routes, seen from the analytics routes *)

(** A document that [createAlert] of part_003 (lines 521-544) adds to
    [Alerts], as the analytics routes read it. It carries [sensor_id],
    [breach_distance], [is_resolved] and [detected_at], and none of the
    fields they read: [deviceId], [alert], [resolved], [distance] and
    [created_at] are all undefined. *)
Definition breach_record (d : AlertDocV2) : AlertRecord :=
  {| deviceId := None;
     alert := false;
     resolved := false;
     distance := None;
     created_at := None |}.

(** Two worlds that differ in their store at most. *)
Definition same_but_store {S} (w w' : World S) : Prop :=
  faults w = faults w' /\ clock w = clock w' /\
  next_key w = next_key w' /\ console w = console w'.

(** A computation that does not look at the store: from two such worlds it
    gives the same result and leaves two such worlds. *)
Definition store_blind {S A} (m : M S A) : Prop :=
  forall w w', same_but_store w w' ->
    (m w).1 = (m w').1 /\ same_but_store (m w).2 (m w').2.

(** ** Vocabulary of the alert rows, the batch rows and the empty queries *)

(** The alert rows a generation has written, as a reader sees them: the
    id of each row with its sensor, its distance and its severity
    label. *)
Definition breaches (g : Generation) (s : SensorStore) : list (N * (string * Qc * string)) :=
  match g with
  | Legacy =>
      map (fun row => (row.1, (alert_sensor_id row.2, trigger_distance row.2,
                               security_level row.2))) (alerts s)
  | V2 =>
      map (fun row => (row.1, (v2_sensor_id row.2, breach_distance row.2,
                               breach_level row.2))) (Alerts s)
  end.

(** [stored path r rows]: [r] is the value at [path]. *)
Definition stored (path : ReadingPath) (r : ReadingData)
    (rows : list (ReadingPath * ReadingData)) : Prop :=
  (path, r) ∈ rows /\ forall r', (path, r') ∈ rows -> r' = r.

(** The path under which a batch handled at [now] files an item of
    timestamp [t]. *)
Definition batch_path (now : Z) (reading : BatchReading) (t : Z) : ReadingPath :=
  (toISODate t, batch_sensor_id reading, TimeKey now).

(** [r] is the row of an item of timestamp [t]: the fields of the item as
    submitted, with status "alert" exactly below 50. *)
Definition row_of_item (reading : BatchReading) (t : Z) (r : ReadingData) : Prop :=
  reading_sensor_id r = batch_sensor_id reading /\
  reading_distance r = batch_distance reading /\
  reading_sensor_type r = batch_sensor_type reading /\
  reading_timestamp r = t /\
  (reading_status r = "alert" <-> (batch_distance reading < num 50)%Qc) /\
  (reading_status r = "normal" <-> (num 50 <= batch_distance reading)%Qc).

(** The query of a route matches no record of the log. *)
Definition matches_none (conds : AlertRecord -> bool) (log : AlertLog) : Prop :=
  Forall (fun r => conds r = false) log.

(** * Properties *)

(** ** Numbers *)

Lemma js_lt_spec (a b : Qc) : js_lt a b = true <-> (a < b)%Qc.
Proof. unfold js_lt. apply bool_decide_eq_true. Qed.

Lemma js_lt_false (a b : Qc) : js_lt a b = false <-> (b <= a)%Qc.
Proof.
  unfold js_lt. rewrite bool_decide_eq_false.
  split; [apply Qcnot_lt_le | apply Qcle_not_lt].
Qed.

Lemma js_or_pos (t dflt : Qc) : (num 0 < t)%Qc -> js_or (Some t) dflt = t.
Proof.
  intros Ht. unfold js_or. case_bool_decide as E; [|done].
  apply Qclt_not_eq in Ht. congruence.
Qed.

Lemma derive_status_alert (d t : Qc) : derive_status d t = "alert" <-> (d < t)%Qc.
Proof.
  unfold derive_status. rewrite <- js_lt_spec.
  destruct (js_lt d t); split; intros H; done.
Qed.

Lemma derive_status_normal (d t : Qc) : derive_status d t = "normal" <-> (t <= d)%Qc.
Proof.
  unfold derive_status. rewrite <- js_lt_false.
  destruct (js_lt d t); split; intros H; done.
Qed.

(** ** Rules for running handlers *)

Section rules.
Context {S : Type}.
Implicit Types (w : World S) (s : S) (fs : list bool) (c : Z) (k : N) (l : list string).

Lemma outcome_ret {A} (a : A) Q E w : Q a w -> outcome (ret a) Q E w.
Proof. done. Qed.

Lemma outcome_throw {A} e (Q : A -> World S -> Prop) E w :
  E e w -> outcome (throw e) Q E w.
Proof. done. Qed.

Lemma outcome_bind {A B} (m : M S A) (k : A -> M S B) Q E w :
  outcome m (fun a w' => outcome (k a) Q E w') E w -> outcome (bind m k) Q E w.
Proof. unfold outcome, bind. by destruct (m w) as [[a|e] w']. Qed.

Lemma outcome_try_catch {A} (m : M S A) h Q E w :
  outcome m Q (fun e w' => outcome (h e) Q E w') w -> outcome (try_catch m h) Q E w.
Proof. unfold outcome, try_catch. by destruct (m w) as [[a|e] w']. Qed.

Lemma outcome_mono {A} (m : M S A) (Q Q' : A -> World S -> Prop) (E E' : string -> World S -> Prop) w :
  outcome m Q E w ->
  (forall a w', Q a w' -> Q' a w') -> (forall e w', E e w' -> E' e w') ->
  outcome m Q' E' w.
Proof. unfold outcome. destruct (m w) as [[a|e] w']; auto. Qed.

Lemma outcome_read {A} (f : S -> A) Q E w : Q (f (store w)) w -> outcome (read f) Q E w.
Proof. done. Qed.

Lemma outcome_write (f : S -> S) Q E s fs c k l :
  Q tt (mkWorld (f s) fs c k l) -> outcome (write f) Q E (mkWorld s fs c k l).
Proof. done. Qed.

Lemma outcome_Date_now Q E w : Q (clock w) w -> outcome Date_now Q E w.
Proof. done. Qed.

Lemma outcome_fresh_key Q E s fs c k l :
  Q k (mkWorld s fs c (N.succ k) l) -> outcome fresh_key Q E (mkWorld s fs c k l).
Proof. done. Qed.

Lemma outcome_console_error label Q E s fs c k l :
  Q tt (mkWorld s fs c k (l ++ [label])) ->
  outcome (console_error label) Q E (mkWorld s fs c k l).
Proof. done. Qed.

(** A call that may go either way: it consumes the head of [faults]. *)
Lemma outcome_await Q E s fs c k l :
  (head fs <> Some true -> Q tt (mkWorld s (tail fs) c k l)) ->
  (head fs = Some true -> E "datastore error" (mkWorld s (tail fs) c k l)) ->
  outcome await_db Q E (mkWorld s fs c k l).
Proof.
  intros HQ HE. unfold outcome, await_db; simpl.
  destruct fs as [|[] fs]; simpl in *; [by apply HQ|by apply HE|by apply HQ].
Qed.

Lemma accepts_head n fs : accepts (Datatypes.S n) fs = true -> head fs <> Some true.
Proof. destruct fs as [|[] fs]; simpl; congruence. Qed.

Lemma accepts_tail n fs : accepts (Datatypes.S n) fs = true -> accepts n (tail fs) = true.
Proof.
  destruct fs as [|f fs]; simpl; [by destruct n|].
  by intros [_ H]%andb_true_iff.
Qed.

(** A call the provider lets through. *)
Lemma outcome_await_accepts n Q E s fs c k l :
  accepts (Datatypes.S n) fs = true ->
  Q tt (mkWorld s (tail fs) c k l) ->
  outcome await_db Q E (mkWorld s fs c k l).
Proof.
  intros Hacc HQ. apply outcome_await; [done|].
  intros Hhead. by apply accepts_head in Hacc.
Qed.

Lemma returns_exists {A} (m : M S A) Q w :
  returns m Q w -> exists a w', m w = (Returned a, w') /\ Q a w'.
Proof.
  unfold returns, outcome. destruct (m w) as [[a|e] w']; [|done]. by exists a, w'.
Qed.

(** [add], when it may fail and when the provider lets it through. *)
Lemma outcome_add {D} (upd : (list (N * D) -> list (N * D)) -> S -> S)
    (doc : D) Q E s fs c k l :
  (head fs <> Some true ->
     Q k (mkWorld (upd (fun rows => rows ++ [(k, doc)]) s) (tail fs) c (N.succ k) l)) ->
  (head fs = Some true -> E "datastore error" (mkWorld s (tail fs) c k l)) ->
  outcome (add upd doc) Q E (mkWorld s fs c k l).
Proof.
  intros HQ HE. unfold add.
  apply outcome_bind, outcome_await; [|done]. intros Hhead.
  apply outcome_bind, outcome_fresh_key, outcome_bind, outcome_write, outcome_ret.
  by apply HQ.
Qed.

Lemma outcome_add_accepts {D} n (upd : (list (N * D) -> list (N * D)) -> S -> S)
    (doc : D) Q E s fs c k l :
  accepts (Datatypes.S n) fs = true ->
  Q k (mkWorld (upd (fun rows => rows ++ [(k, doc)]) s) (tail fs) c (N.succ k) l) ->
  outcome (add upd doc) Q E (mkWorld s fs c k l).
Proof.
  intros Hacc HQ. apply outcome_add; [done|].
  intros Hhead. by apply accepts_head in Hacc.
Qed.

Lemma outcome_doc_get_accepts {D} n (coll : S -> gmap string D) id Q E s fs c k l :
  accepts (Datatypes.S n) fs = true ->
  Q (coll s !! id) (mkWorld s (tail fs) c k l) ->
  outcome (doc_get coll id) Q E (mkWorld s fs c k l).
Proof.
  intros Hacc HQ. unfold doc_get.
  apply outcome_bind, (outcome_await_accepts n); [done|].
  by apply outcome_read.
Qed.

Lemma outcome_doc_update_accepts {D} n (coll : S -> gmap string D)
    (upd : (gmap string D -> gmap string D) -> S -> S) id f d Q E s fs c k l :
  accepts (Datatypes.S n) fs = true ->
  coll s !! id = Some d ->
  Q tt (mkWorld (upd (alter f id) s) (tail fs) c k l) ->
  outcome (doc_update coll upd id f) Q E (mkWorld s fs c k l).
Proof.
  intros Hacc Hd HQ. unfold doc_update.
  apply outcome_bind, (outcome_await_accepts n); [done|].
  apply outcome_bind, outcome_read. simpl. rewrite Hd.
  by apply outcome_write.
Qed.

Lemma outcome_doc_delete_accepts {D} n
    (upd : (gmap string D -> gmap string D) -> S -> S) id Q E s fs c k l :
  accepts (Datatypes.S n) fs = true ->
  Q tt (mkWorld (upd (delete id) s) (tail fs) c k l) ->
  outcome (doc_delete upd id) Q E (mkWorld s fs c k l).
Proof.
  intros Hacc HQ. unfold doc_delete.
  apply outcome_bind, (outcome_await_accepts n); [done|].
  by apply outcome_write.
Qed.
End rules.

(** A handler that returns the 200 reply. *)
Lemma returns_200 {S D} (m : M S (Response D)) msg (P : D -> World S -> Prop) w :
  returns m (fun resp w' => exists reply,
               resp = mkResponse 200 (Success msg reply) /\ P reply w') w ->
  exists reply w',
    m w = (Returned (mkResponse 200 (Success msg reply)), w') /\ P reply w'.
Proof.
  intros (resp & w' & Hrun & reply & -> & HP)%returns_exists. by exists reply, w'.
Qed.



(** ** The alert recorder *)

Lemma severity_label (g : Generation) (d : Qc) :
  let level := if js_lt d (num 25) then critical_label g else high_label g in
  (level = critical_label g <-> (d < num 25)%Qc) /\
  (level = high_label g <-> (num 25 <= d)%Qc).
Proof.
  simpl. rewrite <- js_lt_spec, <- js_lt_false.
  destruct g, (js_lt d (num 25)); split; split; done.
Qed.

Ltac run_recorder :=
  unfold createAlert, createAlert_v2, try_catch, bind, add, await_db, Date_now,
    fresh_key, write, ret, console_error; simpl.

(** With its two writes let through, [createAlert] appends one alert and
    one notification that carries the id of that alert. *)
Lemma createAlert_accepts n sid sd d s fs c k l :
  accepts (2 + n) fs = true ->
  exists a nt,
    createAlert sid sd d (mkWorld s fs c k l) =
      (Returned tt,
       mkWorld (set_notifications (fun rows => rows ++ [(N.succ k, nt)])
                  (set_alerts (fun rows => rows ++ [(k, a)]) s))
         (tail (tail fs)) c (N.succ (N.succ k)) l) /\
    alert_sensor_id a = sid /\ trigger_distance a = d /\ alert_id nt = k /\
    security_level a = (if js_lt d (num 25) then "critical" else "high").
Proof.
  intros Hacc.
  pose proof (accepts_head _ _ Hacc) as H1.
  pose proof (accepts_head _ _ (accepts_tail _ _ Hacc)) as H2.
  run_recorder.
  destruct fs as [|[] [|[] fs]]; simpl in *; try done;
    (eexists _, _; split; [reflexivity|done]).
Qed.

(** [createAlert] of part_003 appends one alert and writes no notification. *)
Lemma createAlert_v2_accepts n sid sd d s fs c k l :
  accepts (1 + n) fs = true ->
  exists a,
    createAlert_v2 sid sd d (mkWorld s fs c k l) =
      (Returned tt,
       mkWorld (set_Alerts (fun rows => rows ++ [(k, a)]) s) (tail fs) c (N.succ k) l) /\
    v2_sensor_id a = sid /\ breach_distance a = d /\
    breach_level a = (if js_lt d (num 25) then "Critical" else "High").
Proof.
  intros Hacc. pose proof (accepts_head _ _ Hacc) as H1.
  run_recorder.
  destruct fs as [|[] fs]; simpl in *; try done;
    (eexists; split; [reflexivity|done]).
Qed.

(** [createAlert] never throws, and touches nothing but the alert and
    notification collections and the console. *)
Lemma createAlert_swallows (g : Generation) sid sd d (w : World SensorStore) :
  exists w',
    alert_recorder g sid sd d w = (Returned tt, w') /\
    sensor_readings (store w') = sensor_readings (store w) /\
    sensor_status (store w') = sensor_status (store w) /\
    units_of g (store w') = units_of g (store w) /\
    clock w' = clock w /\
    (recording_fails g (faults w) -> console w' = console w ++ ["Error creating alert:"]) /\
    (head (faults w) = Some true ->
     severities g (store w') = severities g (store w) /\
     notifications (store w') = notifications (store w)).
Proof.
  destruct w as [s fs c k l]. destruct g; run_recorder.
  - destruct fs as [|[] [|[] fs]]; simpl; eexists; (split; [reflexivity|]);
      repeat split; try done; intros [?|[? ?]]; done.
  - destruct fs as [|[] fs]; simpl; eexists; (split; [reflexivity|]); done.
Qed.

(** ** The reading handlers *)

Lemma outcome_of_run {S A} (m : M S A) (Q : A -> World S -> Prop) E w a w' :
  m w = (Returned a, w') -> Q a w' -> outcome m Q E w.
Proof. intros Hrun HQ. unfold outcome. by rewrite Hrun. Qed.

Lemma put_reading_elem path r l : (path, r) ∈ put_reading path r l.
Proof. unfold put_reading. apply elem_of_app. right. apply list_elem_of_singleton. done. Qed.

Lemma tail4_drop {A} (fs : list A) : tail (tail (tail (tail fs))) = drop 4 fs.
Proof. by destruct fs as [|? [|? [|? [|? ?]]]]. Qed.

(** The steps from the sensor lookup to the reply, the same in both
    generations. *)
Ltac run_reading g b sd Hsensor :=
  apply outcome_bind, (outcome_doc_get_accepts 3); [done|]; rewrite Hsensor;
  apply outcome_bind, outcome_Date_now; cbn [clock];
  apply outcome_bind, outcome_fresh_key;
  apply outcome_bind, (outcome_await_accepts 2); [done|];
  apply outcome_bind, outcome_write;
  apply outcome_bind, (outcome_await_accepts 1); [done|];
  apply outcome_bind, outcome_write;
  apply outcome_bind, (outcome_doc_update_accepts 0 _ _ _ _ sd); [done|done|];
  apply outcome_bind;
  case_bool_decide;
  [ match goal with |- outcome _ _ _ ?w0 =>
      let w' := fresh "w'" in
      let Hrun := fresh "Hrun" in
      let Hreadings := fresh "Hreadings" in
      let Hstatus := fresh "Hstatus" in
      let Hfail := fresh "Hfail" in
      destruct (createAlert_swallows g (sensor_id b) sd (distance_measured b) w0)
        as (w' & Hrun & Hreadings & Hstatus & _ & _ & Hfail & _);
      eapply outcome_of_run; [exact Hrun|]; apply outcome_ret;
      unfold reading_recorded; cbn [store faults clock next_key console] in *;
      split; [by eexists|];
      split; [eexists; rewrite Hreadings; split; [apply put_reading_elem|done]|];
      split; [eexists; rewrite Hstatus; cbn; rewrite lookup_insert_eq; done|];
      split; [done|];
      intros _ Hfails; apply Hfail; by rewrite tail4_drop
    end
  | apply outcome_ret, outcome_ret;
    unfold reading_recorded; cbn;
    split; [by eexists|];
    split; [eexists; split; [apply put_reading_elem|done]|];
    split; [eexists; rewrite lookup_insert_eq; done|];
    done ].

Lemma reading_handler_runs (g : Generation) env b sd (w : World SensorStore) :
  validationResult (sensor_types_of g) b = [] ->
  Some (api_key b) = IOT_API_KEY env ->
  units_of g (store w) !! sensor_id b = Some sd ->
  accepts 4 (faults w) = true ->
  returns (reading_handler g env b)
    (reading_recorded g b
       (derive_status (distance_measured b) (js_or (threshold_of g sd) (num 50))) w) w.
Proof.
  intros Hvalid Hkey Hsensor Hacc.
  destruct w as [s fs c k l]; cbn [store faults clock next_key console] in *.
  pose proof (accepts_tail _ _ Hacc) as Hacc3.
  pose proof (accepts_tail _ _ Hacc3) as Hacc2.
  pose proof (accepts_tail _ _ Hacc2) as Hacc1.
  unfold returns.
  destruct g; cbn [reading_handler units_of threshold_of sensor_types_of] in *.
  - unfold post_reading. rewrite Hvalid, (bool_decide_eq_true_2 _ Hkey). cbn [bool_decide negb].
    simpl negb. cbv iota.
    apply outcome_try_catch.
    eapply outcome_mono with (E := fun _ _ => False);
      [|intros ? ? HQ; exact HQ|intros ? ? []].
    run_reading Legacy b sd Hsensor.
  - unfold post_reading_v2. rewrite Hvalid, (bool_decide_eq_true_2 _ Hkey).
    simpl negb. cbv iota. simpl validate. cbv iota.
    run_reading V2 b sd Hsensor.
Qed.

(** ** Threshold evaluation and alert recording *)

(** C1. A reading that passes validation (so its distance [d] is at least
    0) for a sensor whose configured threshold is [t > 0] is answered 200
    with status "alert" if and only if [d < t], and with "normal" if and
    only if [t <= d]; at [d = t] the status is "normal". This holds in both
    generations of the route. *)
Theorem reading_status_alert_iff_below_threshold
    (g : Generation) env b sd t (w : World SensorStore) :
  validationResult (sensor_types_of g) b = [] ->
  Some (api_key b) = IOT_API_KEY env ->
  units_of g (store w) !! sensor_id b = Some sd ->
  threshold_of g sd = Some t ->
  (num 0 < t)%Qc ->
  accepts 4 (faults w) = true ->
  exists reply w',
    reading_handler g env b w =
      (Returned (mkResponse 200 (Success "Sensor reading recorded" reply)), w') /\
    (status reply = "alert" <-> (distance_measured b < t)%Qc) /\
    (status reply = "normal" <-> (t <= distance_measured b)%Qc) /\
    (distance_measured b = t -> status reply = "normal").
Proof.
  intros Hvalid Hkey Hsensor Ht Hpos Hacc.
  destruct (returns_exists _ _ _ (reading_handler_runs g env b sd w Hvalid Hkey Hsensor Hacc))
    as (resp & w' & Hrun & (reply & -> & Hst & _) & _).
  exists reply, w'. split; [exact Hrun|].
  rewrite Ht, js_or_pos in Hst by done. rewrite Hst.
  split; [apply derive_status_alert|].
  split; [apply derive_status_normal|].
  intros ->. apply derive_status_normal. apply Qcle_refl.
Qed.

Lemma reading_status_alert_iff_below_threshold_witness :
  exists reply w',
    reading_handler Legacy sample_env (sample_reading 50) (sample_world []) =
      (Returned (mkResponse 200 (Success "Sensor reading recorded" reply)), w') /\
    (status reply = "alert" <-> (distance_measured (sample_reading 50) < num 50)%Qc) /\
    (status reply = "normal" <-> (num 50 <= distance_measured (sample_reading 50))%Qc) /\
    (distance_measured (sample_reading 50) = num 50 -> status reply = "normal").
Proof.
  apply (reading_status_alert_iff_below_threshold Legacy sample_env (sample_reading 50)
           sample_sensor (num 50) (sample_world [])); reflexivity.
Defined.

Lemma accepts_drop n m fs : accepts (n + m) fs = true -> accepts m (drop n fs) = true.
Proof.
  revert fs. induction n as [|n IH]; intros fs; [done|].
  destruct fs as [|f fs]; [by destruct m|].
  cbn [Nat.add accepts drop]. intros [_ H]%andb_true_iff. by apply IH.
Qed.

(** A breach reading through the whole handler, with every call let
    through: the reply, the alert row it leaves, and the sensor document
    and the plan of faults the next request finds. *)
Lemma reading_breach_runs (g : Generation) env b sd (w : World SensorStore) :
  validationResult (sensor_types_of g) b = [] ->
  Some (api_key b) = IOT_API_KEY env ->
  units_of g (store w) !! sensor_id b = Some sd ->
  derive_status (distance_measured b) (js_or (threshold_of g sd) (num 50)) = "alert" ->
  accepts 6 (faults w) = true ->
  exists reply w',
    reading_handler g env b w
      = (Returned (mkResponse 200 (Success "Sensor reading recorded" reply)), w') /\
    status reply = "alert" /\
    breaches g (store w')
      = breaches g (store w)
        ++ [(N.succ (next_key w),
             (sensor_id b, distance_measured b,
              if js_lt (distance_measured b) (num 25)
              then critical_label g else high_label g))] /\
    recorded g (sensor_id b) (distance_measured b) (store w) (store w') /\
    (exists sd', units_of g (store w') !! sensor_id b = Some sd' /\
                 threshold_of g sd' = threshold_of g sd) /\
    faults w' = drop (match g with Legacy => 6 | V2 => 5 end) (faults w).
Proof.
  intros Hvalid Hkey Hsensor Hst Hacc.
  destruct w as [s fs c k l]; cbn [store faults clock next_key console] in *.
  pose proof (accepts_tail _ _ Hacc) as Hacc5.
  pose proof (accepts_tail _ _ Hacc5) as Hacc4.
  pose proof (accepts_tail _ _ Hacc4) as Hacc3.
  pose proof (accepts_tail _ _ Hacc3) as Hacc2.
  apply returns_200. unfold returns.
  destruct g; cbn [reading_handler units_of threshold_of sensor_types_of] in *.
  - unfold post_reading. rewrite Hvalid, (bool_decide_eq_true_2 _ Hkey).
    simpl negb. cbv iota. apply outcome_try_catch.
    eapply outcome_mono with (E := fun _ _ => False);
      [|intros ? ? HQ; exact HQ|intros ? ? []].
    apply outcome_bind, (outcome_doc_get_accepts 5); [done|]. rewrite Hsensor.
    apply outcome_bind, outcome_Date_now. cbn [clock].
    apply outcome_bind, outcome_fresh_key.
    apply outcome_bind, (outcome_await_accepts 4); [done|].
    apply outcome_bind, outcome_write.
    apply outcome_bind, (outcome_await_accepts 3); [done|].
    apply outcome_bind, outcome_write.
    apply outcome_bind, (outcome_doc_update_accepts 2 _ _ _ _ sd); [done|done|].
    apply outcome_bind. rewrite Hst, bool_decide_eq_true_2 by done.
    match goal with
    | |- outcome _ _ _ (mkWorld ?s0 ?fs0 ?c0 ?k0 ?l0) =>
        destruct (createAlert_accepts 0 (sensor_id b) sd (distance_measured b)
                    s0 fs0 c0 k0 l0 Hacc2)
          as (a & nt & Hrun & Hsid & Hd & Hid & Hlevel)
    end.
    eapply outcome_of_run; [exact Hrun|]. apply outcome_ret.
    eexists. split; [reflexivity|]. cbn [status store faults].
    split; [done|].
    cbn [breaches recorded alerts notifications set_notifications set_alerts
         set_sensor_units set_sensor_status set_sensor_readings sensor_units
         critical_label high_label].
    split; [by rewrite map_app; cbn [map fst snd]; rewrite Hsid, Hd, Hlevel|].
    split; [by eexists _, _, _, _|].
    split.
    + eexists. rewrite lookup_alter_eq, Hsensor. split; [reflexivity|done].
    + by destruct fs as [|? [|? [|? [|? [|? [|? ?]]]]]].
  - unfold post_reading_v2. rewrite Hvalid, (bool_decide_eq_true_2 _ Hkey).
    simpl negb. cbv iota. simpl validate. cbv iota.
    apply outcome_bind, (outcome_doc_get_accepts 5); [done|]. rewrite Hsensor.
    apply outcome_bind, outcome_Date_now. cbn [clock].
    apply outcome_bind, outcome_fresh_key.
    apply outcome_bind, (outcome_await_accepts 4); [done|].
    apply outcome_bind, outcome_write.
    apply outcome_bind, (outcome_await_accepts 3); [done|].
    apply outcome_bind, outcome_write.
    apply outcome_bind, (outcome_doc_update_accepts 2 _ _ _ _ sd); [done|done|].
    apply outcome_bind. rewrite Hst, bool_decide_eq_true_2 by done.
    match goal with
    | |- outcome _ _ _ (mkWorld ?s0 ?fs0 ?c0 ?k0 ?l0) =>
        destruct (createAlert_v2_accepts 1 (sensor_id b) sd (distance_measured b)
                    s0 fs0 c0 k0 l0 Hacc2)
          as (a & Hrun & Hsid & Hd & Hlevel)
    end.
    eapply outcome_of_run; [exact Hrun|]. apply outcome_ret.
    eexists. split; [reflexivity|]. cbn [status store faults].
    split; [done|].
    cbn [breaches recorded Alerts notifications set_Alerts
         set_Sensor_Units set_sensor_status set_sensor_readings Sensor_Units
         critical_label high_label].
    split; [by rewrite map_app; cbn [map fst snd]; rewrite Hsid, Hd, Hlevel|].
    split; [by eexists _, _|].
    split.
    + eexists. rewrite lookup_alter_eq, Hsensor. split; [reflexivity|done].
    + by destruct fs as [|? [|? [|? [|? [|? ?]]]]].
Qed.

(** C2. A breach reading of distance [d] that the provider lets through is
    answered 200 with status "alert" and leaves exactly one new alert row,
    for its sensor and with its distance, whose severity is "critical" if
    and only if [d < 25] and "high" if and only if [25 <= d] (part_003
    spells the two labels "Critical" and "High"). *)
Theorem alert_severity_critical_iff_below_25
    (g : Generation) env b sd (w : World SensorStore) :
  validationResult (sensor_types_of g) b = [] ->
  Some (api_key b) = IOT_API_KEY env ->
  units_of g (store w) !! sensor_id b = Some sd ->
  derive_status (distance_measured b) (js_or (threshold_of g sd) (num 50)) = "alert" ->
  accepts 6 (faults w) = true ->
  exists reply w' id level,
    reading_handler g env b w
      = (Returned (mkResponse 200 (Success "Sensor reading recorded" reply)), w') /\
    status reply = "alert" /\
    breaches g (store w')
      = breaches g (store w) ++ [(id, (sensor_id b, distance_measured b, level))] /\
    (level = critical_label g <-> (distance_measured b < num 25)%Qc) /\
    (level = high_label g <-> (num 25 <= distance_measured b)%Qc).
Proof.
  intros Hvalid Hkey Hsensor Hst Hacc.
  destruct (reading_breach_runs g env b sd w Hvalid Hkey Hsensor Hst Hacc)
    as (reply & w' & Hrun & Hstatus & Hrows & _).
  eexists reply, w', _, _. split; [exact Hrun|]. split; [exact Hstatus|].
  split; [exact Hrows|]. apply severity_label.
Qed.

Lemma alert_severity_critical_iff_below_25_witness :
  (exists reply w' id level,
     post_reading sample_env (sample_reading 30) (sample_world [])
       = (Returned (mkResponse 200 (Success "Sensor reading recorded" reply)), w') /\
     status reply = "alert" /\
     breaches Legacy (store w') = [(id, ("sensor-1", num 30, level))] /\
     (level = "critical" <-> (num 30 < num 25)%Qc) /\
     (level = "high" <-> (num 25 <= num 30)%Qc)) /\
  (exists reply w' id level,
     post_reading_v2 sample_env (sample_reading 10) (sample_world [])
       = (Returned (mkResponse 200 (Success "Sensor reading recorded" reply)), w') /\
     status reply = "alert" /\
     breaches V2 (store w') = [(id, ("sensor-1", num 10, level))] /\
     (level = "Critical" <-> (num 10 < num 25)%Qc) /\
     (level = "High" <-> (num 25 <= num 10)%Qc)).
Proof.
  split.
  - apply (alert_severity_critical_iff_below_25 Legacy sample_env (sample_reading 30)
             sample_sensor (sample_world [])); reflexivity.
  - apply (alert_severity_critical_iff_below_25 V2 sample_env (sample_reading 10)
             sample_sensor (sample_world [])); reflexivity.
Defined.

(** The scenario of the specification, through the whole handler: with
    threshold 50, distance 30 is recorded "alert" with severity "high",
    distance 10 "alert" with severity "critical", and distance 60 "normal"
    with no alert row. *)
Example severity_scenario :
  let run d := post_reading sample_env (sample_reading d) (sample_world []) in
  let reply_status (r : Outcome (Response ReadingReply)) :=
    match r with
    | Returned (mkResponse 200 (Success _ reply)) => Some (status reply)
    | _ => None
    end in
  (reply_status (run 30%Z).1, map snd (severities Legacy (store (run 30%Z).2)))
    = (Some "alert", ["high"]) /\
  (reply_status (run 10%Z).1, map snd (severities Legacy (store (run 10%Z).2)))
    = (Some "alert", ["critical"]) /\
  (reply_status (run 60%Z).1, map snd (severities Legacy (store (run 60%Z).2)))
    = (Some "normal", []).
Proof. repeat split; vm_compute; reflexivity. Qed.

Lemma accepts_weaken n fs : accepts (S n) fs = true -> accepts n fs = true.
Proof.
  revert fs. induction n as [|n IH]; intros fs; [done|].
  destruct fs as [|f fs]; [done|].
  cbn [accepts]. intros [-> H]%andb_true_iff. by rewrite (IH fs H).
Qed.

(** C3 (counterexample). On part_003 the statement fails: its
    [createAlert] inserts the alert and no notification, and so does a
    breach reading sent to its [POST /reading]. *)
Lemma alert_without_notification_counterexample :
  let w' := (createAlert_v2 "sensor-1" sample_sensor (num 30) (sample_world [])).2 in
  let run := post_reading_v2 sample_env (sample_reading 30) (sample_world []) in
  (length (Alerts (store w')) = 1%nat /\
   ~ (exists nid n, notifications (store w') = notifications sample_store ++ [(nid, n)])) /\
  (exists reply,
     run.1 = Returned (mkResponse 200 (Success "Sensor reading recorded" reply)) /\
     status reply = "alert") /\
  length (Alerts (store run.2)) = 1%nat /\
  notifications (store run.2) = notifications sample_store.
Proof.
  split; [split; [reflexivity|]|].
  - intros (nid & n & H). vm_compute in H. discriminate H.
  - split; [eexists; split; vm_compute; reflexivity|].
    split; vm_compute; reflexivity.
Qed.

(** C3, amended. Every breach reading that the provider lets through
    leaves exactly one new alert row, for its sensor and with its
    distance; the routes of src/routes/sensor.routes.js add exactly one
    notification row that refers to it, those of part_003 add none.
    Nothing looks at the rows already there: of two breach readings of one
    sensor, one right after the other, each is answered 200 and each gets
    a row of its own. *)
Theorem alert_recorded_without_dedup
    (g : Generation) env b1 b2 sd (w : World SensorStore) :
  validationResult (sensor_types_of g) b1 = [] ->
  validationResult (sensor_types_of g) b2 = [] ->
  Some (api_key b1) = IOT_API_KEY env ->
  Some (api_key b2) = IOT_API_KEY env ->
  sensor_id b2 = sensor_id b1 ->
  units_of g (store w) !! sensor_id b1 = Some sd ->
  derive_status (distance_measured b1) (js_or (threshold_of g sd) (num 50)) = "alert" ->
  derive_status (distance_measured b2) (js_or (threshold_of g sd) (num 50)) = "alert" ->
  accepts 12 (faults w) = true ->
  exists reply1 w1 reply2 w2,
    reading_handler g env b1 w
      = (Returned (mkResponse 200 (Success "Sensor reading recorded" reply1)), w1) /\
    reading_handler g env b2 w1
      = (Returned (mkResponse 200 (Success "Sensor reading recorded" reply2)), w2) /\
    status reply1 = "alert" /\ status reply2 = "alert" /\
    recorded g (sensor_id b1) (distance_measured b1) (store w) (store w1) /\
    recorded g (sensor_id b1) (distance_measured b2) (store w1) (store w2) /\
    length (breaches g (store w2)) = (2 + length (breaches g (store w)))%nat.
Proof.
  intros Hvalid1 Hvalid2 Hkey1 Hkey2 Hid Hsensor Hst1 Hst2 Hacc.
  assert (Hacc6 : accepts 6 (faults w) = true) by (by do 6 apply accepts_weaken).
  destruct (reading_breach_runs g env b1 sd w Hvalid1 Hkey1 Hsensor Hst1 Hacc6)
    as (reply1 & w1 & Hrun1 & Hstatus1 & Hrows1 & Hrec1 & (sd' & Hsensor' & Hthr) & Hfaults).
  assert (Hacc' : accepts 6 (faults w1) = true).
  { rewrite Hfaults. destruct g.
    - by apply (accepts_drop 6 6).
    - apply accepts_weaken. by apply (accepts_drop 5 7). }
  rewrite <- Hid, <- Hthr in *.
  destruct (reading_breach_runs g env b2 sd' w1 Hvalid2 Hkey2 Hsensor' Hst2 Hacc')
    as (reply2 & w2 & Hrun2 & Hstatus2 & Hrows2 & Hrec2 & _).
  exists reply1, w1, reply2, w2.
  split; [exact Hrun1|]. split; [exact Hrun2|].
  split; [exact Hstatus1|]. split; [exact Hstatus2|].
  split; [exact Hrec1|]. split; [exact Hrec2|].
  rewrite Hrows2, Hrows1, !length_app. cbn. lia.
Qed.

Lemma alert_recorded_without_dedup_witness :
  exists reply1 w1 reply2 w2,
    post_reading sample_env (sample_reading 30) (sample_world [])
      = (Returned (mkResponse 200 (Success "Sensor reading recorded" reply1)), w1) /\
    post_reading sample_env (sample_reading 28) w1
      = (Returned (mkResponse 200 (Success "Sensor reading recorded" reply2)), w2) /\
    status reply1 = "alert" /\ status reply2 = "alert" /\
    recorded Legacy "sensor-1" (num 30) sample_store (store w1) /\
    recorded Legacy "sensor-1" (num 28) (store w1) (store w2) /\
    length (breaches Legacy (store w2)) = 2%nat.
Proof.
  apply (alert_recorded_without_dedup Legacy sample_env (sample_reading 30)
           (sample_reading 28) sample_sensor (sample_world []));
    reflexivity.
Defined.

(** C4. A breach reading whose alert recording fails (the write of the
    alert, or that of the notification, is rejected) is still answered 200:
    the reading and the live status written before are kept, and the
    failure leaves one line on the console and nothing else. *)
Theorem reading_succeeds_when_alert_recording_fails
    (g : Generation) env b sd (w : World SensorStore) :
  validationResult (sensor_types_of g) b = [] ->
  Some (api_key b) = IOT_API_KEY env ->
  units_of g (store w) !! sensor_id b = Some sd ->
  derive_status (distance_measured b) (js_or (threshold_of g sd) (num 50)) = "alert" ->
  accepts 4 (faults w) = true ->
  recording_fails g (drop 4 (faults w)) ->
  exists reply w',
    reading_handler g env b w =
      (Returned (mkResponse 200 (Success "Sensor reading recorded" reply)), w') /\
    status reply = "alert" /\
    (exists r,
       ((toISODate (clock w), sensor_id b, PushKey (reading_id reply)), r)
         ∈ sensor_readings (store w') /\
       reading_distance r = distance_measured b /\ reading_status r = "alert") /\
    (exists live,
       sensor_status (store w') !! sensor_id b = Some live /\
       last_reading live = Some (distance_measured b) /\
       last_timestamp live = Some (clock w) /\
       live_status live = Some "alert") /\
    console w' = console w ++ ["Error creating alert:"].
Proof.
  intros Hvalid Hkey Hsensor Hst Hacc Hfails.
  destruct (returns_exists _ _ _ (reading_handler_runs g env b sd w Hvalid Hkey Hsensor Hacc))
    as (resp & w' & Hrun & (reply & -> & Hstatus & Hid & _) & Hreading & Hlive & _ & Hlog).
  rewrite Hst in *.
  exists reply, w'. split; [exact Hrun|]. split; [exact Hstatus|].
  split; [by rewrite Hid|].
  split; [|by apply Hlog].
  destruct Hlive as (live & ? & ? & ? & ? & _). by exists live.
Qed.

Lemma reading_succeeds_when_alert_recording_fails_witness :
  let w := sample_world [false; false; false; false; true] in
  exists reply w',
    post_reading sample_env (sample_reading 30) w =
      (Returned (mkResponse 200 (Success "Sensor reading recorded" reply)), w') /\
    status reply = "alert" /\
    (exists r,
       ((toISODate (clock w), "sensor-1", PushKey (reading_id reply)), r)
         ∈ sensor_readings (store w') /\
       reading_distance r = num 30 /\ reading_status r = "alert") /\
    (exists live,
       sensor_status (store w') !! "sensor-1" = Some live /\
       last_reading live = Some (num 30) /\
       last_timestamp live = Some (clock w) /\
       live_status live = Some "alert") /\
    console w' = ["Error creating alert:"].
Proof.
  apply (reading_succeeds_when_alert_recording_fails Legacy sample_env (sample_reading 30)
           sample_sensor (sample_world [false; false; false; false; true]));
    [reflexivity|reflexivity|reflexivity|reflexivity|reflexivity|left; reflexivity].
Defined.

(** ** Live status *)

(** C5. For a sensor whose live record carries the timestamp [ts], the
    live-status query is answered 200 with [is_stale] true if and only if
    [now - ts > 300000], [now] being the clock at the query; at an age of
    exactly 300000 ms the flag is false. *)
Theorem live_is_stale_iff_older_than_300000
    (g : Generation) sensorId live ts (w : World SensorStore) :
  accepts 1 (faults w) = true ->
  sensor_status (store w) !! sensorId = Some live ->
  last_timestamp live = Some ts ->
  exists reply w',
    live_handler g sensorId w =
      (Returned (mkResponse 200 (Success "Live sensor status" reply)), w') /\
    liveData reply = live /\
    (is_stale reply = true <-> (clock w - ts > 300000)%Z) /\
    ((clock w - ts = 300000)%Z -> is_stale reply = false).
Proof.
  intros Hacc Hlive Hts. destruct w as [s fs c k l]; cbn [faults store clock] in *.
  assert (Hbody : returns (live_body sensorId)
            (fun resp _ => exists reply,
               resp = mkResponse 200 (Success "Live sensor status" reply) /\
               liveData reply = live /\
               is_stale reply = bool_decide (c - ts > 300000)%Z)
            (mkWorld s fs c k l)).
  { unfold returns, live_body.
    apply outcome_bind, (outcome_await_accepts 0); [done|].
    apply outcome_bind, outcome_read. cbn [store]. rewrite Hlive.
    apply outcome_bind, outcome_Date_now, outcome_bind, outcome_Date_now, outcome_ret.
    cbn [clock]. rewrite Hts. by eexists. }
  assert (Hrun : returns (live_handler g sensorId)
            (fun resp _ => exists reply,
               resp = mkResponse 200 (Success "Live sensor status" reply) /\
               liveData reply = live /\
               is_stale reply = bool_decide (c - ts > 300000)%Z)
            (mkWorld s fs c k l)).
  { destruct g; cbn [live_handler]; [|exact Hbody].
    unfold returns, get_live. apply outcome_try_catch.
    eapply outcome_mono; [exact Hbody|done|intros ? ? []]. }
  destruct (returns_exists _ _ _ Hrun) as (resp & w' & Heq & reply & -> & Hdata & Hstale).
  exists reply, w'. split; [exact Heq|]. split; [exact Hdata|].
  rewrite Hstale. split; [apply bool_decide_eq_true|].
  intros Hage. apply bool_decide_eq_false. lia.
Qed.

Lemma live_is_stale_iff_older_than_300000_witness :
  let live := mkLiveStatus (Some (num 30)) (Some 1700000000000%Z) (Some "alert") (Some true) None in
  let w := mkWorld (set_sensor_status <["sensor-1" := live]> sample_store) []
             1700000300000%Z 0%N [] in
  exists reply w',
    get_live "sensor-1" w =
      (Returned (mkResponse 200 (Success "Live sensor status" reply)), w') /\
    liveData reply = live /\
    (is_stale reply = true <-> (clock w - 1700000000000 > 300000)%Z) /\
    ((clock w - 1700000000000 = 300000)%Z -> is_stale reply = false).
Proof.
  intros live w.
  apply (live_is_stale_iff_older_than_300000 Legacy "sensor-1" live 1700000000000%Z w);
    reflexivity.
Defined.

(** ** Batch readings *)

Lemma batch_status_alert (reading : BatchReading) :
  batch_status reading = "alert" <-> (batch_distance reading < num 50)%Qc.
Proof.
  unfold batch_status. rewrite <- js_lt_spec.
  destruct (js_lt _ _); split; intros H; done.
Qed.

Lemma put_reading_inv path r l row :
  row ∈ put_reading path r l -> row = (path, r) \/ row ∈ l.
Proof.
  unfold put_reading. intros [Hin| ->%list_elem_of_singleton]%elem_of_app; [|by left].
  right. by apply list_elem_of_filter in Hin as [_ ?].
Qed.

Lemma foldl_put_reading_inv updates tree row :
  row ∈ foldl (fun acc r => put_reading r.1 r.2 acc) tree updates ->
  row ∈ tree \/ row ∈ updates.
Proof.
  revert tree. induction updates as [|[p r] updates IH]; intros tree; cbn [foldl].
  - by left.
  - intros [[->|Hin]%put_reading_inv|Hin]%IH.
    + right. apply elem_of_cons. by left.
    + by left.
    + right. apply elem_of_cons. by right.
Qed.

Lemma put_reading_stored path r l : stored path r (put_reading path r l).
Proof.
  split; [apply put_reading_elem|].
  unfold put_reading. intros r' [Hin|Hin%list_elem_of_singleton]%elem_of_app.
  - apply list_elem_of_filter in Hin as [Hne _]. done.
  - congruence.
Qed.

Lemma put_reading_stored_ne path r l p x :
  p <> path -> stored p x l -> stored p x (put_reading path r l).
Proof.
  intros Hne [Hin Huniq]. split.
  - unfold put_reading. apply elem_of_app. left. by apply list_elem_of_filter.
  - intros r' [[=]|Hin']%put_reading_inv; [congruence|]. by apply Huniq.
Qed.

Lemma foldl_put_reading_stored updates tree p x :
  stored p x updates ->
  stored p x (foldl (fun acc row => put_reading row.1 row.2 acc) tree updates).
Proof.
  revert tree. induction updates as [|[q r] updates IH] using rev_ind; intros tree [Hin Huniq].
  - by apply elem_of_nil in Hin.
  - rewrite foldl_app. cbn [foldl fst snd].
    destruct (decide (p = q)) as [->|Hne].
    + assert (r = x) as ->.
      { apply Huniq, elem_of_app. right. by apply list_elem_of_singleton. }
      apply put_reading_stored.
    + apply put_reading_stored_ne; [done|]. apply IH. split.
      * apply elem_of_app in Hin as [Hin|Hin%list_elem_of_singleton]; [done|congruence].
      * intros r' Hr'. apply Huniq, elem_of_app. by left.
Qed.

Lemma batch_status_normal (reading : BatchReading) :
  batch_status reading = "normal" <-> (num 50 <= batch_distance reading)%Qc.
Proof.
  unfold batch_status. rewrite <- js_lt_false.
  destruct (js_lt _ _); split; intros H; done.
Qed.

(** What the loop of the batch route leaves in [updates]: the row of every
    item that no later item overwrites, and nothing that is not the row of
    an item. *)
Lemma batch_loop_stores rs updates results (w : World SensorStore) :
  Forall (fun r => is_Some (batch_timestamp r)) rs ->
  exists updates',
    batch_loop rs updates results w
    = (Returned (updates', results ++ map (fun r => (batch_sensor_id r, "queued")) rs), w) /\
    (forall p x, stored p x updates ->
       (forall item t, item ∈ rs -> batch_timestamp item = Some t ->
          batch_path (clock w) item t <> p) ->
       stored p x updates') /\
    (forall before item after t,
       rs = before ++ item :: after -> batch_timestamp item = Some t ->
       (forall later t', later ∈ after -> batch_timestamp later = Some t' ->
          batch_path (clock w) later t' <> batch_path (clock w) item t) ->
       exists r, stored (batch_path (clock w) item t) r updates' /\ row_of_item item t r) /\
    (forall p r, (p, r) ∈ updates' ->
       (p, r) ∈ updates \/
       exists item t, item ∈ rs /\ batch_timestamp item = Some t /\
                      p = batch_path (clock w) item t /\ row_of_item item t r).
Proof.
  intros Hts. revert updates results.
  induction Hts as [|reading rs [t Ht] _ IH]; intros updates results.
  - exists updates. cbn. rewrite app_nil_r. split; [done|]. split; [done|].
    split; [|by left]. intros [|? ?] ? ? ? Heq; discriminate Heq.
  - cbn [batch_loop]. rewrite Ht. unfold bind at 1. cbn [Date_now].
    match goal with
    | |- context [batch_loop rs (put_reading ?p ?r updates) ?res w] =>
        destruct (IH (put_reading p r updates) res)
          as (updates' & Hrun & Hkeep & Hlast & Hfrom);
        assert (Hrow : row_of_item reading t r)
          by (repeat split; try done;
              [apply (batch_status_alert reading)|apply (batch_status_alert reading)
              |apply (batch_status_normal reading)|apply (batch_status_normal reading)]);
        assert (Hput : stored p r (put_reading p r updates)) by apply put_reading_stored;
        assert (Hinv : forall row, row ∈ put_reading p r updates -> row = (p, r) \/ row ∈ updates)
          by (intros row; apply put_reading_inv);
        assert (Hne : forall q x, q <> p -> stored q x updates ->
                        stored q x (put_reading p r updates))
          by (intros q x; apply put_reading_stored_ne);
        change p with (batch_path (clock w) reading t) in *;
        set (row := r) in *
    end.
    rewrite Hrun. exists updates'. split; [by rewrite <- app_assoc|]. split; [|split].
    + intros p x Hx Hfree. apply Hkeep.
      * apply Hne; [|done]. intros ->. eapply Hfree; [by left|exact Ht|done].
      * intros item t' Hin. apply Hfree. by right.
    + intros [|first before] item after t' Heq Ht' Hfree; cbn [app] in Heq.
      * injection Heq as -> ->. rewrite Ht in Ht'. injection Ht' as <-.
        exists row. split; [|exact Hrow]. by apply Hkeep.
      * injection Heq as -> ->. by eapply Hlast.
    + intros p r Hin. destruct (Hfrom p r Hin) as [Hold|(item & t' & Hitem & Ht' & -> & Hr)].
      * destruct (Hinv _ Hold) as [[= -> ->]|Hold'].
        -- right. exists reading, t. split; [by left|done].
        -- by left.
      * right. exists item, t'. split; [by right|done].
Qed.

(** C7 (counterexample). The two routes disagree: for a sensor whose threshold is 100,
    a distance of 60 is below the threshold and the single-reading route
    stores "alert", yet the batch route stores "normal". *)
Lemma batch_status_counterexample :
  let single := post_reading sample_env (sample_reading 60) wide_world in
  let batch := post_batch sample_env (sample_batch 60) wide_world in
  (num 60 < num 100)%Qc /\
  map (fun row => reading_status row.2) (sensor_readings (store single.2)) = ["alert"] /\
  map (fun row => reading_status row.2) (sensor_readings (store batch.2)) = ["normal"].
Proof. repeat split; vm_compute; reflexivity. Qed.

(** C7, amended. The batch route never reads the sensor. When the key is
    right and every item carries a timestamp it answers 200; the row then
    found at the path of an item (no later item of the batch being for the
    same sensor and day) is that item as submitted, with status "alert" if
    and only if its distance is strictly below 50; and every row is an old
    one or the row of an item. The single-reading route gives the same
    status on every distance exactly for a sensor whose threshold in force
    is 50. *)
Theorem batch_status_alert_iff_below_50
    (g : Generation) env b key (w : World SensorStore) :
  batch_api_key b = Some key ->
  key <> "" ->
  IOT_API_KEY env = Some key ->
  Forall (fun r => is_Some (batch_timestamp r)) (readings b) ->
  accepts 1 (faults w) = true ->
  (exists msg results w',
     batch_handler g env b w = (Returned (mkResponse 200 (Success msg results)), w') /\
     length results = length (readings b) /\
     (forall before item after t,
        readings b = before ++ item :: after -> batch_timestamp item = Some t ->
        (forall later t', later ∈ after -> batch_timestamp later = Some t' ->
           (toISODate t', batch_sensor_id later) <> (toISODate t, batch_sensor_id item)) ->
        exists r, stored (batch_path (clock w) item t) r (sensor_readings (store w')) /\
                  row_of_item item t r) /\
     (forall p r, (p, r) ∈ sensor_readings (store w') ->
        (p, r) ∈ sensor_readings (store w) \/
        exists item t, item ∈ readings b /\ batch_timestamp item = Some t /\
                       p = batch_path (clock w) item t /\ row_of_item item t r) /\
     units_of g (store w') = units_of g (store w)) /\
  (forall sid sd,
     sid <> "" ->
     units_of g (store w) !! sid = Some sd ->
     accepts 4 (faults w) = true ->
     (forall d, (num 0 <= d)%Qc ->
        exists reply w1,
          reading_handler g env (mkReadingRequest sid d "LIDAR" key) w
            = (Returned (mkResponse 200 (Success "Sensor reading recorded" reply)), w1) /\
          (status reply = "alert" <-> (d < num 50)%Qc))
     <-> js_or (threshold_of g sd) (num 50) = num 50).
Proof.
  intros Hkey Hne Henv Hts Hacc. split.
  - destruct w as [s fs c k l]; cbn [faults store clock] in *.
    destruct (batch_loop_stores (readings b) [] [] (mkWorld s fs c k l) Hts)
      as (updates & Hloop & _ & Hlast & Hfrom). cbn [clock app] in *.
    assert (Hbody : batch_body env b (mkWorld s fs c k l)
              = (Returned (mkResponse 200
                   (Success (pretty (length (readings b)) +:+ " readings processed")
                      (map (fun r => (batch_sensor_id r, "queued")) (readings b)))),
                 mkWorld (set_sensor_readings
                            (fun tree => foldl (fun acc row => put_reading row.1 row.2 acc)
                                           tree updates) s)
                   (tail fs) c k l)).
    { unfold batch_body. rewrite Hkey, Henv, bool_decide_eq_true_2 by done. cbn [negb].
      unfold bind at 1. rewrite Hloop.
      pose proof (accepts_head _ _ Hacc) as Hhead.
      unfold bind, await_db, write, ret; cbn.
      destruct fs as [|[] fs]; cbn in *; done. }
    eexists _, _, _. split; [|split; [|split; [|split]]].
    + destruct g; cbn [batch_handler].
      * unfold post_batch, try_catch. by rewrite Hbody.
      * unfold post_batch_v2. rewrite Hkey.
        rewrite bool_decide_eq_false_2; [exact Hbody|].
        intros [?|[=]]; congruence.
    + by rewrite length_map.
    + intros before item after t Heq Ht Hfree.
      destruct (Hlast before item after t Heq Ht) as (r & Hr & Hrow).
      { intros later t' Hin Ht' Hpath. apply (Hfree later t' Hin Ht').
        unfold batch_path in Hpath. congruence. }
      exists r. split; [|exact Hrow].
      cbn [store sensor_readings set_sensor_readings].
      by apply foldl_put_reading_stored.
    + intros p r Hin. cbn [store sensor_readings set_sensor_readings] in Hin.
      apply foldl_put_reading_inv in Hin as [Hold|Hnew]; [by left|].
      destruct (Hfrom p r Hnew) as [Hnil|?]; [|by right].
      by apply elem_of_nil in Hnil.
    + by destruct g.
  - intros sid sd Hsid Hsensor Hacc4.
    set (t := js_or (threshold_of g sd) (num 50)).
    assert (Hsingle : forall d, (num 0 <= d)%Qc ->
              exists reply w1,
                reading_handler g env (mkReadingRequest sid d "LIDAR" key) w
                  = (Returned (mkResponse 200 (Success "Sensor reading recorded" reply)), w1) /\
                status reply = derive_status d t).
    { intros d Hd.
      assert (Hvalid : validationResult (sensor_types_of g)
                         (mkReadingRequest sid d "LIDAR" key) = []).
      { unfold validationResult. cbn [sensor_id distance_measured sensor_type api_key].
        rewrite (bool_decide_eq_false_2 (sid = "")) by done.
        rewrite (proj2 (js_lt_false d (num 0)) Hd).
        rewrite (bool_decide_eq_false_2 (key = "")) by done.
        rewrite bool_decide_eq_true_2; [done|].
        destruct g; cbn; apply elem_of_cons; by left. }
      pose proof (reading_handler_runs g env (mkReadingRequest sid d "LIDAR" key) sd w
                    Hvalid) as Hrun.
      cbn [api_key sensor_id distance_measured] in Hrun.
      apply returns_exists in Hrun as (resp & w1 & Hrun & (reply & -> & Hst & _) & _);
        [|by rewrite Henv|done|done].
      by exists reply, w1. }
    split.
    + intros Hagree.
      assert (Hsame : forall d, (num 0 <= d)%Qc -> (d < t)%Qc <-> (d < num 50)%Qc).
      { intros d Hd.
        destruct (Hsingle d Hd) as (reply & w1 & Hrun & Hst).
        destruct (Hagree d Hd) as (reply' & w1' & Hrun' & Halert).
        rewrite Hrun in Hrun'. injection Hrun' as <- <-.
        rewrite Hst in Halert. by rewrite <- derive_status_alert. }
      apply Qcle_antisym.
      * apply Qcnot_lt_le. intros Hlt.
        assert (H50 : (num 0 <= num 50)%Qc) by (by vm_compute).
        apply (Hsame _ H50) in Hlt. by apply Qclt_not_eq in Hlt.
      * apply Qcnot_lt_le. intros Hlt.
        destruct (Qclt_le_dec t (num 0)) as [Hneg|Hpos].
        -- assert (H0 : (num 0 <= num 0)%Qc) by apply Qcle_refl.
           assert (H050 : (num 0 < num 50)%Qc) by (by vm_compute).
           apply (Hsame _ H0) in H050.
           apply (Qclt_not_le _ _ H050). by apply Qclt_le_weak.
        -- apply (Hsame _ Hpos) in Hlt. by apply Qclt_not_eq in Hlt.
    + intros Ht d Hd. destruct (Hsingle d Hd) as (reply & w1 & Hrun & Hst).
      exists reply, w1. split; [exact Hrun|].
      rewrite Hst. fold t in Ht. rewrite Ht. apply derive_status_alert.
Qed.

Lemma batch_status_alert_iff_below_50_witness :
  (exists msg results w' r,
     post_batch sample_env (sample_batch 60) wide_world
       = (Returned (mkResponse 200 (Success msg results)), w') /\
     stored (toISODate 1700000000000, "sensor-1", TimeKey (clock wide_world)) r
       (sensor_readings (store w')) /\
     reading_distance r = num 60 /\ reading_status r = "normal") /\
  ((forall d, (num 0 <= d)%Qc ->
      exists reply w1,
        post_reading sample_env (mkReadingRequest "sensor-1" d "LIDAR" "secret")
          (sample_world [])
          = (Returned (mkResponse 200 (Success "Sensor reading recorded" reply)), w1) /\
        (status reply = "alert" <-> (d < num 50)%Qc))
   <-> js_or (boundary_threshold sample_sensor) (num 50) = num 50).
Proof.
  split.
  - destruct (batch_status_alert_iff_below_50 Legacy sample_env (sample_batch 60) "secret"
                wide_world)
      as [(msg & results & w' & Hrun & _ & Hlast & _) _];
      [reflexivity|discriminate|reflexivity|repeat constructor; by eexists|reflexivity|].
    destruct (Hlast [] (mkBatchReading "sensor-1" (num 60) "LIDAR" (Some 1700000000000%Z)) []
                1700000000000%Z eq_refl eq_refl)
      as (r & Hr & _ & Hdist & _ & _ & _ & Hnormal).
    { intros later t' Hin. by apply elem_of_nil in Hin. }
    exists msg, results, w', r. split; [exact Hrun|]. split; [exact Hr|].
    split; [exact Hdist|]. apply Hnormal. by vm_compute.
  - refine (proj2 (batch_status_alert_iff_below_50 Legacy sample_env (sample_batch 60) "secret"
                     (sample_world []) _ _ _ _ _) "sensor-1" sample_sensor _ _ _);
      [reflexivity|discriminate|reflexivity|repeat constructor; by eexists|reflexivity
      |discriminate|reflexivity|reflexivity].
Defined.

(** ** Analytics *)

Lemma getDay_range tz t : (0 <= getDay tz t < 7)%Z.
Proof. unfold getDay. apply Z.mod_pos_bound. lia. Qed.

Lemma getHours_range tz t : (0 <= getHours tz t < 24)%Z.
Proof. unfold getHours. apply Z.mod_pos_bound. lia. Qed.

Lemma sum_insert (l : list Z) i x y :
  l !! i = Some x ->
  foldr Z.add 0%Z (<[i := y]> l) = (foldr Z.add 0 l - x + y)%Z.
Proof.
  revert i. induction l as [|z l IH]; intros [|i] Hi; simplify_eq/=; [lia|].
  rewrite (IH i Hi). lia.
Qed.

Lemma heatmap_total_insert (heatmap : Heatmap) i row row' :
  heatmap !! i = Some row ->
  heatmap_total (<[i := row']> heatmap)
  = (heatmap_total heatmap - foldr Z.add 0 row + foldr Z.add 0 row')%Z.
Proof.
  unfold heatmap_total. revert i.
  induction heatmap as [|r heatmap IH]; intros [|i] Hi; simplify_eq/=; [lia|].
  rewrite (IH i Hi). lia.
Qed.

(** One record bumps exactly one cell: the shape stays and the total grows
    by one. *)
Lemma heatmap_incr_total (heatmap : Heatmap) dayOfWeek hour :
  heatmap_shape heatmap ->
  (0 <= dayOfWeek < 7)%Z -> (0 <= hour < 24)%Z ->
  exists heatmap',
    heatmap_incr dayOfWeek hour heatmap = Some heatmap' /\
    heatmap_shape heatmap' /\
    heatmap_total heatmap' = (heatmap_total heatmap + 1)%Z.
Proof.
  intros [Hrows Hcols] Hday Hhour. unfold heatmap_incr.
  rewrite !bool_decide_eq_true_2 by lia. cbn [andb].
  destruct (lookup_lt_is_Some_2 heatmap (Z.to_nat dayOfWeek)) as [row Hrow]; [lia|].
  rewrite Hrow.
  assert (Hlen : length row = 24%nat).
  { eapply Forall_forall in Hcols; [exact Hcols|]. by eapply list_elem_of_lookup_2. }
  destruct (lookup_lt_is_Some_2 row (Z.to_nat hour)) as [n Hn]; [lia|].
  rewrite Hn. eexists. split; [done|]. split.
  - split; [by rewrite length_insert|].
    apply Forall_insert; [done|]. by rewrite length_insert.
  - rewrite (heatmap_total_insert _ _ row) by done.
    rewrite (sum_insert _ _ n) by done. lia.
Qed.

Lemma heatmap_init_shape : heatmap_shape heatmap_init.
Proof. split; [done|]. unfold heatmap_init. by repeat constructor. Qed.

Lemma matched_created_from d conds (log : AlertLog) :
  Forall (fun r => is_Some (created_at r))
    (filter (fun r => (created_from d r && conds r) = true) log).
Proof.
  apply Forall_forall. intros r [Hr _]%list_elem_of_filter.
  apply andb_true_iff in Hr as [Hr _]. unfold created_from in Hr.
  by destruct (created_at r).
Qed.

Lemma heatmap_fold_total tz snapshot (heatmap : Heatmap) (w : World AlertLog) :
  Forall (fun r => is_Some (created_at r)) snapshot ->
  heatmap_shape heatmap ->
  exists heatmap',
    heatmap_fold tz snapshot heatmap w = (Returned heatmap', w) /\
    heatmap_shape heatmap' /\
    heatmap_total heatmap' = (heatmap_total heatmap + Z.of_nat (length snapshot))%Z.
Proof.
  intros Hdates. revert heatmap.
  induction Hdates as [|data snapshot [t Ht] _ IH]; intros heatmap Hshape.
  - exists heatmap. cbn. split; [done|]. split; [done|lia].
  - cbn [heatmap_fold]. rewrite Ht.
    destruct (heatmap_incr_total heatmap (getDay tz t) (getHours tz t) Hshape
                (getDay_range tz t) (getHours_range tz t))
      as (heatmap1 & -> & Hshape1 & Htotal1).
    destruct (IH heatmap1 Hshape1) as (heatmap' & Hrun & Hshape' & Htotal').
    exists heatmap'. split; [exact Hrun|]. split; [exact Hshape'|].
    rewrite Htotal', Htotal1. cbn [length]. lia.
Qed.

(** C6. Whatever alert records the range matches, the heatmap route
    answers 200 with a matrix of 7 rows of 24 cells whose entries sum to
    the number of matched records: each record adds one to one cell. *)
Theorem heatmap_total_is_alert_count
    (tz : TimeZone) deviceId weeks weeksAgo (w : World AlertLog) :
  accepts 1 (faults w) = true ->
  exists reply w',
    get_heatmap tz deviceId weeks weeksAgo w =
      (Returned (mkResponse 200 (Success "Heatmap data retrieved" reply)), w') /\
    heatmap_shape (heatmap reply) /\
    heatmap_total (heatmap reply)
    = Z.of_nat (length (filter (fun r => (created_from weeksAgo r && if_device deviceId r) = true)
                          (store w))).
Proof.
  intros Hacc. destruct w as [log fs c k l]; cbn [faults store] in *.
  set (snapshot := filter _ log).
  destruct (heatmap_fold_total tz snapshot heatmap_init (mkWorld log (tail fs) c k l))
    as (hm & Hrun & Hshape & Htotal);
    [apply matched_created_from|apply heatmap_init_shape|].
  apply returns_200. unfold returns, get_heatmap.
  apply outcome_try_catch.
  apply outcome_bind. unfold query_get.
  apply outcome_bind, (outcome_await_accepts 0); [done|].
  apply outcome_read. cbn [store]. fold snapshot.
  apply outcome_bind. eapply outcome_of_run; [exact Hrun|].
  apply outcome_ret. eexists. split; [done|]. cbn [heatmap]. split; [exact Hshape|].
  rewrite Htotal. done.
Qed.

Lemma heatmap_total_is_alert_count_witness :
  exists reply w',
    get_heatmap sample_tz None 4 1690000000000 sample_log_world =
      (Returned (mkResponse 200 (Success "Heatmap data retrieved" reply)), w') /\
    heatmap_shape (heatmap reply) /\
    heatmap_total (heatmap reply)
    = Z.of_nat (length (filter (fun r => (created_from 1690000000000 r && if_device None r) = true)
                          (store sample_log_world))).
Proof.
  apply (heatmap_total_is_alert_count sample_tz None 4 1690000000000 sample_log_world).
  reflexivity.
Defined.

(** The two sample alerts of 2023-11-15 fall on Wednesday (local time,
    UTC+8), at 6 and 7 o'clock. *)
Example heatmap_sample :
  match (get_heatmap sample_tz None 4 1690000000000 sample_log_world).1 with
  | Returned (mkResponse 200 (Success _ reply)) =>
      heatmap_total (heatmap reply) = 2%Z /\
      (heatmap reply !! 3%nat) ≫= (.!! 6%nat) = Some 1%Z /\
      (heatmap reply !! 3%nat) ≫= (.!! 7%nat) = Some 1%Z
  | _ => False
  end.
Proof. vm_compute. done. Qed.

(** ** Empty ranges *)

Lemma num_eq (a b : Qc) : (this a == this b)%Q -> a = b.
Proof. apply Qc_is_canon. Qed.

Lemma round2_0 : round2 (num 0) = num 0.
Proof. by apply num_eq. Qed.

Lemma zero_rate (n : Z) : (n <> 0)%Z -> (num 0 / num n)%Qc = num 0.
Proof.
  intros Hn. unfold Qcdiv. apply Qcmult_0_l.
Qed.

Lemma filter_no_match (conds : AlertRecord -> bool) (log : list AlertRecord) :
  Forall (fun r => conds r = false) log ->
  filter (fun r => conds r = true) log = [].
Proof.
  induction 1 as [|r log Hr _ IH]; [done|].
  rewrite filter_cons_False; [exact IH|]. by rewrite Hr.
Qed.

(** The query step of an analytics route whose query matches nothing. *)
Ltac run_unmatched_query Hnone :=
  apply returns_200; unfold returns;
  apply outcome_try_catch, outcome_bind; unfold query_get;
  apply outcome_bind, (outcome_await_accepts 0); [done|];
  apply outcome_read; cbn [store];
  rewrite (filter_no_match _ _ Hnone).

(** C9. An aggregation route whose query matches no record, whether it is
    the start or the end of the range, the device filter or all of them
    that leave nothing, answers 200 with zero statistics: counts 0,
    average distance 0, minimum and maximum distance 0, rate 0, no trend
    bucket, 24 hourly buckets and 7 x 24 heatmap cells all at 0. The
    bounds of the device detail are optional, those of the trends are
    not: without both the trends are refused with 400, whatever the log. *)
Theorem analytics_of_empty_range
    (tz : TimeZone) (deviceId : option string) (device timeRange interval : string)
    (weeks targetDate startDate endDate startOfDay endOfDay weeksAgo : Z)
    (from until : option Z) (w : World AlertLog) :
  accepts 1 (faults w) = true ->
  (matches_none (fun r => created_from startDate r && if_device deviceId r) (store w) ->
   exists reply w',
     get_dashboard deviceId timeRange startDate w =
       (Returned (mkResponse 200 (Success "Dashboard statistics retrieved" reply)), w') /\
     totalAlerts reply = 0%Z /\ activeAlerts reply = 0%Z /\ totalDevices reply = 0%nat /\
     avgDistance reply = num 0 /\ alertRate reply = num 0) /\
  (matches_none (fun r => of_device device r && if_bound created_from from r
                          && if_bound created_until until r) (store w) ->
   exists reply w',
     get_device device from until w =
       (Returned (mkResponse 200 (Success "Device detailed analytics retrieved" reply)), w') /\
     detail_totalAlerts reply = 0%Z /\ detail_activeAlerts reply = 0%Z /\
     detail_avgDistance reply = num 0 /\
     minDistance reply = num 0 /\ maxDistance reply = num 0) /\
  (matches_none (fun r => created_from startDate r && created_until endDate r
                          && if_device deviceId r) (store w) ->
   exists reply w',
     get_trends tz (Some startDate) (Some endDate) deviceId interval w =
       (Returned (mkResponse 200 (Success "Trends data retrieved" reply)), w') /\
     trends reply = []) /\
  (from = None \/ until = None ->
   get_trends tz from until deviceId interval w
     = (Returned (mkResponse 400 (Failure "startDate and endDate are required" None)), w)) /\
  (matches_none (fun r => created_from startOfDay r && created_until endOfDay r
                          && if_device deviceId r) (store w) ->
   exists reply w',
     get_hourly tz deviceId targetDate startOfDay endOfDay w =
       (Returned (mkResponse 200 (Success "Hourly breakdown retrieved" reply)), w') /\
     length (hourly reply) = 24%nat /\
     Forall (fun b => total b = 0%Z /\ alerts_in_hour b = 0%Z /\ normal b = 0%Z) (hourly reply)) /\
  (matches_none (fun r => created_from weeksAgo r && if_device deviceId r) (store w) ->
   exists reply w',
     get_heatmap tz deviceId weeks weeksAgo w =
       (Returned (mkResponse 200 (Success "Heatmap data retrieved" reply)), w') /\
     heatmap_shape (heatmap reply) /\
     Forall (Forall (fun n => n = 0%Z)) (heatmap reply)).
Proof.
  intros Hacc. destruct w as [log fs c k l]; cbn [faults store] in *.
  split; [|split; [|split; [|split; [|split]]]].
  - intros Hnone. run_unmatched_query Hnone. cbn [foldl].
    apply outcome_ret. eexists. split; [done|]. cbn.
    rewrite bool_decide_eq_false_2 by lia. rewrite round2_0.
    repeat split; try done.
    repeat case_bool_decide; by apply zero_rate.
  - intros Hnone. run_unmatched_query Hnone. cbn [foldl].
    apply outcome_ret. eexists. split; [done|]. cbn.
    rewrite bool_decide_eq_false_2 by lia. by rewrite round2_0.
  - intros Hnone. run_unmatched_query Hnone.
    cbn [sort_by foldr trends_fold].
    apply outcome_bind, outcome_ret, outcome_ret. eexists; split; [reflexivity|done].
  - intros [-> | ->]; [done|]. by destruct from.
  - intros Hnone. run_unmatched_query Hnone. cbn [hourly_fold].
    apply outcome_bind, outcome_ret, outcome_ret. eexists. split; [done|].
    cbn [hourly]. split; [done|]. unfold hourly_init. by repeat constructor.
  - intros Hnone. run_unmatched_query Hnone. cbn [heatmap_fold].
    apply outcome_bind, outcome_ret, outcome_ret. eexists. split; [done|].
    cbn [heatmap]. split; [apply heatmap_init_shape|].
    unfold heatmap_init. by repeat constructor.
Qed.

(** On the sample log: a dashboard whose range starts after every record,
    a dashboard of the current range for a device that has no record, the
    detail without bounds of such a device, and the detail of a known
    device up to a date before its records. *)
Lemma analytics_of_empty_range_witness :
  (exists reply w',
     get_dashboard None "week" 1800000000000 sample_log_world =
       (Returned (mkResponse 200 (Success "Dashboard statistics retrieved" reply)), w') /\
     totalAlerts reply = 0%Z /\ activeAlerts reply = 0%Z /\ totalDevices reply = 0%nat /\
     avgDistance reply = num 0 /\ alertRate reply = num 0) /\
  (exists reply w',
     get_dashboard (Some "dev-9") "week" 1500000000000 sample_log_world =
       (Returned (mkResponse 200 (Success "Dashboard statistics retrieved" reply)), w') /\
     totalAlerts reply = 0%Z /\ activeAlerts reply = 0%Z /\ totalDevices reply = 0%nat /\
     avgDistance reply = num 0 /\ alertRate reply = num 0) /\
  (exists reply w',
     get_device "dev-9" None None sample_log_world =
       (Returned (mkResponse 200 (Success "Device detailed analytics retrieved" reply)), w') /\
     detail_totalAlerts reply = 0%Z /\ detail_activeAlerts reply = 0%Z /\
     detail_avgDistance reply = num 0 /\
     minDistance reply = num 0 /\ maxDistance reply = num 0) /\
  (exists reply w',
     get_device "dev-1" None (Some 1600000000000%Z) sample_log_world =
       (Returned (mkResponse 200 (Success "Device detailed analytics retrieved" reply)), w') /\
     detail_totalAlerts reply = 0%Z /\ detail_activeAlerts reply = 0%Z /\
     detail_avgDistance reply = num 0 /\
     minDistance reply = num 0 /\ maxDistance reply = num 0).
Proof.
  split; [|split; [|split]].
  - refine (proj1 (analytics_of_empty_range sample_tz None "dev-9" "week" "day"
                     4 0 1800000000000 0 0 0 0 None None sample_log_world _) _);
      [reflexivity|repeat constructor].
  - refine (proj1 (analytics_of_empty_range sample_tz (Some "dev-9") "dev-9" "week" "day"
                     4 0 1500000000000 0 0 0 0 None None sample_log_world _) _);
      [reflexivity|repeat constructor].
  - refine (proj1 (proj2 (analytics_of_empty_range sample_tz None "dev-9" "week" "day"
                     4 0 0 0 0 0 0 None None sample_log_world _)) _);
      [reflexivity|repeat constructor].
  - refine (proj1 (proj2 (analytics_of_empty_range sample_tz None "dev-1" "week" "day"
                     4 0 0 0 0 0 0 None (Some 1600000000000%Z) sample_log_world _)) _);
      [reflexivity|repeat constructor].
Defined.

(** ** Denormalised counters *)

(** Rules for calls that may be rejected, when a rejection needs no more
    than to be caught. *)
Section may_fail.
Context {S D : Type}.
Implicit Types (s : S) (fs : list bool) (c : Z) (k : N) (l : list string).
Lemma outcome_doc_get (coll : S -> gmap string D) id
    (Q : option D -> World S -> Prop) s fs c k l :
  Q (coll s !! id) (mkWorld s (tail fs) c k l) ->
  outcome (doc_get coll id) Q (fun _ _ => True) (mkWorld s fs c k l).
Proof.
  intros HQ. unfold doc_get. apply outcome_bind, outcome_await; [|done].
  intros _. by apply outcome_read.
Qed.

Lemma outcome_doc_delete (upd : (gmap string D -> gmap string D) -> S -> S) id
    (Q : unit -> World S -> Prop) s fs c k l :
  Q tt (mkWorld (upd (delete id) s) (tail fs) c k l) ->
  outcome (doc_delete upd id) Q (fun _ _ => True) (mkWorld s fs c k l).
Proof.
  intros HQ. unfold doc_delete. apply outcome_bind, outcome_await; [|done].
  intros _. by apply outcome_write.
Qed.

Lemma outcome_doc_update (coll : S -> gmap string D)
    (upd : (gmap string D -> gmap string D) -> S -> S) id f
    (Q : unit -> World S -> Prop) s fs c k l :
  (forall d, coll s !! id = Some d ->
     Q tt (mkWorld (upd (alter f id) s) (tail fs) c k l)) ->
  outcome (doc_update coll upd id f) Q (fun _ _ => True) (mkWorld s fs c k l).
Proof.
  intros HQ. unfold doc_update. apply outcome_bind, outcome_await; [|done].
  intros _. apply outcome_bind, outcome_read. cbn [store].
  destruct (coll s !! id) as [d|] eqn:Hd; [|done].
  apply outcome_write. by eapply HQ.
Qed.
End may_fail.

(** A handler that catches a rejection answers 500: whatever is stated of
    its 200 answers holds of that one. *)
Lemma outcome_caught {S D} (m : M S (Response D)) label message
    (P : Response D -> World S -> Prop) w :
  outcome m (fun resp w' => code resp = 200%nat -> P resp w') (fun _ _ => True) w ->
  returns
    (try_catch m (fun error =>
       console_error label;;
       ret (mkResponse 500 (Failure message (Some error)))))
    (fun resp w' => code resp = 200%nat -> P resp w') w.
Proof.
  intros Hm. unfold returns. apply outcome_try_catch.
  eapply outcome_mono; [exact Hm|done|].
  intros e [s fs c k l] _. apply outcome_bind, outcome_console_error, outcome_ret.
  discriminate.
Qed.

(** C8. A removal of livestock [L] of zone [Z] and farm [F] that is
    answered 200 has deleted [L] and nothing else from [livestock], has
    taken exactly 1 from the livestock count of [Z] and from that of [F],
    and has changed no other zone, farm or farmer, nor another counter of
    [F]. *)
Theorem livestock_delete_decrements_zone_and_farm
    livestockId L zone farm (w w' : World FarmStore) resp :
  livestock (store w) !! livestockId = Some L ->
  zone_id L = Some zone ->
  farm_id L = Some farm ->
  delete_livestock livestockId w = (Returned resp, w') ->
  code resp = 200%nat ->
  livestock (store w') = delete livestockId (livestock (store w)) /\
  (exists n, zone_count (store w) zone = Some n /\
             zone_count (store w') zone = Some (n - 1)%Z) /\
  (exists n, farm_count (store w) farm = Some n /\
             farm_count (store w') farm = Some (n - 1)%Z) /\
  (forall z, z <> zone -> boundary_zones (store w') !! z = boundary_zones (store w) !! z) /\
  (forall f, f <> farm -> farms (store w') !! f = farms (store w) !! f) /\
  other_farm_counters <$> farms (store w') !! farm
    = other_farm_counters <$> farms (store w) !! farm /\
  farmers (store w') = farmers (store w).
Proof.
  intros HL Hzone Hfarm Hrun Hcode.
  cut (returns (delete_livestock livestockId)
         (fun resp w' => code resp = 200%nat ->
            livestock (store w') = delete livestockId (livestock (store w)) /\
            (exists n, zone_count (store w) zone = Some n /\
                       zone_count (store w') zone = Some (n - 1)%Z) /\
            (exists n, farm_count (store w) farm = Some n /\
                       farm_count (store w') farm = Some (n - 1)%Z) /\
            (forall z, z <> zone ->
               boundary_zones (store w') !! z = boundary_zones (store w) !! z) /\
            (forall f, f <> farm -> farms (store w') !! f = farms (store w) !! f) /\
            other_farm_counters <$> farms (store w') !! farm
              = other_farm_counters <$> farms (store w) !! farm /\
            farmers (store w') = farmers (store w)) w).
  { unfold returns, outcome. rewrite Hrun. auto. }
  clear Hrun Hcode resp w'. destruct w as [s fs c k l]; cbn [store] in *.
  unfold delete_livestock. apply outcome_caught.
  apply outcome_bind, outcome_doc_get. rewrite HL.
  apply outcome_bind, outcome_doc_delete.
  rewrite Hzone, Hfarm. cbn [doc_path].
  apply outcome_bind, outcome_ret.
  apply outcome_bind, outcome_doc_update. intros z Hz. cbn in Hz.
  apply outcome_bind, outcome_ret.
  apply outcome_bind, outcome_doc_update. intros f Hf. cbn in Hf.
  apply outcome_ret. intros _. cbn.
  unfold zone_count, farm_count. cbn.
  rewrite !lookup_alter_eq, Hz, Hf. cbn.
  split; [done|].
  split; [by eexists|].
  split; [by eexists|].
  split; [by intros; apply lookup_alter_ne|].
  split; [by intros; apply lookup_alter_ne|].
  done.
Qed.

Lemma livestock_delete_decrements_zone_and_farm_witness :
  let run := delete_livestock "cow-1" sample_farm_world in
  livestock (store run.2) = delete "cow-1" (livestock sample_farm_store) /\
  (exists n, zone_count sample_farm_store "zone-1" = Some n /\
             zone_count (store run.2) "zone-1" = Some (n - 1)%Z) /\
  (exists n, farm_count sample_farm_store "farm-1" = Some n /\
             farm_count (store run.2) "farm-1" = Some (n - 1)%Z) /\
  (forall z, z <> "zone-1" ->
     boundary_zones (store run.2) !! z = boundary_zones sample_farm_store !! z) /\
  (forall f, f <> "farm-1" -> farms (store run.2) !! f = farms sample_farm_store !! f) /\
  other_farm_counters <$> farms (store run.2) !! "farm-1"
    = other_farm_counters <$> farms sample_farm_store !! "farm-1" /\
  farmers (store run.2) = farmers sample_farm_store.
Proof.
  intros run.
  apply (livestock_delete_decrements_zone_and_farm "cow-1"
           (mkLivestockDoc (Some "zone-1") (Some "farm-1") (Some "North") "TAG-1")
           "zone-1" "farm-1" sample_farm_world run.2
           (mkResponse 200 (Success "Livestock removed successfully"
                              (mkLivestockRemoved "cow-1" "TAG-1"))));
    reflexivity.
Defined.

(** The sample removal: both counts go from 1 to 0. *)
Example livestock_delete_sample :
  let run := delete_livestock "cow-1" sample_farm_world in
  code <$> (match run.1 with Returned r => Some r | Thrown _ => None end) = Some 200%nat /\
  zone_count (store run.2) "zone-1" = Some 0%Z /\
  farm_count (store run.2) "farm-1" = Some 0%Z /\
  livestock (store run.2) !! "cow-1" = None.
Proof. repeat split; vm_compute; reflexivity. Qed.

Lemma farms_of_delete_not_owned farmer farmId (s : FarmStore) :
  (forall d, farms s !! farmId = Some d -> farmer_id d <> farmer) ->
  farms_of farmer (set_farms (delete farmId) s) = farms_of farmer s.
Proof.
  intros Hnot. unfold farms_of. cbn [farms set_farms].
  destruct (farms s !! farmId) as [d|] eqn:Hd.
  - rewrite <- (map_to_list_delete (farms s) farmId d Hd).
    rewrite filter_cons_False; [done|]. cbn. by apply Hnot.
  - by rewrite delete_id.
Qed.

(** C10. A farm deletion of part_006 that is answered 200 has taken 1
    from the caller's [farms_count], whether or not a farm of that id
    existed or was the caller's. When it was not, the number of the
    caller's farm documents is what it was, so a count that was exact
    before is below the true number after. *)
Theorem farm_delete_decrements_without_check
    farmer farmId (w w' : World FarmStore) resp :
  delete_farm (Some farmer) farmId w = (Returned resp, w') ->
  code resp = 200%nat ->
  (exists n, farmer_count (store w) farmer = Some n /\
             farmer_count (store w') farmer = Some (n - 1)%Z) /\
  farms (store w') = delete farmId (farms (store w)) /\
  ((forall d, farms (store w) !! farmId = Some d -> farmer_id d <> farmer) ->
   farms_of farmer (store w') = farms_of farmer (store w) /\
   (farmer_count (store w) farmer = Some (Z.of_nat (farms_of farmer (store w))) ->
    exists n, farmer_count (store w') farmer = Some n /\
              (n < Z.of_nat (farms_of farmer (store w')))%Z)).
Proof.
  intros Hrun Hcode.
  cut (returns (delete_farm (Some farmer) farmId)
         (fun resp w' => code resp = 200%nat ->
            (exists n, farmer_count (store w) farmer = Some n /\
                       farmer_count (store w') farmer = Some (n - 1)%Z) /\
            store w' = set_farmers (alter (bump_farmer (-1)) farmer)
                         (set_farms (delete farmId) (store w))) w).
  { unfold returns, outcome. rewrite Hrun. intros Hw'.
    destruct (Hw' Hcode) as [(n & Hn & Hn') Hstore].
    split; [by exists n|]. split; [by rewrite Hstore|].
    intros Hnot. rewrite Hstore.
    assert (Hfarms : farms_of farmer
                       (set_farmers (alter (bump_farmer (-1)) farmer)
                          (set_farms (delete farmId) (store w)))
                     = farms_of farmer (store w)).
    { rewrite <- (farms_of_delete_not_owned farmer farmId (store w) Hnot). done. }
    split; [exact Hfarms|].
    intros Hexact. exists (n - 1)%Z. rewrite <- Hstore. split; [exact Hn'|].
    rewrite Hstore, Hfarms. rewrite Hn in Hexact. injection Hexact as <-. lia. }
  clear Hrun Hcode resp w'. destruct w as [s fs c k l]; cbn [store] in *.
  unfold delete_farm. apply outcome_caught.
  apply outcome_bind, outcome_doc_delete.
  apply outcome_bind, outcome_doc_update. intros f Hf. cbn in Hf.
  apply outcome_ret. intros _. cbn [store]. split; [|done].
  unfold farmer_count. cbn. rewrite lookup_alter_eq, Hf. cbn.
  by eexists.
Qed.

Lemma farm_delete_decrements_without_check_witness :
  let run := delete_farm (Some "farmer-1") "no-such-farm" sample_farm_world in
  (exists n, farmer_count sample_farm_store "farmer-1" = Some n /\
             farmer_count (store run.2) "farmer-1" = Some (n - 1)%Z) /\
  farms (store run.2) = delete "no-such-farm" (farms sample_farm_store) /\
  ((forall d, farms sample_farm_store !! "no-such-farm" = Some d -> farmer_id d <> "farmer-1") ->
   farms_of "farmer-1" (store run.2) = farms_of "farmer-1" sample_farm_store /\
   (farmer_count sample_farm_store "farmer-1"
      = Some (Z.of_nat (farms_of "farmer-1" sample_farm_store)) ->
    exists n, farmer_count (store run.2) "farmer-1" = Some n /\
              (n < Z.of_nat (farms_of "farmer-1" (store run.2)))%Z)).
Proof.
  intros run.
  apply (farm_delete_decrements_without_check "farmer-1" "no-such-farm" sample_farm_world
           run.2 (mkResponse 200 (Success "Farm deleted successfully" tt)));
    reflexivity.
Defined.

(** The sample farmer has one farm and a count of 1. Deleting a farm id
    that does not exist is answered 200 and leaves the count at 0 with the
    farm still there; deleting the real farm twice leaves the count at -1
    with no farm. *)
Example farm_delete_sample :
  let status (r : Outcome (Response unit)) :=
    match r with Returned resp => Some (code resp) | Thrown _ => None end in
  let ghost := delete_farm (Some "farmer-1") "no-such-farm" sample_farm_world in
  let once := delete_farm (Some "farmer-1") "farm-1" sample_farm_world in
  let twice := delete_farm (Some "farmer-1") "farm-1" once.2 in
  (status ghost.1, farmer_count (store ghost.2) "farmer-1", farms_of "farmer-1" (store ghost.2))
    = (Some 200%nat, Some 0%Z, 1%nat) /\
  (status twice.1, farmer_count (store twice.2) "farmer-1", farms_of "farmer-1" (store twice.2))
    = (Some 200%nat, Some (-1)%Z, 0%nat).
Proof. split; vm_compute; reflexivity. Qed.

(** Both removals do answer 200 when the documents they update exist and
    the provider lets their calls through. *)
Lemma delete_livestock_succeeds livestockId L zone farm z f (w : World FarmStore) :
  livestock (store w) !! livestockId = Some L ->
  zone_id L = Some zone ->
  farm_id L = Some farm ->
  boundary_zones (store w) !! zone = Some z ->
  farms (store w) !! farm = Some f ->
  accepts 4 (faults w) = true ->
  exists reply w',
    delete_livestock livestockId w =
      (Returned (mkResponse 200 (Success "Livestock removed successfully" reply)), w') /\
    livestock_id reply = livestockId /\ removed_tag reply = identification_tag L.
Proof.
  intros HL Hzone Hfarm Hz Hf Hacc.
  destruct w as [s fs c k l]; cbn [store faults] in *.
  pose proof (accepts_tail _ _ Hacc) as Hacc3.
  pose proof (accepts_tail _ _ Hacc3) as Hacc2.
  pose proof (accepts_tail _ _ Hacc2) as Hacc1.
  apply returns_200. unfold returns, delete_livestock.
  apply outcome_try_catch.
  apply outcome_bind, (outcome_doc_get_accepts 3); [done|]. rewrite HL.
  apply outcome_bind, (outcome_doc_delete_accepts 2); [done|].
  rewrite Hzone, Hfarm. cbn [doc_path].
  apply outcome_bind, outcome_ret.
  apply outcome_bind, (outcome_doc_update_accepts 1 _ _ _ _ z); [done|done|].
  apply outcome_bind, outcome_ret.
  apply outcome_bind, (outcome_doc_update_accepts 0 _ _ _ _ f); [done|done|].
  apply outcome_ret. eexists; split; [reflexivity|done].
Qed.

Lemma delete_farm_succeeds farmer farmId f (w : World FarmStore) :
  farmers (store w) !! farmer = Some f ->
  accepts 2 (faults w) = true ->
  exists w',
    delete_farm (Some farmer) farmId w =
      (Returned (mkResponse 200 (Success "Farm deleted successfully" tt)), w').
Proof.
  intros Hf Hacc. destruct w as [s fs c k l]; cbn [store faults] in *.
  pose proof (accepts_tail _ _ Hacc) as Hacc1.
  cut (returns (delete_farm (Some farmer) farmId)
         (fun resp _ => resp = mkResponse 200 (Success "Farm deleted successfully" tt))
         (mkWorld s fs c k l)).
  { intros (resp & w' & Hrun & ->)%returns_exists. by exists w'. }
  unfold returns, delete_farm. apply outcome_try_catch.
  apply outcome_bind, (outcome_doc_delete_accepts 1); [done|].
  apply outcome_bind, (outcome_doc_update_accepts 0 _ _ _ _ f); [done|done|].
  by apply outcome_ret.
Qed.

(** * Further properties of the routes *)

(** ** Readings that are refused or fail *)

(** X1. A reading that fails validation is answered 400 with the failing
    fields, and a reading with a wrong API key 401, before any call to the
    datastore: the world is left exactly as it was. *)
Theorem reading_refused_before_any_call
    (g : Generation) env b (w : World SensorStore) :
  validationResult (sensor_types_of g) b <> [] \/ Some (api_key b) <> IOT_API_KEY env ->
  exists resp,
    reading_handler g env b w = (Returned resp, w) /\
    (validationResult (sensor_types_of g) b <> [] ->
     resp = mkResponse 400 (Invalid (validationResult (sensor_types_of g) b))) /\
    (validationResult (sensor_types_of g) b = [] ->
     resp = mkResponse 401 (Failure "Invalid API key" None)).
Proof.
  intros Hrefused.
  destruct (decide (validationResult (sensor_types_of g) b = [])) as [Hvalid|Hinvalid].
  - destruct Hrefused as [?|Hkey]; [done|].
    exists (mkResponse 401 (Failure "Invalid API key" None)).
    split; [|done].
    destruct g; cbn [reading_handler sensor_types_of] in *;
      unfold post_reading, post_reading_v2, try_catch, validate;
      rewrite Hvalid, (bool_decide_eq_false_2 _ Hkey); reflexivity.
  - exists (mkResponse 400 (Invalid (validationResult (sensor_types_of g) b))).
    split; [|done].
    destruct g; cbn [reading_handler sensor_types_of] in *;
      unfold post_reading, post_reading_v2, try_catch, validate;
      rewrite (bool_decide_eq_false_2 _ Hinvalid); reflexivity.
Qed.

Lemma reading_refused_before_any_call_witness :
  exists resp,
    post_reading sample_env (mkReadingRequest "sensor-1" (num (-3)) "RADAR" "secret")
      (sample_world [true])
    = (Returned resp, sample_world [true]) /\
    resp = mkResponse 400 (Invalid ["distance_measured"; "sensor_type"]).
Proof.
  destruct (reading_refused_before_any_call Legacy sample_env
              (mkReadingRequest "sensor-1" (num (-3)) "RADAR" "secret") (sample_world [true]))
    as (resp & Hrun & H400 & _).
  - left. discriminate.
  - exists resp. split; [exact Hrun|]. apply H400. discriminate.
Defined.

(** X2. A reading for a sensor id that has no document is answered 404
    once the lookup has gone through, and nothing is written: no reading,
    no live status, no alert. *)
Theorem reading_for_unknown_sensor_is_404
    (g : Generation) env b (w : World SensorStore) :
  validationResult (sensor_types_of g) b = [] ->
  Some (api_key b) = IOT_API_KEY env ->
  units_of g (store w) !! sensor_id b = None ->
  accepts 1 (faults w) = true ->
  exists resp w',
    reading_handler g env b w = (Returned resp, w') /\
    code resp = 404%nat /\
    store w' = store w /\ console w' = console w.
Proof.
  intros Hvalid Hkey Hnone Hacc.
  destruct w as [s fs c k l]; cbn [store faults console] in *.
  cut (returns (reading_handler g env b)
         (fun resp w' => code resp = 404%nat /\ store w' = s /\ console w' = l)
         (mkWorld s fs c k l)).
  { intros (resp & w' & Hrun & ?)%returns_exists. by exists resp, w'. }
  unfold returns.
  destruct g; cbn [reading_handler units_of sensor_types_of] in *.
  - unfold post_reading. rewrite Hvalid, (bool_decide_eq_true_2 _ Hkey).
    simpl negb. cbv iota.
    apply outcome_try_catch.
    apply outcome_bind, (outcome_doc_get_accepts 0); [done|]. rewrite Hnone.
    by apply outcome_ret.
  - unfold post_reading_v2. rewrite Hvalid, (bool_decide_eq_true_2 _ Hkey).
    simpl negb. cbv iota. simpl validate. cbv iota.
    apply outcome_bind, (outcome_doc_get_accepts 0); [done|]. rewrite Hnone.
    by apply outcome_ret.
Qed.

Lemma reading_for_unknown_sensor_is_404_witness :
  exists resp w',
    post_reading sample_env (mkReadingRequest "sensor-9" (num 30) "LIDAR" "secret")
      (sample_world [])
    = (Returned resp, w') /\
    code resp = 404%nat /\
    store w' = sample_store /\ console w' = [].
Proof.
  apply (reading_for_unknown_sensor_is_404 Legacy sample_env
           (mkReadingRequest "sensor-9" (num 30) "LIDAR" "secret") (sample_world []));
    reflexivity.
Defined.

(** X3. A reading at or above the threshold in force (the configured one,
    or 50) is answered 200 with status "normal" and records no alert: the
    alert and notification collections and the console stay as they
    were. *)
Theorem normal_reading_records_no_alert
    (g : Generation) env b sd (w : World SensorStore) :
  validationResult (sensor_types_of g) b = [] ->
  Some (api_key b) = IOT_API_KEY env ->
  units_of g (store w) !! sensor_id b = Some sd ->
  (js_or (threshold_of g sd) (num 50) <= distance_measured b)%Qc ->
  accepts 4 (faults w) = true ->
  exists reply w',
    reading_handler g env b w =
      (Returned (mkResponse 200 (Success "Sensor reading recorded" reply)), w') /\
    status reply = "normal" /\
    severities g (store w') = severities g (store w) /\
    notifications (store w') = notifications (store w) /\
    console w' = console w.
Proof.
  intros Hvalid Hkey Hsensor Hle Hacc.
  destruct (returns_exists _ _ _ (reading_handler_runs g env b sd w Hvalid Hkey Hsensor Hacc))
    as (resp & w' & Hrun & (reply & -> & Hst & _) & _ & _ & Hnormal & _).
  apply derive_status_normal in Hle. rewrite Hle in *.
  exists reply, w'. split; [exact Hrun|]. split; [exact Hst|].
  by apply Hnormal.
Qed.

Lemma normal_reading_records_no_alert_witness :
  exists reply w',
    post_reading sample_env (sample_reading 60) (sample_world []) =
      (Returned (mkResponse 200 (Success "Sensor reading recorded" reply)), w') /\
    status reply = "normal" /\
    severities Legacy (store w') = severities Legacy sample_store /\
    notifications (store w') = notifications sample_store /\
    console w' = [].
Proof.
  apply (normal_reading_records_no_alert Legacy sample_env (sample_reading 60) sample_sensor
           (sample_world []));
    [reflexivity|reflexivity|reflexivity|by vm_compute|reflexivity].
Defined.

(** X4. A sensor with no threshold field, or with a threshold of 0, is
    evaluated against 50: its reading is an alert if and only if the
    distance is strictly below 50. A configured 0 does not switch alerts
    off. *)
Theorem unset_or_zero_threshold_means_50
    (g : Generation) env b sd (w : World SensorStore) :
  validationResult (sensor_types_of g) b = [] ->
  Some (api_key b) = IOT_API_KEY env ->
  units_of g (store w) !! sensor_id b = Some sd ->
  threshold_of g sd = None \/ threshold_of g sd = Some (num 0) ->
  accepts 4 (faults w) = true ->
  exists reply w',
    reading_handler g env b w =
      (Returned (mkResponse 200 (Success "Sensor reading recorded" reply)), w') /\
    (status reply = "alert" <-> (distance_measured b < num 50)%Qc).
Proof.
  intros Hvalid Hkey Hsensor Hunset Hacc.
  destruct (returns_exists _ _ _ (reading_handler_runs g env b sd w Hvalid Hkey Hsensor Hacc))
    as (resp & w' & Hrun & (reply & -> & Hst & _) & _).
  exists reply, w'. split; [exact Hrun|].
  rewrite Hst. destruct Hunset as [->| ->]; cbn [js_or].
  - apply derive_status_alert.
  - rewrite bool_decide_eq_true_2 by done. apply derive_status_alert.
Qed.

Lemma unset_or_zero_threshold_means_50_witness :
  let sd := mkSensorDoc "zone-1" "farm-1" None "north fence corner"
              (Some (num 0)) None None None true None in
  let w := mkWorld (mkSensorStore {["sensor-1" := sd]} ∅ [] [] [] [] ∅) []
             1700000000000%Z 0%N [] in
  exists reply w',
    post_reading sample_env (sample_reading 30) w =
      (Returned (mkResponse 200 (Success "Sensor reading recorded" reply)), w') /\
    (status reply = "alert" <-> (distance_measured (sample_reading 30) < num 50)%Qc).
Proof.
  intros sd w.
  apply (unset_or_zero_threshold_means_50 Legacy sample_env (sample_reading 30) sd w);
    [reflexivity|reflexivity|reflexivity|right; reflexivity|reflexivity].
Defined.

Lemma outcome_await_rejects {S} (Q : unit -> World S -> Prop) (E : string -> World S -> Prop)
    (s : S) fs c k l :
  head fs = Some true ->
  E "datastore error" (mkWorld s (tail fs) c k l) ->
  outcome await_db Q E (mkWorld s fs c k l).
Proof. intros Hhead HE. apply outcome_await; [by rewrite Hhead|done]. Qed.

Lemma head_tail3 {A} (fs : list A) : head (tail (tail (tail fs))) = fs !! 3%nat.
Proof. by destruct fs as [|? [|? [|? [|? ?]]]]. Qed.

(** X5. The writes of a reading are not a transaction. When the writes of
    the reading and of the live status go through and the update of the
    sensor document is rejected, the first generation answers 500 and the
    second hands the error on, yet the reading and the live status stay
    written; the sensor document is unchanged and no alert is recorded,
    breach or not. *)
Theorem reading_failure_is_not_rolled_back
    (g : Generation) env b sd (w : World SensorStore) :
  validationResult (sensor_types_of g) b = [] ->
  Some (api_key b) = IOT_API_KEY env ->
  units_of g (store w) !! sensor_id b = Some sd ->
  accepts 3 (faults w) = true ->
  faults w !! 3%nat = Some true ->
  exists o w',
    reading_handler g env b w = (o, w') /\
    o = match g with
        | Legacy =>
            Returned (mkResponse 500
                        (Failure "Failed to record sensor reading" (Some "datastore error")))
        | V2 => Thrown "datastore error"
        end /\
    reading_half_written g b
      (derive_status (distance_measured b) (js_or (threshold_of g sd) (num 50))) w w'.
Proof.
  intros Hvalid Hkey Hsensor Hacc Hfault.
  destruct w as [s fs c k l]; cbn [store faults clock next_key] in *.
  pose proof (accepts_tail _ _ Hacc) as Hacc2.
  pose proof (accepts_tail _ _ Hacc2) as Hacc1.
  rewrite <- head_tail3 in Hfault.
  set (st := derive_status _ _).
  set (left_behind := fun w' => reading_half_written g b st (mkWorld s fs c k l) w').
  cut (outcome (reading_handler g env b)
         (fun resp w' => g = Legacy /\
            resp = mkResponse 500
                     (Failure "Failed to record sensor reading" (Some "datastore error")) /\
            left_behind w')
         (fun e w' => g = V2 /\ e = "datastore error" /\ left_behind w')
         (mkWorld s fs c k l)).
  { unfold outcome. destruct (reading_handler g env b _) as [[resp|e] w'].
    - intros (-> & -> & ?). by eexists _, _.
    - intros (-> & -> & ?). by eexists _, _. }
  assert (Hleft : forall (s' : SensorStore) k' l',
            sensor_readings s' = put_reading (toISODate c, sensor_id b, PushKey k)
              {| reading_sensor_id := sensor_id b;
                 reading_distance := distance_measured b;
                 reading_sensor_type := sensor_type b;
                 reading_status := st;
                 reading_timestamp := c;
                 reading_zone_id := Some (sensor_zone_id sd);
                 reading_farm_id := Some (sensor_farm_id sd) |} (sensor_readings s) ->
            sensor_status s' !! sensor_id b
              = Some {| last_reading := Some (distance_measured b);
                        last_timestamp := Some c;
                        live_status := Some st;
                        is_online := Some true;
                        battery_level := None |} ->
            units_of g s' = units_of g s ->
            severities g s' = severities g s ->
            notifications s' = notifications s ->
            left_behind (mkWorld s' (tail (tail (tail (tail fs)))) c k' l')).
  { intros s' k' l' Hr Hl Hu Ha Hn. unfold left_behind, reading_half_written. cbn.
    split; [eexists; rewrite Hr; split; [apply put_reading_elem|done]|].
    split; [eexists; rewrite Hl; done|]. done. }
  destruct g; cbn [reading_handler units_of threshold_of sensor_types_of] in *.
  - unfold post_reading. rewrite Hvalid, (bool_decide_eq_true_2 _ Hkey).
    simpl negb. cbv iota.
    apply outcome_try_catch.
    apply outcome_bind, (outcome_doc_get_accepts 2); [done|]. rewrite Hsensor.
    apply outcome_bind, outcome_Date_now; cbn [clock].
    apply outcome_bind, outcome_fresh_key.
    apply outcome_bind, (outcome_await_accepts 1); [done|].
    apply outcome_bind, outcome_write.
    apply outcome_bind, (outcome_await_accepts 0); [done|].
    apply outcome_bind, outcome_write.
    apply outcome_bind. unfold doc_update.
    apply outcome_bind, outcome_await_rejects; [done|].
    apply outcome_bind, outcome_console_error, outcome_ret.
    split; [done|]. split; [done|].
    apply Hleft; cbn; try done. by rewrite lookup_insert_eq.
  - unfold post_reading_v2. rewrite Hvalid, (bool_decide_eq_true_2 _ Hkey).
    simpl negb. cbv iota. simpl validate. cbv iota.
    apply outcome_bind, (outcome_doc_get_accepts 2); [done|]. rewrite Hsensor.
    apply outcome_bind, outcome_Date_now; cbn [clock].
    apply outcome_bind, outcome_fresh_key.
    apply outcome_bind, (outcome_await_accepts 1); [done|].
    apply outcome_bind, outcome_write.
    apply outcome_bind, (outcome_await_accepts 0); [done|].
    apply outcome_bind, outcome_write.
    apply outcome_bind. unfold doc_update.
    apply outcome_bind, outcome_await_rejects; [done|].
    split; [done|]. split; [done|].
    apply Hleft; cbn; try done. by rewrite lookup_insert_eq.
Qed.

Lemma reading_failure_is_not_rolled_back_witness :
  let w := sample_world [false; false; false; true] in
  exists o w',
    post_reading sample_env (sample_reading 30) w = (o, w') /\
    o = Returned (mkResponse 500
                    (Failure "Failed to record sensor reading" (Some "datastore error"))) /\
    reading_half_written Legacy (sample_reading 30) "alert" w w'.
Proof.
  apply (reading_failure_is_not_rolled_back Legacy sample_env (sample_reading 30)
           sample_sensor (sample_world [false; false; false; true])); reflexivity.
Defined.

(** ** More on batches *)

(** The loop of the batch route reads the clock and nothing else. *)
Lemma batch_loop_world rs updates results (w : World SensorStore) :
  (batch_loop rs updates results w).2 = w.
Proof.
  revert updates results. induction rs as [|reading rs IH]; intros updates results; [done|].
  cbn [batch_loop]. destruct (batch_timestamp reading) as [t|]; [|done].
  unfold bind at 1. cbn [Date_now]. apply IH.
Qed.

Lemma batch_loop_throws rs updates results (w : World SensorStore) :
  Exists (fun r => batch_timestamp r = None) rs ->
  batch_loop rs updates results w = (Thrown "Invalid time value", w).
Proof.
  intros Hbad. revert updates results.
  induction Hbad as [reading rs Hnone|reading rs _ IH]; intros updates results;
    cbn [batch_loop].
  - by rewrite Hnone.
  - destruct (batch_timestamp reading) as [t|]; [|done].
    unfold bind at 1. cbn [Date_now]. by rewrite IH.
Qed.

Lemma put_reading_paths path r l p :
  p ∈ map fst (put_reading path r l) <-> p = path \/ p ∈ map fst l.
Proof.
  unfold put_reading. rewrite map_app, elem_of_app. cbn [map fst].
  rewrite list_elem_of_singleton. split.
  - intros [Hin| ->]; [|by left]. right.
    apply list_elem_of_fmap in Hin as (row & -> & Hrow).
    apply list_elem_of_filter in Hrow as [_ Hrow].
    apply list_elem_of_fmap. by exists row.
  - intros [-> |Hin]; [by right|].
    destruct (decide (p = path)) as [-> |Hne]; [by right|]. left.
    apply list_elem_of_fmap in Hin as (row & -> & Hrow).
    apply list_elem_of_fmap. exists row. split; [done|].
    by apply list_elem_of_filter.
Qed.

Lemma batch_loop_results rs updates results (w : World SensorStore) :
  Forall (fun r => is_Some (batch_timestamp r)) rs ->
  exists updates',
    batch_loop rs updates results w
    = (Returned (updates', results ++ map (fun r => (batch_sensor_id r, "queued")) rs), w) /\
    (forall p, p ∈ map fst updates -> p ∈ map fst updates') /\
    (forall reading t, reading ∈ rs -> batch_timestamp reading = Some t ->
       (toISODate t, batch_sensor_id reading, TimeKey (clock w)) ∈ map fst updates').
Proof.
  intros Hts. revert updates results.
  induction Hts as [|reading rs [t Ht] _ IH]; intros updates results.
  - exists updates. cbn. rewrite app_nil_r. repeat split; [done|].
    intros ? ? Hin. by apply elem_of_nil in Hin.
  - cbn [batch_loop]. rewrite Ht. unfold bind at 1. cbn [Date_now].
    edestruct IH as (updates' & Hrun & Hkeep & Hnew). rewrite Hrun.
    exists updates'. split; [by rewrite <- app_assoc|]. split.
    + intros p Hp. apply Hkeep, put_reading_paths. by right.
    + intros reading' t' [-> |Hin]%elem_of_cons Ht'.
      * rewrite Ht in Ht'. injection Ht' as <-. apply Hkeep, put_reading_paths. by left.
      * by apply Hnew.
Qed.

Lemma foldl_put_reading_paths updates tree p :
  p ∈ map fst updates ->
  p ∈ map fst (foldl (fun acc r => put_reading r.1 r.2 acc) tree updates).
Proof.
  assert (Hkeep : forall updates tree, p ∈ map fst tree ->
            p ∈ map fst (foldl (fun acc r => put_reading r.1 r.2 acc) tree updates)).
  { clear. intros updates. induction updates as [|[q r] updates IH]; intros tree Hin; [done|].
    cbn [foldl]. apply IH, put_reading_paths. by right. }
  revert tree. induction updates as [|[q r] updates IH]; intros tree; cbn [map fst foldl].
  - intros Hin. by apply elem_of_nil in Hin.
  - intros [-> |Hin]%elem_of_cons.
    + apply Hkeep, put_reading_paths. by left.
    + by apply IH.
Qed.

Lemma batch_body_untouched env b (w : World SensorStore) :
  outcome (batch_body env b)
    (fun _ w' => batch_untouched (store w) (store w') /\ console w' = console w)
    (fun _ w' => batch_untouched (store w) (store w') /\ console w' = console w) w.
Proof.
  destruct w as [s fs c k l]. unfold batch_body.
  destruct (negb _); [by apply outcome_ret|].
  apply outcome_bind.
  pose proof (batch_loop_world (readings b) [] [] (mkWorld s fs c k l)) as Hw.
  unfold outcome at 1. destruct (batch_loop _ _ _ _) as [[[updates results]|e] w'];
    cbn [snd] in Hw; subst w'; [|done].
  apply outcome_bind, outcome_await; [intros _|done].
  by apply outcome_bind, outcome_write, outcome_ret.
Qed.

(** X6. The batch route never raises an alert and never refreshes the live
    status: whatever the items (breaches included) and whatever the
    answer, the alert and notification collections, the live status of
    every sensor and the sensor documents are what they were. *)
Theorem batch_never_alerts (g : Generation) env b (w : World SensorStore) :
  batch_untouched (store w) (store (batch_handler g env b w).2).
Proof.
  pose proof (batch_body_untouched env b w) as Hbody.
  destruct g; cbn [batch_handler].
  - assert (Hrun : returns (post_batch env b)
              (fun _ w' => batch_untouched (store w) (store w')) w).
    { unfold returns, post_batch. apply outcome_try_catch.
      eapply outcome_mono; [exact Hbody|by intros ? ? [? _]|].
      intros e [s' fs' c' k' l'] [? _].
      by apply outcome_bind, outcome_console_error, outcome_ret. }
    apply returns_exists in Hrun as (resp & w' & -> & ?). done.
  - unfold post_batch_v2. destruct (validate _) as [rejected|].
    + by repeat split.
    + unfold outcome in Hbody. by destruct (batch_body env b w) as [[?|?] ?]; destruct Hbody.
Qed.

(** X7. A batch with an item that has no usable timestamp stores
    nothing. The loop throws at that item, before the single write: the
    first generation answers 500, the second hands the error on, and no
    reading of the batch is stored, not even of the items before the bad
    one; the datastore has not even been called. *)
Theorem batch_with_bad_timestamp_stores_nothing
    (g : Generation) env b key (w : World SensorStore) :
  batch_api_key b = Some key ->
  key <> "" ->
  IOT_API_KEY env = Some key ->
  Exists (fun r => batch_timestamp r = None) (readings b) ->
  exists o w',
    batch_handler g env b w = (o, w') /\
    o = match g with
        | Legacy =>
            Returned (mkResponse 500
                        (Failure "Failed to process batch readings" (Some "Invalid time value")))
        | V2 => Thrown "Invalid time value"
        end /\
    store w' = store w /\ faults w' = faults w.
Proof.
  intros Hkey Hne Henv Hbad.
  assert (Hbody : batch_body env b w = (Thrown "Invalid time value", w)).
  { unfold batch_body. rewrite Hkey, Henv, bool_decide_eq_true_2 by done. cbn [negb].
    unfold bind at 1. by rewrite (batch_loop_throws _ _ _ _ Hbad). }
  destruct g; cbn [batch_handler].
  - unfold post_batch, try_catch. rewrite Hbody. destruct w as [s fs c k l].
    by eexists _, _.
  - unfold post_batch_v2. rewrite Hkey.
    rewrite bool_decide_eq_false_2; [by eexists _, _|].
    intros [?|[=]]; congruence.
Qed.

Lemma batch_with_bad_timestamp_stores_nothing_witness :
  let b := mkBatchRequest
             [mkBatchReading "sensor-1" (num 10) "LIDAR" (Some 1700000000000%Z);
              mkBatchReading "sensor-1" (num 20) "LIDAR" None]
             (Some "secret") in
  exists o w',
    post_batch sample_env b (sample_world []) = (o, w') /\
    o = Returned (mkResponse 500
                    (Failure "Failed to process batch readings" (Some "Invalid time value"))) /\
    store w' = sample_store /\ faults w' = [].
Proof.
  intros b.
  apply (batch_with_bad_timestamp_stores_nothing Legacy sample_env b "secret" (sample_world []));
    [reflexivity|discriminate|reflexivity|].
  apply Exists_cons_tl, Exists_cons_hd. reflexivity.
Defined.

(** X8. A batch whose items all carry a timestamp is answered 200 with one
    entry per item, in order, that names the sensor of the item and says
    "queued"; and for every item a reading is stored under the day of its
    timestamp, its sensor and the time of the request. *)
Theorem batch_answers_queued_for_every_item
    (g : Generation) env b key (w : World SensorStore) :
  batch_api_key b = Some key ->
  key <> "" ->
  IOT_API_KEY env = Some key ->
  Forall (fun r => is_Some (batch_timestamp r)) (readings b) ->
  accepts 1 (faults w) = true ->
  exists w',
    batch_handler g env b w =
      (Returned (mkResponse 200
                   (Success (pretty (length (readings b)) +:+ " readings processed")
                      (map (fun r => (batch_sensor_id r, "queued")) (readings b)))), w') /\
    forall reading t, reading ∈ readings b -> batch_timestamp reading = Some t ->
      (toISODate t, batch_sensor_id reading, TimeKey (clock w))
        ∈ map fst (sensor_readings (store w')).
Proof.
  intros Hkey Hne Henv Hts Hacc. destruct w as [s fs c k l]; cbn [faults store clock] in *.
  destruct (batch_loop_results (readings b) [] [] (mkWorld s fs c k l) Hts)
    as (updates & Hloop & _ & Hpaths).
  assert (Hbody : batch_body env b (mkWorld s fs c k l)
            = (Returned (mkResponse 200
                 (Success (pretty (length (readings b)) +:+ " readings processed")
                    (map (fun r => (batch_sensor_id r, "queued")) (readings b)))),
               mkWorld (set_sensor_readings
                          (fun tree => foldl (fun acc row => put_reading row.1 row.2 acc)
                                         tree updates) s)
                 (tail fs) c k l)).
  { unfold batch_body. rewrite Hkey, Henv, bool_decide_eq_true_2 by done. cbn [negb].
    unfold bind at 1. rewrite Hloop. cbn [app].
    pose proof (accepts_head _ _ Hacc) as Hhead.
    unfold bind, await_db, write, ret; cbn.
    destruct fs as [|[] fs]; cbn in *; done. }
  eexists. split.
  - destruct g; cbn [batch_handler].
    + unfold post_batch, try_catch. by rewrite Hbody.
    + unfold post_batch_v2. rewrite Hkey.
      rewrite bool_decide_eq_false_2; [exact Hbody|].
      intros [?|[=]]; congruence.
  - intros reading t Hin Ht. cbn [store set_sensor_readings sensor_readings].
    apply foldl_put_reading_paths. by eapply Hpaths.
Qed.

Lemma batch_answers_queued_for_every_item_witness :
  exists w',
    post_batch sample_env (sample_batch 60) wide_world =
      (Returned (mkResponse 200
                   (Success (pretty (length (readings (sample_batch 60))) +:+ " readings processed")
                      (map (fun r => (batch_sensor_id r, "queued"))
                         (readings (sample_batch 60))))), w') /\
    forall reading t, reading ∈ readings (sample_batch 60) ->
      batch_timestamp reading = Some t ->
      (toISODate t, batch_sensor_id reading, TimeKey (clock wide_world))
        ∈ map fst (sensor_readings (store w')).
Proof.
  apply (batch_answers_queued_for_every_item Legacy sample_env (sample_batch 60) "secret"
           wide_world);
    [reflexivity|discriminate|reflexivity| |reflexivity].
  repeat constructor. by eexists.
Defined.

(** ** More on the live status *)

(** X9. For a sensor with no live record the live-status route answers
    404 once the read has gone through, and leaves the store as it was. *)
Theorem live_status_of_unknown_sensor_is_404
    (g : Generation) sensorId (w : World SensorStore) :
  sensor_status (store w) !! sensorId = None ->
  accepts 1 (faults w) = true ->
  exists w',
    live_handler g sensorId w =
      (Returned (mkResponse 404 (Failure "No live data available for this sensor" None)), w') /\
    store w' = store w.
Proof.
  intros Hnone Hacc. destruct w as [s fs c k l]; cbn [faults store] in *.
  pose proof (accepts_head _ _ Hacc) as Hhead.
  exists (mkWorld s (tail fs) c k l). split; [|done].
  destruct g; cbn [live_handler];
    unfold get_live, get_live_v2, try_catch, live_body, bind, await_db, read; cbn;
    destruct fs as [|[] fs]; cbn in *; try done; by rewrite Hnone.
Qed.

Lemma live_status_of_unknown_sensor_is_404_witness :
  exists w',
    get_live "sensor-1" (sample_world []) =
      (Returned (mkResponse 404 (Failure "No live data available for this sensor" None)), w') /\
    store w' = sample_store.
Proof.
  apply (live_status_of_unknown_sensor_is_404 Legacy "sensor-1" (sample_world []));
    reflexivity.
Defined.

(** The live record a reading leaves is exactly the four fields of the
    handler: the battery level a previous request may have stored is gone. *)
Lemma reading_live_record (g : Generation) env b sd (w : World SensorStore) :
  validationResult (sensor_types_of g) b = [] ->
  Some (api_key b) = IOT_API_KEY env ->
  units_of g (store w) !! sensor_id b = Some sd ->
  accepts 4 (faults w) = true ->
  returns (reading_handler g env b)
    (fun resp w' =>
       code resp = 200%nat /\
       sensor_status (store w') !! sensor_id b
       = Some {| last_reading := Some (distance_measured b);
                 last_timestamp := Some (clock w);
                 live_status :=
                   Some (derive_status (distance_measured b)
                           (js_or (threshold_of g sd) (num 50)));
                 is_online := Some true;
                 battery_level := None |}) w.
Proof.
  intros Hvalid Hkey Hsensor Hacc.
  destruct w as [s fs c k l]; cbn [store faults clock next_key console] in *.
  pose proof (accepts_tail _ _ Hacc) as Hacc3.
  pose proof (accepts_tail _ _ Hacc3) as Hacc2.
  pose proof (accepts_tail _ _ Hacc2) as Hacc1.
  unfold returns.
  assert (Hafter : forall g' (w0 : World SensorStore) (Q : unit -> World SensorStore -> Prop),
            (forall w', sensor_status (store w') = sensor_status (store w0) -> Q tt w') ->
            outcome (if bool_decide
                          (derive_status (distance_measured b)
                             (js_or (threshold_of g sd) (num 50)) = "alert")
                     then alert_recorder g' (sensor_id b) sd (distance_measured b)
                     else ret tt) Q (fun _ _ => False) w0).
  { intros g' w0 Q HQ. case_bool_decide.
    - destruct (createAlert_swallows g' (sensor_id b) sd (distance_measured b) w0)
        as (w' & Hrun & _ & Hstatus & _).
      eapply outcome_of_run; [exact Hrun|]. by apply HQ.
    - by apply outcome_ret, HQ. }
  destruct g; cbn [reading_handler units_of threshold_of sensor_types_of] in *.
  - unfold post_reading. rewrite Hvalid, (bool_decide_eq_true_2 _ Hkey).
    simpl negb. cbv iota.
    apply outcome_try_catch.
    eapply outcome_mono with (E := fun _ _ => False);
      [|intros ? ? HQ; exact HQ|intros ? ? []].
    apply outcome_bind, (outcome_doc_get_accepts 3); [done|]. rewrite Hsensor.
    apply outcome_bind, outcome_Date_now; cbn [clock].
    apply outcome_bind, outcome_fresh_key.
    apply outcome_bind, (outcome_await_accepts 2); [done|].
    apply outcome_bind, outcome_write.
    apply outcome_bind, (outcome_await_accepts 1); [done|].
    apply outcome_bind, outcome_write.
    apply outcome_bind, (outcome_doc_update_accepts 0 _ _ _ _ sd); [done|done|].
    apply outcome_bind, (Hafter Legacy). intros w' Hstatus.
    apply outcome_ret. split; [done|]. rewrite Hstatus. cbn. by rewrite lookup_insert_eq.
  - unfold post_reading_v2. rewrite Hvalid, (bool_decide_eq_true_2 _ Hkey).
    simpl negb. cbv iota. simpl validate. cbv iota.
    apply outcome_bind, (outcome_doc_get_accepts 3); [done|]. rewrite Hsensor.
    apply outcome_bind, outcome_Date_now; cbn [clock].
    apply outcome_bind, outcome_fresh_key.
    apply outcome_bind, (outcome_await_accepts 2); [done|].
    apply outcome_bind, outcome_write.
    apply outcome_bind, (outcome_await_accepts 1); [done|].
    apply outcome_bind, outcome_write.
    apply outcome_bind, (outcome_doc_update_accepts 0 _ _ _ _ sd); [done|done|].
    apply outcome_bind, (Hafter V2). intros w' Hstatus.
    apply outcome_ret. split; [done|]. rewrite Hstatus. cbn. by rewrite lookup_insert_eq.
Qed.

Lemma live_handler_runs (g : Generation) sensorId live ts (w : World SensorStore) :
  accepts 1 (faults w) = true ->
  sensor_status (store w) !! sensorId = Some live ->
  last_timestamp live = Some ts ->
  exists w',
    live_handler g sensorId w =
      (Returned (mkResponse 200
                   (Success "Live sensor status"
                      {| liveData := live;
                         is_stale := bool_decide (clock w - ts > 300000)%Z;
                         age_seconds := Some ((clock w - ts) `div` 1000)%Z |})), w') /\
    store w' = store w.
Proof.
  intros Hacc Hlive Hts. destruct w as [s fs c k l]; cbn [faults store clock] in *.
  pose proof (accepts_head _ _ Hacc) as Hhead.
  exists (mkWorld s (tail fs) c k l). split; [|done].
  destruct g; cbn [live_handler];
    unfold get_live, get_live_v2, try_catch, live_body, bind, await_db, read, Date_now, ret;
    cbn; destruct fs as [|[] fs]; cbn in *; try done; by rewrite Hlive, Hts.
Qed.

(** X10. What a reading writes is what the live-status route shows. After
    a reading is answered 200, a query made when the clock shows [now]
    returns the distance and status of that reading, online, with no
    battery level, an age of [(now - t) / 1000] seconds rounded down, and
    stale exactly when [now - t > 300000], [t] being the time of the
    reading. *)
Theorem live_status_mirrors_last_reading
    (g : Generation) env b sd (w : World SensorStore) (fs : list bool) (now : Z) :
  validationResult (sensor_types_of g) b = [] ->
  Some (api_key b) = IOT_API_KEY env ->
  units_of g (store w) !! sensor_id b = Some sd ->
  accepts 4 (faults w) = true ->
  accepts 1 fs = true ->
  exists resp w1 w2,
    reading_handler g env b w = (Returned resp, w1) /\
    code resp = 200%nat /\
    live_handler g (sensor_id b) (mkWorld (store w1) fs now (next_key w1) (console w1)) =
      (Returned (mkResponse 200
         (Success "Live sensor status"
            {| liveData :=
                 {| last_reading := Some (distance_measured b);
                    last_timestamp := Some (clock w);
                    live_status :=
                      Some (derive_status (distance_measured b)
                              (js_or (threshold_of g sd) (num 50)));
                    is_online := Some true;
                    battery_level := None |};
               is_stale := bool_decide (now - clock w > 300000)%Z;
               age_seconds := Some ((now - clock w) `div` 1000)%Z |})), w2).
Proof.
  intros Hvalid Hkey Hsensor Hacc Hfs.
  destruct (returns_exists _ _ _ (reading_live_record g env b sd w Hvalid Hkey Hsensor Hacc))
    as (resp & w1 & Hrun & Hcode & Hlive).
  destruct (live_handler_runs g (sensor_id b) _ (clock w)
              (mkWorld (store w1) fs now (next_key w1) (console w1)) Hfs Hlive eq_refl)
    as (w2 & Hquery & _).
  by exists resp, w1, w2.
Qed.

Lemma live_status_mirrors_last_reading_witness :
  exists resp w1 w2,
    post_reading sample_env (sample_reading 30) (sample_world []) = (Returned resp, w1) /\
    code resp = 200%nat /\
    get_live "sensor-1" (mkWorld (store w1) [] 1700000300001 (next_key w1) (console w1)) =
      (Returned (mkResponse 200
         (Success "Live sensor status"
            {| liveData :=
                 {| last_reading := Some (num 30);
                    last_timestamp := Some 1700000000000%Z;
                    live_status := Some "alert";
                    is_online := Some true;
                    battery_level := None |};
               is_stale := true;
               age_seconds := Some 300%Z |})), w2).
Proof.
  apply (live_status_mirrors_last_reading Legacy sample_env (sample_reading 30) sample_sensor
           (sample_world []) [] 1700000300001%Z); reflexivity.
Defined.

(** ** Analytics on the records of a range *)

Lemma query_get_accepts (conds : AlertRecord -> bool)
    (Q : list AlertRecord -> World AlertLog -> Prop) E (log : AlertLog) fs c k l :
  accepts 1 fs = true ->
  Q (filter (fun r => conds r = true) log) (mkWorld log (tail fs) c k l) ->
  outcome (query_get conds) Q E (mkWorld log fs c k l).
Proof.
  intros Hacc HQ. unfold query_get.
  apply outcome_bind, (outcome_await_accepts 0); [done|]. by apply outcome_read.
Qed.

Lemma dashboard_fold (snapshot : list AlertRecord) (a : DashboardAcc) :
  let a' := foldl dashboard_step a snapshot in
  acc_totalAlerts a' = (acc_totalAlerts a + Z.of_nat (length snapshot))%Z /\
  acc_activeAlerts a'
  = (acc_activeAlerts a + Z.of_nat (length (filter (fun r => is_active r = true) snapshot)))%Z /\
  acc_devices a' = acc_devices a ∪ list_to_set (deviceId <$> snapshot) /\
  acc_totalDistance a' = foldl (fun t r => (t + distance_or_0 r)%Qc) (acc_totalDistance a) snapshot.
Proof.
  revert a. induction snapshot as [|r snapshot IH]; intros a; cbn [foldl].
  - cbn. repeat split; try lia. by rewrite union_empty_r_L.
  - destruct (IH (dashboard_step a r)) as (Htotal & Hactive & Hdevices & Hdistance).
    cbn zeta. rewrite Htotal, Hactive, Hdevices, Hdistance. cbn [dashboard_step acc_totalAlerts
      acc_activeAlerts acc_devices acc_totalDistance length fmap list_fmap].
    repeat split.
    + lia.
    + destruct (is_active r) eqn:Hr.
      * rewrite filter_cons_True by done. cbn [length]. lia.
      * rewrite filter_cons_False by (by rewrite Hr). lia.
    + cbn [list_to_set]. by rewrite (assoc_L (∪)).
Qed.

Lemma size_list_to_set_le (l : list (option string)) :
  (size (list_to_set l : gset (option string)) <= length l)%nat.
Proof.
  induction l as [|x l IH]; cbn [list_to_set length]; [by rewrite size_empty|].
  rewrite size_union_alt, size_singleton.
  assert (Hsub : (list_to_set l : gset (option string)) ∖ {[x]} ⊆ list_to_set l)
    by apply subseteq_difference_l, reflexivity.
  apply subseteq_size in Hsub. lia.
Qed.

(** X11. The dashboard counts what the range matches: [totalAlerts] is the
    number of matched records, [activeAlerts] the number of those that are
    alerts and not resolved, [totalDevices] the number of distinct device
    ids among them (records without an id counting together as one), so
    neither exceeds [totalAlerts]. *)
Theorem dashboard_counts_matched_records
    (device : option string) (timeRange : string) (startDate : Z) (w : World AlertLog) :
  accepts 1 (faults w) = true ->
  let matched :=
    filter (fun r => (created_from startDate r && if_device device r) = true) (store w) in
  exists reply w',
    get_dashboard device timeRange startDate w =
      (Returned (mkResponse 200 (Success "Dashboard statistics retrieved" reply)), w') /\
    totalAlerts reply = Z.of_nat (length matched) /\
    activeAlerts reply = Z.of_nat (length (filter (fun r => is_active r = true) matched)) /\
    totalDevices reply = size (list_to_set (deviceId <$> matched) : gset (option string)) /\
    (activeAlerts reply <= totalAlerts reply)%Z /\
    (Z.of_nat (totalDevices reply) <= totalAlerts reply)%Z.
Proof.
  intros Hacc matched. destruct w as [log fs c k l]; cbn [faults store] in *.
  apply returns_200. unfold returns, get_dashboard.
  apply outcome_try_catch, outcome_bind, query_get_accepts; [done|]. fold matched.
  apply outcome_ret. eexists. split; [reflexivity|].
  destruct (dashboard_fold matched (mkDashboardAcc 0 0 (num 0) ∅))
    as (Htotal & Hactive & Hdevices & _).
  cbn [totalAlerts activeAlerts totalDevices].
  rewrite Htotal, Hactive, Hdevices. cbn [acc_totalAlerts acc_activeAlerts acc_devices].
  rewrite union_empty_l_L.
  split; [lia|]. split; [lia|]. split; [done|]. split.
  - pose proof (length_filter (fun r => is_active r = true) matched). lia.
  - pose proof (size_list_to_set_le (deviceId <$> matched)) as Hle.
    rewrite length_fmap in Hle. lia.
Qed.

Lemma dashboard_counts_matched_records_witness :
  exists reply w',
    get_dashboard (Some "dev-1") "week" 1690000000000 sample_log_world =
      (Returned (mkResponse 200 (Success "Dashboard statistics retrieved" reply)), w') /\
    totalAlerts reply = 2%Z /\ activeAlerts reply = 1%Z /\ totalDevices reply = 1%nat.
Proof.
  destruct (dashboard_counts_matched_records (Some "dev-1") "week" 1690000000000
              sample_log_world eq_refl)
    as (reply & w' & Hrun & Htotal & Hactive & Hdevices & _).
  exists reply, w'. split; [exact Hrun|].
  split; [exact Htotal|]. split; [exact Hactive|]. exact Hdevices.
Defined.




(** The sample device saw 30 and 10. *)
Example device_detail_sample :
  match (get_device "dev-1" None None sample_log_world).1 with
  | Returned (mkResponse 200 (Success _ reply)) =>
      minDistance reply = num 10 /\ maxDistance reply = num 30 /\
      detail_avgDistance reply = num 20
  | _ => False
  end.
Proof. vm_compute. repeat split; by apply num_eq. Qed.

Lemma matched_have_dates (conds : AlertRecord -> bool) (log : AlertLog) :
  (forall r, conds r = true -> is_Some (created_at r)) ->
  Forall (fun r => is_Some (created_at r)) (filter (fun r => conds r = true) log).
Proof.
  intros Hconds. apply Forall_forall. intros r [Hr _]%list_elem_of_filter. by apply Hconds.
Qed.

Lemma created_from_is_Some d r : created_from d r = true -> is_Some (created_at r).
Proof. unfold created_from. by destruct (created_at r). Qed.

(** The hourly fold keeps the hours and adds one to the totals per record. *)
Lemma hourly_fold_total tz snapshot (hourly : list HourBucket) (w : World AlertLog) :
  Forall (fun r => is_Some (created_at r)) snapshot ->
  length hourly = 24%nat ->
  exists hourly',
    hourly_fold tz snapshot hourly w = (Returned hourly', w) /\
    hour <$> hourly' = hour <$> hourly /\
    foldr Z.add 0%Z (total <$> hourly')
    = (foldr Z.add 0%Z (total <$> hourly) + Z.of_nat (length snapshot))%Z /\
    (Forall (fun b => total b = alerts_in_hour b + normal b)%Z hourly ->
     Forall (fun b => total b = alerts_in_hour b + normal b)%Z hourly').
Proof.
  intros Hdates. revert hourly.
  induction Hdates as [|data snapshot [t Ht] _ IH]; intros hourly Hlen.
  - exists hourly. cbn. repeat split; [lia|done].
  - cbn [hourly_fold]. rewrite Ht.
    pose proof (getHours_range tz t) as Hrange.
    rewrite bool_decide_eq_true_2 by lia.
    destruct (lookup_lt_is_Some_2 hourly (Z.to_nat (getHours tz t))) as [b Hb]; [lia|].
    rewrite Hb.
    destruct (IH (<[Z.to_nat (getHours tz t) := hourly_incr (alert data) b]> hourly))
      as (hourly' & Hrun & Hhours & Hsum & Hparts); [by rewrite length_insert|].
    exists hourly'. split; [exact Hrun|]. split; [|split].
    + rewrite Hhours, list_fmap_insert. cbn [hourly_incr hour].
      apply list_insert_id. by rewrite list_lookup_fmap, Hb.
    + rewrite Hsum, list_fmap_insert.
      rewrite (sum_insert _ _ (total b)) by (by rewrite list_lookup_fmap, Hb).
      cbn [hourly_incr total length]. lia.
    + intros Hall. apply Hparts, Forall_insert; [done|].
      eapply Forall_forall in Hall; [|by eapply list_elem_of_lookup_2].
      cbn [hourly_incr total alerts_in_hour normal]. destruct (alert data); lia.
Qed.

(** X13. The hourly breakdown always has its 24 buckets, bucket [i] for
    hour [i]; every matched record is counted in exactly one of them, so
    the totals add up to the number of matched records, and in each bucket
    the total is the sum of its alerts and its normal entries. *)
Theorem hourly_buckets_count_matched_records
    (tz : TimeZone) (device : option string) (targetDate startOfDay endOfDay : Z)
    (w : World AlertLog) :
  accepts 1 (faults w) = true ->
  let matched :=
    filter (fun r => (created_from startOfDay r && created_until endOfDay r
                      && if_device device r) = true) (store w) in
  exists reply w',
    get_hourly tz device targetDate startOfDay endOfDay w =
      (Returned (mkResponse 200 (Success "Hourly breakdown retrieved" reply)), w') /\
    hour <$> hourly reply = Z.of_nat <$> seq 0 24 /\
    foldr Z.add 0%Z (total <$> hourly reply) = Z.of_nat (length matched) /\
    Forall (fun b => total b = alerts_in_hour b + normal b)%Z (hourly reply).
Proof.
  intros Hacc matched. destruct w as [log fs c k l]; cbn [faults store] in *.
  destruct (hourly_fold_total tz matched hourly_init (mkWorld log (tail fs) c k l))
    as (hourly' & Hrun & Hhours & Hsum & Hparts); [|done|].
  { apply matched_have_dates. intros r [[Hr _]%andb_true_iff _]%andb_true_iff.
    by eapply created_from_is_Some. }
  apply returns_200. unfold returns, get_hourly.
  apply outcome_try_catch, outcome_bind, query_get_accepts; [done|]. fold matched.
  apply outcome_bind. eapply outcome_of_run; [exact Hrun|].
  apply outcome_ret. eexists. split; [reflexivity|]. cbn [hourly].
  split; [by rewrite Hhours|]. split; [by rewrite Hsum|].
  apply Hparts. unfold hourly_init. by repeat constructor.
Qed.

Lemma hourly_buckets_count_matched_records_witness :
  exists reply w',
    get_hourly sample_tz None 1700000000000 1699977600000 1700063999999 sample_log_world =
      (Returned (mkResponse 200 (Success "Hourly breakdown retrieved" reply)), w') /\
    hour <$> hourly reply = Z.of_nat <$> seq 0 24 /\
    foldr Z.add 0%Z (total <$> hourly reply) = 2%Z /\
    Forall (fun b => total b = alerts_in_hour b + normal b)%Z (hourly reply).
Proof.
  apply (hourly_buckets_count_matched_records sample_tz None 1700000000000 1699977600000
           1700063999999 sample_log_world).
  reflexivity.
Defined.

(** ** Sorting by a comparator *)

Lemma insert_by_Permutation {A} (cmp : A -> A -> Z) x (l : list A) :
  insert_by cmp x l ≡ₚ x :: l.
Proof.
  induction l as [|y l IH]; cbn [insert_by]; [done|].
  case_bool_decide; [done|]. rewrite IH. apply Permutation_swap.
Qed.

Lemma sort_by_Permutation {A} (cmp : A -> A -> Z) (l : list A) : sort_by cmp l ≡ₚ l.
Proof.
  unfold sort_by. induction l as [|x l IH]; cbn [foldr]; [done|].
  by rewrite insert_by_Permutation, IH.
Qed.



(** ** Trends *)

Lemma trend_bump_spec key is_alert (trends : list (TrendKey * TrendBucket)) :
  NoDup trends.*1 ->
  NoDup (trend_bump key is_alert trends).*1 /\
  (forall k, k ∈ (trend_bump key is_alert trends).*1 <-> k = key \/ k ∈ trends.*1) /\
  foldr Z.add 0%Z (trend_total <$> (trend_bump key is_alert trends).*2)
  = (foldr Z.add 0%Z (trend_total <$> trends.*2) + 1)%Z /\
  (Forall (fun b => trend_total b = trend_alerts b + trend_normal b)%Z trends.*2 ->
   Forall (fun b => trend_total b = trend_alerts b + trend_normal b)%Z
     (trend_bump key is_alert trends).*2).
Proof.
  induction trends as [|[k b] trends IH]; intros Hnodup; cbn [trend_bump].
  - cbn. split; [repeat constructor; by intros ?%elem_of_nil|].
    split; [intros k; rewrite list_elem_of_singleton;
            split; [by left|intros [?|?%elem_of_nil]; done]|].
    split; [lia|]. intros _. repeat constructor. cbn. destruct is_alert; lia.
  - apply NoDup_cons in Hnodup as [Hk Hnodup].
    destruct (IH Hnodup) as (IHnodup & IHkeys & IHsum & IHparts).
    case_bool_decide as Hkey; cbn [fmap list_fmap fst snd foldr].
    + subst k. split; [by apply NoDup_cons|].
      split; [intros k; rewrite elem_of_cons; tauto|].
      split; [cbn; lia|].
      intros [Hb Hall]%Forall_cons. apply Forall_cons. split; [|done].
      cbn. destruct is_alert; lia.
    + split.
      { apply NoDup_cons. split; [|done]. rewrite IHkeys. intros [?|?]; [congruence|done]. }
      split.
      { intros k'. rewrite !elem_of_cons, IHkeys. tauto. }
      split; [rewrite IHsum; lia|].
      intros [Hb Hall]%Forall_cons. apply Forall_cons. split; [done|by apply IHparts].
Qed.

Lemma trends_fold_spec tz interval snapshot (trends : list (TrendKey * TrendBucket))
    (w : World AlertLog) :
  Forall (fun r => is_Some (created_at r)) snapshot ->
  NoDup trends.*1 ->
  exists trends',
    trends_fold tz interval snapshot trends w = (Returned trends', w) /\
    NoDup trends'.*1 /\
    foldr Z.add 0%Z (trend_total <$> trends'.*2)
    = (foldr Z.add 0%Z (trend_total <$> trends.*2) + Z.of_nat (length snapshot))%Z /\
    (Forall (fun b => trend_total b = trend_alerts b + trend_normal b)%Z trends.*2 ->
     Forall (fun b => trend_total b = trend_alerts b + trend_normal b)%Z trends'.*2).
Proof.
  intros Hdates. revert trends.
  induction Hdates as [|data snapshot [t Ht] _ IH]; intros trends Hnodup.
  - exists trends. cbn. repeat split; [done|lia|done].
  - cbn [trends_fold]. rewrite Ht.
    destruct (trend_bump_spec (trend_key tz interval t) (alert data) trends Hnodup)
      as (Hnodup1 & _ & Hsum1 & Hparts1).
    destruct (IH _ Hnodup1) as (trends' & Hrun & Hnodup' & Hsum' & Hparts').
    exists trends'. split; [exact Hrun|]. split; [exact Hnodup'|].
    split; [rewrite Hsum', Hsum1; cbn [length]; lia|].
    intros Hall. by apply Hparts', Hparts1.
Qed.

(** X14. The trends of a range put every matched record in exactly one
    bucket: bucket keys are distinct, the totals add up to the number of
    matched records, and in each bucket the total is the sum of its alerts
    and its normal entries. An interval outside hour, day, week and month
    does not fail: every record then falls in the single bucket of the
    undefined key. *)
Theorem trends_buckets_count_matched_records
    (tz : TimeZone) (startDate endDate : Z) (device : option string) (interval : string)
    (w : World AlertLog) :
  accepts 1 (faults w) = true ->
  let matched :=
    filter (fun r => (created_from startDate r && created_until endDate r
                      && if_device device r) = true) (store w) in
  exists reply w',
    get_trends tz (Some startDate) (Some endDate) device interval w =
      (Returned (mkResponse 200 (Success "Trends data retrieved" reply)), w') /\
    NoDup (trends reply).*1 /\
    foldr Z.add 0%Z (trend_total <$> (trends reply).*2) = Z.of_nat (length matched) /\
    Forall (fun b => trend_total b = trend_alerts b + trend_normal b)%Z (trends reply).*2 /\
    (interval ∉ ["hour"; "day"; "week"; "month"] -> matched <> [] ->
     (trends reply).*1 = [NoKey]).
Proof.
  intros Hacc matched. destruct w as [log fs c k l]; cbn [faults store] in *.
  set (snapshot := sort_by (fun a b => default 0 (created_at a) - default 0 (created_at b))%Z
                     matched).
  assert (Hperm : snapshot ≡ₚ matched) by apply sort_by_Permutation.
  assert (Hdates : Forall (fun r => is_Some (created_at r)) snapshot).
  { rewrite Hperm. apply matched_have_dates.
    intros r [[Hr _]%andb_true_iff _]%andb_true_iff. by eapply created_from_is_Some. }
  destruct (trends_fold_spec tz interval snapshot [] (mkWorld log (tail fs) c k l) Hdates)
    as (trends' & Hrun & Hnodup & Hsum & Hparts); [constructor|].
  apply returns_200. unfold returns, get_trends.
  apply outcome_try_catch, outcome_bind, query_get_accepts; [done|]. fold matched snapshot.
  apply outcome_bind. eapply outcome_of_run; [exact Hrun|].
  apply outcome_ret. eexists. split; [reflexivity|]. cbn [trends].
  split; [exact Hnodup|]. split; [by rewrite Hsum, Hperm|].
  split; [by apply Hparts|].
  intros Hinterval Hne.
  assert (Hkey : forall t, trend_key tz interval t = NoKey).
  { intros t. unfold trend_key.
    repeat (case_bool_decide;
              [subst interval; exfalso; apply Hinterval; by repeat constructor|]).
    done. }
  assert (Hkeys : forall snapshot' trends0 trends1 w0,
            trends_fold tz interval snapshot' trends0 w0 = (Returned trends1, w0) ->
            (forall k, k ∈ trends0.*1 -> k = NoKey) ->
            (snapshot' <> [] \/ trends0 <> []) ->
            NoDup trends0.*1 ->
            (forall k, k ∈ trends1.*1 -> k = NoKey) /\ trends1 <> []).
  { clear -Hkey. induction snapshot' as [|data snapshot' IH]; intros trends0 trends1 w0.
    - cbn. intros [= <-] Hall [?|?] _; done.
    - cbn [trends_fold]. destruct (created_at data) as [t|]; [|done].
      rewrite Hkey. intros Hrun Hall _ Hnodup.
      destruct (trend_bump_spec NoKey (alert data) trends0 Hnodup) as (Hnodup1 & Hkeys1 & _).
      eapply IH; [exact Hrun| | |exact Hnodup1].
      + intros k [->|?]%Hkeys1; [done|by apply Hall].
      + right. intros Hnil.
        pose proof (proj2 (Hkeys1 NoKey) (or_introl eq_refl)) as Hin.
        rewrite Hnil in Hin. by apply elem_of_nil in Hin. }
  destruct (Hkeys snapshot [] trends' _ Hrun) as [Hall Hnonempty].
  - by intros ? ?%elem_of_nil.
  - left. intros Hnil. apply Hne. apply Permutation_nil_r. by rewrite <- Hperm, Hnil.
  - constructor.
  - destruct trends' as [|[k1 b1] [|[k2 b2] rest]]; [done| |].
    + cbn. f_equal. apply Hall. cbn. apply elem_of_cons. by left.
    + exfalso. cbn in Hnodup. apply NoDup_cons in Hnodup as [Hnotin _].
      apply Hnotin. rewrite (Hall k1), (Hall k2); cbn; by repeat constructor.
Qed.

Lemma trends_buckets_count_matched_records_witness :
  exists reply w',
    get_trends sample_tz (Some 1690000000000%Z) (Some 1800000000000%Z) None "fortnight"
      sample_log_world =
      (Returned (mkResponse 200 (Success "Trends data retrieved" reply)), w') /\
    NoDup (trends reply).*1 /\
    foldr Z.add 0%Z (trend_total <$> (trends reply).*2) = 2%Z /\
    Forall (fun b => trend_total b = trend_alerts b + trend_normal b)%Z (trends reply).*2 /\
    (trends reply).*1 = [NoKey].
Proof.
  destruct (trends_buckets_count_matched_records sample_tz 1690000000000 1800000000000 None
              "fortnight" sample_log_world eq_refl)
    as (reply & w' & Hrun & Hnodup & Hsum & Hparts & Hkeys).
  exists reply, w'. split; [exact Hrun|]. split; [exact Hnodup|].
  split; [exact Hsum|]. split; [exact Hparts|].
  apply Hkeys; [|discriminate].
  intros Hin. repeat (apply elem_of_cons in Hin as [Hin|Hin]; [discriminate Hin|]).
  by apply elem_of_nil in Hin.
Defined.

(** By day, the two sample alerts of 2023-11-15 (local time) share one
    bucket. *)
Example trends_sample :
  match (get_trends sample_tz (Some 1690000000000%Z) (Some 1800000000000%Z) None "day"
           sample_log_world).1 with
  | Returned (mkResponse 200 (Success _ reply)) =>
      trends reply = [(DayKey 2023 11 15, mkTrendBucket 2 2 0)]
  | _ => False
  end.
Proof. vm_compute. reflexivity. Qed.

(** ** Per-device analytics *)


















(** The sample log: "dev-1" with two alerts comes before "dev-2" with one. *)
Example device_list_sample :
  match (get_devices "alerts" (Some 10%Z) sample_device_world).1 with
  | Returned (mkResponse 200 (Success _ reply)) =>
      map (fun d => (stat_deviceId d, stat_totalAlerts d, stat_activeAlerts d)) (devices reply)
      = [(Some "dev-1", 2%Z, 1%Z); (Some "dev-2", 1%Z, 1%Z)]
  | _ => False
  end.
Proof. vm_compute. reflexivity. Qed.

(** Five records, three entries: the record without a device id and the
    one of the device "undefined" share an entry, which keeps the id of the
    first; the record of "constructor" has none; and "7", an array index,
    comes first when nothing is sorted. *)
Example device_names_sample :
  let log :=
    [ mkAlertRecord None true false (Some (num 30)) (Some 1700000000000%Z);
      mkAlertRecord (Some "dev-1") true false (Some (num 30)) (Some 1700000000000%Z);
      mkAlertRecord (Some "constructor") true false (Some (num 30)) (Some 1700000000000%Z);
      mkAlertRecord (Some "undefined") true false (Some (num 30)) (Some 1700000000000%Z);
      mkAlertRecord (Some "7") true false (Some (num 30)) (Some 1700000000000%Z) ] in
  match (get_devices "" (Some 10%Z) (mkWorld (mkDeviceProcess log false) [] 0 0 [])).1 with
  | Returned (mkResponse 200 (Success _ reply)) =>
      count reply = 3%nat /\
      map (fun d => (stat_deviceId d, stat_totalAlerts d)) (devices reply)
      = [(Some "7", 1%Z); (None, 2%Z); (Some "dev-1", 1%Z)]
  | _ => False
  end.
Proof. vm_compute. split; reflexivity. Qed.

(** A dated record of the device "__proto__" leaves its date on the
    prototype: the device "lastSeen" after it gets no entry, in this
    request and in the next, while before it the same device gets one. *)
Example prototype_sample :
  let proto := mkAlertRecord (Some "__proto__") true false None (Some 1700000000000%Z) in
  let seen := mkAlertRecord (Some "lastSeen") true false None None in
  let world log := mkWorld (mkDeviceProcess log false) [] 0 0 [] in
  let counted run :=
    match run with
    | (Returned (mkResponse 200 (Success _ reply)), w') =>
        Some (count reply, prototype_polluted (store w'))
    | _ => None
    end in
  counted (get_devices "alerts" (Some 10%Z) (world [proto; seen])) = Some (0%nat, true) /\
  counted (get_devices "alerts" (Some 10%Z) (world [seen; proto])) = Some (1%nat, true) /\
  counted (get_devices "alerts" (Some 10%Z)
             (get_devices "alerts" (Some 10%Z) (world [seen; proto])).2)
  = Some (0%nat, true).
Proof. vm_compute. repeat split; reflexivity. Qed.

(** ** Livestock added, changed and removed *)

Lemma outcome_add_doc {S D} (upd : (gmap string D -> gmap string D) -> S -> S) (doc : D)
    (Q : string -> World S -> Prop) s fs c k l :
  Q (auto_id k) (mkWorld (upd <[auto_id k := doc]> s) (tail fs) c (N.succ k) l) ->
  outcome (add_doc upd doc) Q (fun _ _ => True) (mkWorld s fs c k l).
Proof.
  intros HQ. unfold add_doc. apply outcome_bind, outcome_await; [|done]. intros _.
  apply outcome_bind, outcome_fresh_key, outcome_bind, outcome_write, outcome_ret.
  exact HQ.
Qed.

Lemma outcome_add_doc_accepts {S D} n (upd : (gmap string D -> gmap string D) -> S -> S)
    (doc : D) (Q : string -> World S -> Prop) E s fs c k l :
  accepts (Datatypes.S n) fs = true ->
  Q (auto_id k) (mkWorld (upd <[auto_id k := doc]> s) (tail fs) c (N.succ k) l) ->
  outcome (add_doc upd doc) Q E (mkWorld s fs c k l).
Proof.
  intros Hacc HQ. unfold add_doc. apply outcome_bind, (outcome_await_accepts n); [done|].
  apply outcome_bind, outcome_fresh_key, outcome_bind, outcome_write, outcome_ret.
  exact HQ.
Qed.

(** A handler that catches a rejection answers 500: whatever is stated of
    its answers of another code holds of that one. *)
Lemma outcome_caught_code {S D} (m : M S (Response D)) label message (n : nat)
    (P : Response D -> World S -> Prop) w :
  n <> 500%nat ->
  outcome m (fun resp w' => code resp = n -> P resp w') (fun _ _ => True) w ->
  returns
    (try_catch m (fun error =>
       console_error label;;
       ret (mkResponse 500 (Failure message (Some error)))))
    (fun resp w' => code resp = n -> P resp w') w.
Proof.
  intros Hn Hm. unfold returns. apply outcome_try_catch.
  eapply outcome_mono; [exact Hm|done|].
  intros e [s fs c k l] _. apply outcome_bind, outcome_console_error, outcome_ret.
  cbn. congruence.
Qed.

(** Counting the documents of a collection that satisfy [P], across an
    insertion, a deletion and an update in place. *)
Section counting.
Context {D : Type} (P : string * D -> Prop) `{!forall row, Decision (P row)}.

Lemma count_insert_fresh (m : gmap string D) i x :
  m !! i = None ->
  length (filter P (map_to_list (<[i := x]> m)))
    = ((if decide (P (i, x)) then 1 else 0) + length (filter P (map_to_list m)))%nat.
Proof.
  intros Hi. rewrite (map_to_list_insert m i x Hi).
  destruct (decide (P (i, x))) as [HP|HP].
  - by rewrite filter_cons_True.
  - by rewrite filter_cons_False.
Qed.

Lemma count_delete (m : gmap string D) i x :
  m !! i = Some x ->
  length (filter P (map_to_list m))
    = ((if decide (P (i, x)) then 1 else 0) + length (filter P (map_to_list (delete i m))))%nat.
Proof.
  intros Hi. rewrite <- (map_to_list_delete m i x Hi).
  destruct (decide (P (i, x))) as [HP|HP].
  - by rewrite filter_cons_True.
  - by rewrite filter_cons_False.
Qed.

Lemma count_alter (m : gmap string D) f i x :
  m !! i = Some x ->
  (length (filter P (map_to_list (alter f i m))) + (if decide (P (i, x)) then 1 else 0))%nat
    = (length (filter P (map_to_list m)) + (if decide (P (i, f x)) then 1 else 0))%nat.
Proof.
  intros Hi.
  assert (Halter : alter f i m = <[i := f x]> (delete i m)).
  { apply map_eq. intros j. destruct (decide (i = j)) as [->|Hne].
    - by rewrite lookup_alter_eq, lookup_insert_eq, Hi.
    - by rewrite lookup_alter_ne, lookup_insert_ne, lookup_delete_ne. }
  rewrite Halter, count_insert_fresh by apply lookup_delete_eq.
  rewrite (count_delete m i x Hi). lia.
Qed.
End counting.

(** What an answer 201 of [POST /api/livestock] means for the store. *)
Lemma post_livestock_201 trim b (w w' : World FarmStore) resp :
  post_livestock trim b w = (Returned resp, w') ->
  code resp = 201%nat ->
  exists zoneData farmData,
    boundary_zones (store w) !! body_zone_id b = Some zoneData /\
    farms (store w) !! body_farm_id b = Some farmData /\
    tag_in_farm (trim (body_identification_tag b)) (body_farm_id b) (store w) = [] /\
    let doc := mkLivestockDoc (Some (body_zone_id b)) (Some (body_farm_id b))
                 (Some (boundary_zone_name zoneData)) (trim (body_identification_tag b)) in
    resp = mkResponse 201 (Success "Livestock added successfully"
                             (mkLivestockAdded (auto_id (next_key w)) doc)) /\
    store w' = set_farms (alter (bump_farm 1) (body_farm_id b))
                 (set_boundary_zones (alter (bump_zone 1) (body_zone_id b))
                    (set_livestock <[auto_id (next_key w) := doc]> (store w))).
Proof.
  intros Hrun Hcode.
  cut (returns (post_livestock trim b)
         (fun resp w' => code resp = 201%nat ->
            exists zoneData farmData,
              boundary_zones (store w) !! body_zone_id b = Some zoneData /\
              farms (store w) !! body_farm_id b = Some farmData /\
              tag_in_farm (trim (body_identification_tag b)) (body_farm_id b) (store w) = [] /\
              let doc := mkLivestockDoc (Some (body_zone_id b)) (Some (body_farm_id b))
                           (Some (boundary_zone_name zoneData))
                           (trim (body_identification_tag b)) in
              resp = mkResponse 201 (Success "Livestock added successfully"
                                       (mkLivestockAdded (auto_id (next_key w)) doc)) /\
              store w' = set_farms (alter (bump_farm 1) (body_farm_id b))
                           (set_boundary_zones (alter (bump_zone 1) (body_zone_id b))
                              (set_livestock <[auto_id (next_key w) := doc]> (store w)))) w).
  { unfold returns, outcome. rewrite Hrun. auto. }
  clear Hrun Hcode resp w'. destruct w as [s fs c k l]; cbn [store next_key] in *.
  unfold post_livestock. apply outcome_caught_code; [done|].
  cbv zeta. destruct (negb (bool_decide (livestock_validation b = []))).
  { apply outcome_ret. discriminate. }
  apply outcome_bind, outcome_await; [|done]. intros _.
  apply outcome_bind, outcome_read. cbn [store].
  destruct (tag_in_farm _ _ s) as [|row rows] eqn:Htag; cbn [take].
  2: { apply outcome_ret. discriminate. }
  apply outcome_bind, outcome_doc_get.
  destruct (boundary_zones s !! body_zone_id b) as [zoneData|] eqn:Hzone.
  2: { apply outcome_ret. discriminate. }
  apply outcome_bind, outcome_add_doc.
  apply outcome_bind, outcome_doc_update. intros z Hz. cbn in Hz.
  apply outcome_bind, outcome_doc_update. intros f Hf. cbn in Hf.
  apply outcome_ret. intros _. by exists zoneData, f.
Qed.

Lemma zone_count_bump delta zone z (s : FarmStore) :
  zone_count (set_boundary_zones (alter (bump_zone delta) zone) s) z
    = (fun n => if decide (z = zone) then (n + delta)%Z else n) <$> zone_count s z.
Proof.
  unfold zone_count. cbn [boundary_zones set_boundary_zones].
  destruct (decide (z = zone)) as [->|Hne].
  - rewrite lookup_alter_eq. by destruct (boundary_zones s !! zone).
  - rewrite lookup_alter_ne by done. by destruct (boundary_zones s !! z).
Qed.

Lemma farm_count_bump delta farm f (s : FarmStore) :
  farm_count (set_farms (alter (bump_farm delta) farm) s) f
    = (fun n => if decide (f = farm) then (n + delta)%Z else n) <$> farm_count s f.
Proof.
  unfold farm_count. cbn [farms set_farms].
  destruct (decide (f = farm)) as [->|Hne].
  - rewrite lookup_alter_eq. by destruct (farms s !! farm).
  - rewrite lookup_alter_ne by done. by destruct (farms s !! f).
Qed.

(** X16. An answer 201 to a request to add livestock means: there was no
    animal of that tag in that farm, the zone and the farm existed, the new
    document is stored under the id of the answer with the name of the
    zone copied into it, the count of the zone and the livestock count of
    the farm have each gone up by exactly 1, and no other zone, farm,
    farmer, or other counter of the farm has changed. *)
Theorem livestock_add_counts_one_more trim b (w w' : World FarmStore) resp :
  post_livestock trim b w = (Returned resp, w') ->
  code resp = 201%nat ->
  exists zoneData,
    boundary_zones (store w) !! body_zone_id b = Some zoneData /\
    tag_in_farm (trim (body_identification_tag b)) (body_farm_id b) (store w) = [] /\
    let doc := mkLivestockDoc (Some (body_zone_id b)) (Some (body_farm_id b))
                 (Some (boundary_zone_name zoneData)) (trim (body_identification_tag b)) in
    body resp = Success "Livestock added successfully"
                  (mkLivestockAdded (auto_id (next_key w)) doc) /\
    livestock (store w') = <[auto_id (next_key w) := doc]> (livestock (store w)) /\
    (exists n, zone_count (store w) (body_zone_id b) = Some n /\
               zone_count (store w') (body_zone_id b) = Some (n + 1)%Z) /\
    (exists n, farm_count (store w) (body_farm_id b) = Some n /\
               farm_count (store w') (body_farm_id b) = Some (n + 1)%Z) /\
    (forall z, z <> body_zone_id b ->
       boundary_zones (store w') !! z = boundary_zones (store w) !! z) /\
    (forall f, f <> body_farm_id b -> farms (store w') !! f = farms (store w) !! f) /\
    other_farm_counters <$> farms (store w') !! body_farm_id b
      = other_farm_counters <$> farms (store w) !! body_farm_id b /\
    farmers (store w') = farmers (store w).
Proof.
  intros Hrun Hcode.
  destruct (post_livestock_201 trim b w w' resp Hrun Hcode)
    as (zoneData & farmData & Hzone & Hfarm & Htag & Hresp & Hstore).
  exists zoneData. split; [exact Hzone|]. split; [exact Htag|]. cbv zeta in *.
  rewrite Hresp, Hstore. cbn [body livestock boundary_zones farms farmers
    set_farms set_boundary_zones set_livestock].
  split; [done|]. split; [done|].
  split.
  { unfold zone_count. cbn [boundary_zones set_farms set_boundary_zones set_livestock].
    rewrite lookup_alter_eq, !Hzone. cbn. by eexists. }
  split.
  { unfold farm_count. cbn [farms set_farms set_boundary_zones set_livestock].
    rewrite lookup_alter_eq, !Hfarm. cbn. by eexists. }
  split; [by intros; apply lookup_alter_ne|].
  split; [by intros; apply lookup_alter_ne|].
  split; [|done].
  rewrite lookup_alter_eq, Hfarm. done.
Qed.

Lemma livestock_add_counts_one_more_witness :
  let run := post_livestock id sample_livestock_request sample_farm_world in
  exists zoneData,
    boundary_zones sample_farm_store !! "zone-1" = Some zoneData /\
    tag_in_farm "TAG-2" "farm-1" sample_farm_store = [] /\
    let doc := mkLivestockDoc (Some "zone-1") (Some "farm-1")
                 (Some (boundary_zone_name zoneData)) "TAG-2" in
    (exists resp, run.1 = Returned resp /\
       body resp = Success "Livestock added successfully" (mkLivestockAdded "0" doc)) /\
    livestock (store run.2) = <["0" := doc]> (livestock sample_farm_store) /\
    zone_count (store run.2) "zone-1" = Some 2%Z /\
    farm_count (store run.2) "farm-1" = Some 2%Z.
Proof.
  intros run.
  destruct (livestock_add_counts_one_more id sample_livestock_request sample_farm_world
              run.2
              (mkResponse 201
                 (Success "Livestock added successfully"
                    (mkLivestockAdded "0"
                       (mkLivestockDoc (Some "zone-1") (Some "farm-1") (Some "North") "TAG-2"))))
              eq_refl eq_refl)
    as (zoneData & Hzone & Htag & Hbody & Hlive & (n & Hn & Hn') & (m & Hm & Hm') & _).
  exists zoneData. split; [exact Hzone|]. split; [exact Htag|].
  split; [eexists; split; [reflexivity|exact Hbody]|].
  split; [exact Hlive|].
  injection Hn as <-. injection Hm as <-. by split.
Defined.

Lemma livestock_in_zone_insert zone id doc (s : FarmStore) :
  livestock s !! id = None ->
  livestock_in_zone zone (set_livestock <[id := doc]> s)
    = ((if decide (zone_id doc = Some zone) then 1 else 0) + livestock_in_zone zone s)%nat.
Proof.
  intros Hfresh. unfold livestock_in_zone. cbn [livestock set_livestock].
  by rewrite (count_insert_fresh (fun row => zone_id row.2 = Some zone)).
Qed.

Lemma livestock_of_farm_insert farm id doc (s : FarmStore) :
  livestock s !! id = None ->
  livestock_of_farm farm (set_livestock <[id := doc]> s)
    = ((if decide (farm_id doc = Some farm) then 1 else 0) + livestock_of_farm farm s)%nat.
Proof.
  intros Hfresh. unfold livestock_of_farm. cbn [livestock set_livestock].
  by rewrite (count_insert_fresh (fun row => farm_id row.2 = Some farm)).
Qed.

(** X17. Adding livestock keeps the cached counts exact. When the id
    generated for the new document is not yet in use, an answer 201 leaves
    every zone whose count was the number of its livestock documents with
    a count that still is, and likewise every farm. *)
Theorem livestock_add_keeps_counts_exact trim b (w w' : World FarmStore) resp :
  post_livestock trim b w = (Returned resp, w') ->
  code resp = 201%nat ->
  livestock (store w) !! auto_id (next_key w) = None ->
  (forall z, zone_exact (store w) z -> zone_exact (store w') z) /\
  (forall f, farm_exact (store w) f -> farm_exact (store w') f).
Proof.
  intros Hrun Hcode Hfresh.
  destruct (post_livestock_201 trim b w w' resp Hrun Hcode)
    as (zoneData & farmData & Hzone & Hfarm & Htag & Hresp & Hstore).
  cbv zeta in *. rewrite Hstore. clear Hstore Hresp Hrun.
  split.
  - intros z Hexact. unfold zone_exact in *.
    change (zone_count (set_farms ?f ?s) z) with (zone_count s z).
    rewrite zone_count_bump.
    change (zone_count (set_livestock ?f ?s) z) with (zone_count s z).
    change (livestock_in_zone z (set_farms ?f (set_boundary_zones ?g ?s)))
      with (livestock_in_zone z s).
    rewrite livestock_in_zone_insert by done. rewrite Hexact. cbn.
    destruct (decide (z = body_zone_id b)) as [->|Hne].
    + rewrite decide_True by done. f_equal. lia.
    + rewrite decide_False by congruence. done.
  - intros f Hexact. unfold farm_exact in *.
    rewrite farm_count_bump.
    change (farm_count (set_boundary_zones ?g (set_livestock ?h ?s)) f)
      with (farm_count s f).
    change (livestock_of_farm f (set_farms ?f' (set_boundary_zones ?g ?s)))
      with (livestock_of_farm f s).
    rewrite livestock_of_farm_insert by done. rewrite Hexact. cbn.
    destruct (decide (f = body_farm_id b)) as [->|Hne].
    + rewrite decide_True by done. f_equal. lia.
    + rewrite decide_False by congruence. done.
Qed.

Lemma livestock_add_keeps_counts_exact_witness :
  let run := post_livestock id sample_livestock_request sample_farm_world in
  (forall z, zone_exact sample_farm_store z -> zone_exact (store run.2) z) /\
  (forall f, farm_exact sample_farm_store f -> farm_exact (store run.2) f).
Proof.
  intros run.
  apply (livestock_add_keeps_counts_exact id sample_livestock_request sample_farm_world
           run.2
           (mkResponse 201
              (Success "Livestock added successfully"
                 (mkLivestockAdded "0"
                    (mkLivestockDoc (Some "zone-1") (Some "farm-1") (Some "North") "TAG-2")))));
    reflexivity.
Defined.

(** In the sample store the counts of "zone-1" and of "farm-1" are exact,
    and still are after the goat is added: 2 animals, counts of 2. *)
Example livestock_add_sample :
  let run := post_livestock id sample_livestock_request sample_farm_world in
  zone_exact sample_farm_store "zone-1" /\ farm_exact sample_farm_store "farm-1" /\
  zone_count (store run.2) "zone-1" = Some 2%Z /\
  livestock_in_zone "zone-1" (store run.2) = 2%nat /\
  farm_count (store run.2) "farm-1" = Some 2%Z /\
  livestock_of_farm "farm-1" (store run.2) = 2%nat.
Proof. repeat split; vm_compute; reflexivity. Qed.

(** X18. A request to add livestock that passes validation is refused
    with 409 when the farm already has an animal of that tag, and otherwise
    with 404 when the zone is not known. Either refusal has written
    nothing: the store and the console are as they were. *)
Theorem livestock_add_refused_writes_nothing trim b (w : World FarmStore) :
  livestock_validation b = [] ->
  accepts 2 (faults w) = true ->
  tag_in_farm (trim (body_identification_tag b)) (body_farm_id b) (store w) <> [] \/
  boundary_zones (store w) !! body_zone_id b = None ->
  exists resp w',
    post_livestock trim b w = (Returned resp, w') /\
    store w' = store w /\ console w' = console w /\
    (tag_in_farm (trim (body_identification_tag b)) (body_farm_id b) (store w) <> [] ->
     resp = mkResponse 409 (Failure "Identification tag already exists" None)) /\
    (tag_in_farm (trim (body_identification_tag b)) (body_farm_id b) (store w) = [] ->
     resp = mkResponse 404 (Failure "Zone not found" None)).
Proof.
  intros Hvalid Hacc Hrefused.
  destruct w as [s fs c k l]; cbn [store faults console] in *.
  pose proof (accepts_tail _ _ Hacc) as Hacc1.
  apply returns_exists. unfold returns, post_livestock.
  apply outcome_try_catch. cbv zeta.
  rewrite (bool_decide_eq_true_2 _ Hvalid). cbn [negb].
  apply outcome_bind, (outcome_await_accepts 1); [done|].
  apply outcome_bind, outcome_read. cbn [store].
  destruct (tag_in_farm _ _ s) as [|row rows] eqn:Htag; cbn [take].
  - destruct Hrefused as [?|Hzone]; [done|].
    apply outcome_bind, (outcome_doc_get_accepts 0); [done|]. rewrite Hzone.
    apply outcome_ret. cbn. done.
  - apply outcome_ret. cbn. done.
Qed.

Lemma livestock_add_refused_writes_nothing_witness :
  let again := mkLivestockRequest "zone-1" "farm-1" "Cow" "TAG-1" None None None in
  let nowhere := mkLivestockRequest "zone-9" "farm-1" "Cow" "TAG-3" None None None in
  (exists w', post_livestock id again sample_farm_world
     = (Returned (mkResponse 409 (Failure "Identification tag already exists" None)), w') /\
     store w' = sample_farm_store) /\
  (exists w', post_livestock id nowhere sample_farm_world
     = (Returned (mkResponse 404 (Failure "Zone not found" None)), w') /\
     store w' = sample_farm_store).
Proof.
  intros again nowhere. split.
  - destruct (livestock_add_refused_writes_nothing id again sample_farm_world)
      as (resp & w' & Hrun & Hstore & _ & Hdup & _).
    + reflexivity.
    + reflexivity.
    + left. vm_compute. discriminate.
    + exists w'. rewrite Hrun, Hdup.
      * split; [reflexivity|exact Hstore].
      * vm_compute. discriminate.
  - destruct (livestock_add_refused_writes_nothing id nowhere sample_farm_world)
      as (resp & w' & Hrun & Hstore & _ & _ & Hzone).
    + reflexivity.
    + reflexivity.
    + right. reflexivity.
    + exists w'. rewrite Hrun, Hzone.
      * split; [reflexivity|exact Hstore].
      * reflexivity.
Defined.

(** X19. Adding livestock is not a transaction. When the zone exists and
    the farm document does not, the request is answered 500, yet the
    animal has been stored and counted in its zone. *)
Theorem livestock_add_without_farm_is_half_done trim b zoneData (w : World FarmStore) :
  livestock_validation b = [] ->
  tag_in_farm (trim (body_identification_tag b)) (body_farm_id b) (store w) = [] ->
  boundary_zones (store w) !! body_zone_id b = Some zoneData ->
  farms (store w) !! body_farm_id b = None ->
  accepts 5 (faults w) = true ->
  exists w',
    post_livestock trim b w
      = (Returned (mkResponse 500 (Failure "Failed to add livestock"
                                     (Some "No document to update"))), w') /\
    livestock (store w') !! auto_id (next_key w)
      = Some (mkLivestockDoc (Some (body_zone_id b)) (Some (body_farm_id b))
                (Some (boundary_zone_name zoneData)) (trim (body_identification_tag b))) /\
    (exists n, zone_count (store w) (body_zone_id b) = Some n /\
               zone_count (store w') (body_zone_id b) = Some (n + 1)%Z) /\
    farms (store w') = farms (store w).
Proof.
  intros Hvalid Htag Hzone Hfarm Hacc.
  destruct w as [s fs c k l]; cbn [store faults next_key] in *.
  pose proof (accepts_tail _ _ Hacc) as Hacc4.
  pose proof (accepts_tail _ _ Hacc4) as Hacc3.
  pose proof (accepts_tail _ _ Hacc3) as Hacc2.
  pose proof (accepts_tail _ _ Hacc2) as Hacc1.
  cut (returns (post_livestock trim b)
         (fun resp w' =>
            resp = mkResponse 500 (Failure "Failed to add livestock"
                                     (Some "No document to update")) /\
            livestock (store w') !! auto_id k
              = Some (mkLivestockDoc (Some (body_zone_id b)) (Some (body_farm_id b))
                        (Some (boundary_zone_name zoneData))
                        (trim (body_identification_tag b))) /\
            (exists n, zone_count s (body_zone_id b) = Some n /\
                       zone_count (store w') (body_zone_id b) = Some (n + 1)%Z) /\
            farms (store w') = farms s)
         (mkWorld s fs c k l)).
  { intros (resp & w' & Hrun & -> & H)%returns_exists. by exists w'. }
  unfold returns, post_livestock. apply outcome_try_catch. cbv zeta.
  rewrite (bool_decide_eq_true_2 _ Hvalid). cbn [negb].
  apply outcome_bind, (outcome_await_accepts 4); [done|].
  apply outcome_bind, outcome_read. cbn [store]. rewrite Htag. cbn [take].
  apply outcome_bind, (outcome_doc_get_accepts 3); [done|]. rewrite Hzone.
  apply outcome_bind, (outcome_add_doc_accepts 2); [done|].
  apply outcome_bind, (outcome_doc_update_accepts 1 _ _ _ _ zoneData); [done|done|].
  apply outcome_bind. unfold doc_update.
  apply outcome_bind, (outcome_await_accepts 0); [done|].
  apply outcome_bind, outcome_read. cbn [store farms set_boundary_zones set_livestock].
  rewrite Hfarm. apply outcome_throw.
  apply outcome_bind, outcome_console_error, outcome_ret. cbn [store].
  split; [done|].
  cbn [livestock set_boundary_zones set_livestock farms].
  split; [apply lookup_insert_eq|].
  split; [|done].
  unfold zone_count. cbn [boundary_zones set_boundary_zones set_livestock].
  rewrite lookup_alter_eq, Hzone. cbn. by eexists.
Qed.

Lemma livestock_add_without_farm_is_half_done_witness :
  let b := mkLivestockRequest "zone-1" "farm-9" "Cow" "TAG-3" None None None in
  exists w',
    post_livestock id b sample_farm_world
      = (Returned (mkResponse 500 (Failure "Failed to add livestock"
                                     (Some "No document to update"))), w') /\
    livestock (store w') !! "0"
      = Some (mkLivestockDoc (Some "zone-1") (Some "farm-9") (Some "North") "TAG-3") /\
    zone_count (store w') "zone-1" = Some 2%Z /\
    livestock_in_zone "zone-1" (store w') = 2%nat /\
    farm_count (store w') "farm-9" = None.
Proof.
  intros b.
  destruct (livestock_add_without_farm_is_half_done id b (mkZoneDoc "North" (Some 1%Z))
              sample_farm_world)
    as (w' & Hrun & Hdoc & _ & _); try reflexivity.
  exists w'. split; [exact Hrun|]. split; [exact Hdoc|].
  assert (Hw : w' = (post_livestock id b sample_farm_world).2) by (by rewrite Hrun).
  rewrite Hw. repeat split; vm_compute; reflexivity.
Defined.

(** The request is answered 201 when nothing stands in its way. *)
Lemma post_livestock_succeeds trim b zoneData farmData (w : World FarmStore) :
  livestock_validation b = [] ->
  tag_in_farm (trim (body_identification_tag b)) (body_farm_id b) (store w) = [] ->
  boundary_zones (store w) !! body_zone_id b = Some zoneData ->
  farms (store w) !! body_farm_id b = Some farmData ->
  accepts 5 (faults w) = true ->
  exists resp w',
    post_livestock trim b w = (Returned resp, w') /\
    code resp = 201%nat /\
    faults w' = tail (tail (tail (tail (tail (faults w))))).
Proof.
  intros Hvalid Htag Hzone Hfarm Hacc.
  destruct w as [s fs c k l]; cbn [store faults next_key] in *.
  pose proof (accepts_tail _ _ Hacc) as Hacc4.
  pose proof (accepts_tail _ _ Hacc4) as Hacc3.
  pose proof (accepts_tail _ _ Hacc3) as Hacc2.
  pose proof (accepts_tail _ _ Hacc2) as Hacc1.
  apply returns_exists.
  unfold returns, post_livestock. apply outcome_try_catch. cbv zeta.
  rewrite (bool_decide_eq_true_2 _ Hvalid). cbn [negb].
  apply outcome_bind, (outcome_await_accepts 4); [done|].
  apply outcome_bind, outcome_read. cbn [store]. rewrite Htag. cbn [take].
  apply outcome_bind, (outcome_doc_get_accepts 3); [done|]. rewrite Hzone.
  apply outcome_bind, (outcome_add_doc_accepts 2); [done|].
  apply outcome_bind, (outcome_doc_update_accepts 1 _ _ _ _ zoneData); [done|done|].
  apply outcome_bind, (outcome_doc_update_accepts 0 _ _ _ _ farmData); [done|done|].
  apply outcome_ret. done.
Qed.

(** What an answer 200 of [DELETE /api/livestock/:livestockId] means for
    the store. *)
Lemma delete_livestock_200 livestockId (w w' : World FarmStore) resp :
  delete_livestock livestockId w = (Returned resp, w') ->
  code resp = 200%nat ->
  exists L zone farm zoneData farmData,
    livestock (store w) !! livestockId = Some L /\
    zone_id L = Some zone /\ farm_id L = Some farm /\
    boundary_zones (store w) !! zone = Some zoneData /\
    farms (store w) !! farm = Some farmData /\
    store w' = set_farms (alter (bump_farm (-1)) farm)
                 (set_boundary_zones (alter (bump_zone (-1)) zone)
                    (set_livestock (delete livestockId) (store w))).
Proof.
  intros Hrun Hcode.
  cut (returns (delete_livestock livestockId)
         (fun resp w' => code resp = 200%nat ->
            exists L zone farm zoneData farmData,
              livestock (store w) !! livestockId = Some L /\
              zone_id L = Some zone /\ farm_id L = Some farm /\
              boundary_zones (store w) !! zone = Some zoneData /\
              farms (store w) !! farm = Some farmData /\
              store w' = set_farms (alter (bump_farm (-1)) farm)
                           (set_boundary_zones (alter (bump_zone (-1)) zone)
                              (set_livestock (delete livestockId) (store w)))) w).
  { unfold returns, outcome. rewrite Hrun. auto. }
  clear Hrun Hcode resp w'. destruct w as [s fs c k l]; cbn [store] in *.
  unfold delete_livestock. apply outcome_caught.
  apply outcome_bind, outcome_doc_get.
  destruct (livestock s !! livestockId) as [L|] eqn:HL.
  2: { apply outcome_ret. discriminate. }
  apply outcome_bind, outcome_doc_delete.
  destruct (zone_id L) as [zone|] eqn:Hzone; cbn [doc_path].
  2: { apply outcome_bind. done. }
  apply outcome_bind, outcome_ret.
  apply outcome_bind, outcome_doc_update. intros z Hz. cbn in Hz.
  destruct (farm_id L) as [farm|] eqn:Hfarm; cbn [doc_path].
  2: { apply outcome_bind. done. }
  apply outcome_bind, outcome_ret.
  apply outcome_bind, outcome_doc_update. intros f Hf. cbn in Hf.
  apply outcome_ret. intros _. by exists L, zone, farm, z, f.
Qed.

(** X20. Adding an animal and removing it again is a round trip. When the
    request is valid, its tag is new to the farm, the zone and the farm
    exist, the generated id is not in use and the provider lets the nine
    calls through, the addition is answered 201, the removal of the id it
    returned is answered 200, and afterwards the livestock documents, the
    count of every zone, the livestock count of every farm and the farmers
    are what they were. *)
Theorem livestock_add_then_delete_restores trim b zoneData farmData (w : World FarmStore) :
  livestock_validation b = [] ->
  tag_in_farm (trim (body_identification_tag b)) (body_farm_id b) (store w) = [] ->
  boundary_zones (store w) !! body_zone_id b = Some zoneData ->
  farms (store w) !! body_farm_id b = Some farmData ->
  livestock (store w) !! auto_id (next_key w) = None ->
  accepts 9 (faults w) = true ->
  exists added w1 removed w2,
    post_livestock trim b w
      = (Returned (mkResponse 201 (Success "Livestock added successfully" added)), w1) /\
    delete_livestock (added_id added) w1
      = (Returned (mkResponse 200 (Success "Livestock removed successfully" removed)), w2) /\
    removed_tag removed = trim (body_identification_tag b) /\
    livestock (store w2) = livestock (store w) /\
    (forall z, zone_count (store w2) z = zone_count (store w) z) /\
    (forall f, farm_count (store w2) f = farm_count (store w) f) /\
    farmers (store w2) = farmers (store w).
Proof.
  intros Hvalid Htag Hzone Hfarm Hfresh Hacc.
  assert (Hacc5 : accepts 5 (faults w) = true).
  { by do 4 apply accepts_weaken. }
  destruct (post_livestock_succeeds trim b zoneData farmData w Hvalid Htag Hzone Hfarm Hacc5)
    as (resp & w1 & Hrun1 & Hcode1 & Hfaults1).
  destruct (post_livestock_201 trim b w w1 resp Hrun1 Hcode1)
    as (zoneData' & farmData' & Hzone' & Hfarm' & _ & Hresp & Hstore1).
  cbv zeta in *. simplify_eq.
  set (doc := mkLivestockDoc (Some (body_zone_id b)) (Some (body_farm_id b))
                (Some (boundary_zone_name zoneData)) (trim (body_identification_tag b))) in *.
  assert (Hacc4 : accepts 4 (faults w1) = true).
  { rewrite Hfaults1. by do 5 apply accepts_tail. }
  destruct (delete_livestock_succeeds (auto_id (next_key w)) doc
              (body_zone_id b) (body_farm_id b)
              (bump_zone 1 zoneData) (bump_farm 1 farmData) w1)
    as (removed & w2 & Hrun2 & Hid & Hremoved); try done.
  { rewrite Hstore1. cbn. apply lookup_insert_eq. }
  { rewrite Hstore1. cbn. by rewrite lookup_alter_eq, Hzone. }
  { rewrite Hstore1. cbn. by rewrite lookup_alter_eq, Hfarm. }
  destruct (delete_livestock_200 _ _ _ _ Hrun2 eq_refl)
    as (L & zone & farm & z2 & f2 & HL & HLz & HLf & _ & _ & Hstore2).
  rewrite Hstore1 in HL. cbn in HL. rewrite lookup_insert_eq in HL.
  injection HL as <-. cbn in HLz, HLf. simplify_eq.
  eexists _, w1, removed, w2.
  split; [exact Hrun1|]. split; [exact Hrun2|]. split; [exact Hremoved|].
  rewrite Hstore2, Hstore1.
  split.
  { cbn. rewrite delete_insert_eq. by apply delete_id. }
  split.
  { intros z. unfold zone_count.
    cbn [boundary_zones set_farms set_boundary_zones set_livestock].
    destruct (decide (z = body_zone_id b)) as [->|Hne].
    - rewrite !lookup_alter_eq, Hzone. cbn. f_equal. lia.
    - by rewrite !lookup_alter_ne. }
  split.
  { intros f. unfold farm_count.
    cbn [farms set_farms set_boundary_zones set_livestock].
    destruct (decide (f = body_farm_id b)) as [->|Hne].
    - rewrite !lookup_alter_eq, Hfarm. cbn. f_equal. lia.
    - by rewrite !lookup_alter_ne. }
  done.
Qed.

Lemma livestock_add_then_delete_restores_witness :
  exists added w1 removed w2,
    post_livestock id sample_livestock_request sample_farm_world
      = (Returned (mkResponse 201 (Success "Livestock added successfully" added)), w1) /\
    delete_livestock (added_id added) w1
      = (Returned (mkResponse 200 (Success "Livestock removed successfully" removed)), w2) /\
    removed_tag removed = "TAG-2" /\
    livestock (store w2) = livestock sample_farm_store /\
    (forall z, zone_count (store w2) z = zone_count sample_farm_store z) /\
    (forall f, farm_count (store w2) f = farm_count sample_farm_store f) /\
    farmers (store w2) = farmers sample_farm_store.
Proof.
  apply (livestock_add_then_delete_restores id sample_livestock_request
           (mkZoneDoc "North" (Some 1%Z))
           (mkFarmDoc "farmer-1" "Hill farm" (Some 1%Z) (Some 1%Z) (Some 0%Z) (Some 0%Z))
           sample_farm_world);
    reflexivity.
Defined.

(** X21. Removing livestock keeps the cached counts exact: an answer 200
    leaves every zone whose count was the number of its livestock
    documents with a count that still is, and likewise every farm. *)
Theorem livestock_delete_keeps_counts_exact livestockId (w w' : World FarmStore) resp :
  delete_livestock livestockId w = (Returned resp, w') ->
  code resp = 200%nat ->
  (forall z, zone_exact (store w) z -> zone_exact (store w') z) /\
  (forall f, farm_exact (store w) f -> farm_exact (store w') f).
Proof.
  intros Hrun Hcode.
  destruct (delete_livestock_200 livestockId w w' resp Hrun Hcode)
    as (L & zone & farm & zoneData & farmData & HL & Hzone & Hfarm & Hz & Hf & Hstore).
  rewrite Hstore. clear Hstore Hrun.
  split.
  - intros z Hexact. unfold zone_exact in *.
    change (zone_count (set_farms ?f ?s) z) with (zone_count s z).
    rewrite zone_count_bump.
    change (zone_count (set_livestock ?f ?s) z) with (zone_count s z).
    rewrite Hexact. cbn. f_equal.
    unfold livestock_in_zone. cbn [livestock set_farms set_boundary_zones set_livestock].
    rewrite (count_delete (fun row => zone_id row.2 = Some z) _ _ _ HL). cbn [snd].
    rewrite Hzone.
    destruct (decide (z = zone)) as [->|Hne].
    + rewrite decide_True by done. lia.
    + rewrite decide_False by congruence. lia.
  - intros f Hexact. unfold farm_exact in *.
    rewrite farm_count_bump.
    change (farm_count (set_boundary_zones ?g (set_livestock ?h ?s)) f)
      with (farm_count s f).
    rewrite Hexact. cbn. f_equal.
    unfold livestock_of_farm. cbn [livestock set_farms set_boundary_zones set_livestock].
    rewrite (count_delete (fun row => farm_id row.2 = Some f) _ _ _ HL). cbn [snd].
    rewrite Hfarm.
    destruct (decide (f = farm)) as [->|Hne].
    + rewrite decide_True by done. lia.
    + rewrite decide_False by congruence. lia.
Qed.

Lemma livestock_delete_keeps_counts_exact_witness :
  let run := delete_livestock "cow-1" sample_farm_world in
  (forall z, zone_exact sample_farm_store z -> zone_exact (store run.2) z) /\
  (forall f, farm_exact sample_farm_store f -> farm_exact (store run.2) f).
Proof.
  intros run.
  apply (livestock_delete_keeps_counts_exact "cow-1" sample_farm_world run.2
           (mkResponse 200 (Success "Livestock removed successfully"
                              (mkLivestockRemoved "cow-1" "TAG-1"))));
    reflexivity.
Defined.

(** What an answer 200 of [PUT /api/livestock/:livestockId] means for the
    store when the body names a zone. *)
Lemma put_livestock_moved livestockId p new (w w' : World FarmStore) resp :
  patch_zone_id p = Some new ->
  new <> "" ->
  put_livestock livestockId p w = (Returned resp, w') ->
  code resp = 200%nat ->
  exists L old oldZone newZone,
    livestock (store w) !! livestockId = Some L /\
    zone_id L = Some old /\
    boundary_zones (store w) !! old = Some oldZone /\
    boundary_zones (store w) !! new = Some newZone /\
    let updateData := assign_zone_name (boundary_zone_name newZone) (assign_updated_at p) in
    resp = mkResponse 200 (Success "Livestock updated successfully"
                             (mkUpdated livestockId (patch_keys updateData))) /\
    store w' = set_livestock (alter (apply_patch updateData) livestockId)
                 (set_boundary_zones (alter (bump_zone 1) new)
                    (set_boundary_zones (alter (bump_zone (-1)) old) (store w))).
Proof.
  intros Hnew Hne Hrun Hcode.
  cut (returns (put_livestock livestockId p)
         (fun resp w' => code resp = 200%nat ->
            exists L old oldZone newZone,
              livestock (store w) !! livestockId = Some L /\
              zone_id L = Some old /\
              boundary_zones (store w) !! old = Some oldZone /\
              boundary_zones (store w) !! new = Some newZone /\
              let updateData :=
                assign_zone_name (boundary_zone_name newZone) (assign_updated_at p) in
              resp = mkResponse 200 (Success "Livestock updated successfully"
                                       (mkUpdated livestockId (patch_keys updateData))) /\
              store w' = set_livestock (alter (apply_patch updateData) livestockId)
                           (set_boundary_zones (alter (bump_zone 1) new)
                              (set_boundary_zones (alter (bump_zone (-1)) old) (store w)))) w).
  { unfold returns, outcome. rewrite Hrun. auto. }
  clear Hrun Hcode resp w'. destruct w as [s fs c k l]; cbn [store] in *.
  unfold put_livestock. apply outcome_caught.
  apply outcome_bind. unfold move_zone. cbn [assign_updated_at patch_zone_id].
  rewrite Hnew, (bool_decide_eq_false_2 _ Hne).
  apply outcome_bind, outcome_doc_get.
  destruct (livestock s !! livestockId) as [L|] eqn:HL.
  2: { apply outcome_ret, outcome_bind, outcome_doc_update.
       intros d Hd. cbn in Hd. congruence. }
  destruct (zone_id L) as [old|] eqn:Hold; cbn [doc_path].
  2: { apply outcome_bind. done. }
  apply outcome_bind, outcome_ret.
  apply outcome_bind, outcome_doc_update. intros oz Hoz. cbn in Hoz.
  apply outcome_bind, outcome_doc_update. intros nz Hnz. cbn in Hnz.
  apply outcome_bind, outcome_doc_get.
  cbn [boundary_zones set_boundary_zones]. rewrite lookup_alter_eq, Hnz.
  cbn [fmap option_fmap option_map].
  apply outcome_ret, outcome_bind, outcome_doc_update. intros d Hd.
  apply outcome_ret. intros _.
  assert (exists newZone, boundary_zones s !! new = Some newZone /\
                          boundary_zone_name nz = boundary_zone_name newZone)
    as (newZone & HnewZone & Hname).
  { destruct (decide (new = old)) as [->|Hdiff].
    - rewrite lookup_alter_eq, Hoz in Hnz. injection Hnz as <-. by exists oz.
    - rewrite lookup_alter_ne in Hnz by done. by exists nz. }
  exists L, old, oz, newZone. cbn [bump_zone boundary_zone_name]. rewrite Hname.
  done.
Qed.

(** X22. An update of livestock whose body names a zone, answered 200, has
    moved the animal: its document carries the new zone and the name of
    that zone, the count of the zone it was in has gone down by 1 and the
    count of the new zone up by 1 (so a move to the zone it is in changes
    no count), no other zone has changed, and no farm or farmer has. *)
Theorem livestock_move_shifts_one_between_zones
    livestockId p new (w w' : World FarmStore) resp :
  patch_zone_id p = Some new ->
  new <> "" ->
  put_livestock livestockId p w = (Returned resp, w') ->
  code resp = 200%nat ->
  exists L old newZone,
    livestock (store w) !! livestockId = Some L /\
    zone_id L = Some old /\
    boundary_zones (store w) !! new = Some newZone /\
    (exists L', livestock (store w') = <[livestockId := L']> (livestock (store w)) /\
                zone_id L' = Some new /\
                zone_name L' = Some (boundary_zone_name newZone)) /\
    (forall z,
       zone_count (store w') z
         = (fun n => n + (if decide (z = new) then 1 else 0)
                       - (if decide (z = old) then 1 else 0))%Z <$> zone_count (store w) z) /\
    updated_fields <$> (match body resp with Success _ d => Some d | _ => None end)
      = Some (assign_key "zone_name" (assign_key "updated_at" (patch_keys p))) /\
    farms (store w') = farms (store w) /\
    farmers (store w') = farmers (store w).
Proof.
  intros Hnew Hne Hrun Hcode.
  destruct (put_livestock_moved livestockId p new w w' resp Hnew Hne Hrun Hcode)
    as (L & old & oldZone & newZone & HL & Hold & Hoz & Hnz & Hresp & Hstore).
  cbv zeta in *. exists L, old, newZone.
  split; [exact HL|]. split; [exact Hold|]. split; [exact Hnz|].
  rewrite Hstore, Hresp. clear Hstore Hresp Hrun.
  split.
  { eexists. split.
    - cbn [livestock set_livestock set_boundary_zones].
      apply map_eq. intros j. destruct (decide (livestockId = j)) as [<-|Hj].
      + rewrite lookup_alter_eq, lookup_insert_eq, HL. reflexivity.
      + by rewrite lookup_alter_ne, lookup_insert_ne.
    - cbn. by rewrite Hnew. }
  split.
  { intros z.
    change (zone_count (set_livestock ?f ?s) z) with (zone_count s z).
    rewrite !zone_count_bump. destruct (zone_count (store w) z) as [n|]; [|done]. cbn.
    f_equal. destruct (decide (z = new)), (decide (z = old)); lia. }
  done.
Qed.

Lemma livestock_move_shifts_one_between_zones_witness :
  let p := mkLivestockPatch ["zone_id"] (Some "zone-2") None None None in
  let run := put_livestock "cow-1" p two_zone_world in
  exists L',
    livestock (store run.2) !! "cow-1" = Some L' /\
    zone_id L' = Some "zone-2" /\ zone_name L' = Some "South" /\
    zone_count (store run.2) "zone-1" = Some 0%Z /\
    zone_count (store run.2) "zone-2" = Some 1%Z /\
    farms (store run.2) = farms two_zone_store.
Proof.
  intros p run.
  destruct (livestock_move_shifts_one_between_zones "cow-1" p "zone-2" two_zone_world run.2
              (mkResponse 200 (Success "Livestock updated successfully"
                                 (mkUpdated "cow-1" ["zone_id"; "updated_at"; "zone_name"]))))
    as (L & old & newZone & HL & Hold & Hnz & (L' & Hlive & Hzone & Hname) & Hcount & _ & Hfarms & _);
    [reflexivity|discriminate|reflexivity|reflexivity|].
  injection Hnz as <-. injection HL as <-. injection Hold as <-.
  exists L'. rewrite Hlive, !Hcount.
  split; [apply lookup_insert_eq|]. by repeat split.
Defined.

(** X23. A move keeps the counts of the zones exact: after an update that
    names a zone and is answered 200, every zone whose count was the
    number of its livestock documents has a count that still is. *)
Theorem livestock_move_keeps_zone_counts_exact
    livestockId p new (w w' : World FarmStore) resp :
  patch_zone_id p = Some new ->
  new <> "" ->
  put_livestock livestockId p w = (Returned resp, w') ->
  code resp = 200%nat ->
  forall z, zone_exact (store w) z -> zone_exact (store w') z.
Proof.
  intros Hnew Hne Hrun Hcode z Hexact.
  destruct (put_livestock_moved livestockId p new w w' resp Hnew Hne Hrun Hcode)
    as (L & old & oldZone & newZone & HL & Hold & Hoz & Hnz & Hresp & Hstore).
  cbv zeta in *. rewrite Hstore. clear Hstore Hresp Hrun.
  unfold zone_exact in *.
  change (zone_count (set_livestock ?f ?s) z) with (zone_count s z).
  rewrite !zone_count_bump, Hexact. cbn. f_equal.
  unfold livestock_in_zone. cbn [livestock set_livestock set_boundary_zones].
  pose proof (count_alter (fun row => zone_id row.2 = Some z) (livestock (store w))
                (apply_patch (assign_zone_name (boundary_zone_name newZone)
                                (assign_updated_at p)))
                livestockId L HL) as Hcount.
  cbn [snd apply_patch assign_zone_name assign_updated_at patch_zone_id zone_id patched]
    in Hcount.
  rewrite Hnew, Hold in Hcount. cbn [patched] in Hcount.
  repeat case_decide; simplify_eq; lia.
Qed.

Lemma livestock_move_keeps_zone_counts_exact_witness :
  let p := mkLivestockPatch ["zone_id"] (Some "zone-2") None None None in
  let run := put_livestock "cow-1" p two_zone_world in
  zone_exact (store run.2) "zone-1" /\ zone_exact (store run.2) "zone-2".
Proof.
  intros p run.
  split;
    apply (livestock_move_keeps_zone_counts_exact "cow-1" p "zone-2" two_zone_world run.2
             (mkResponse 200 (Success "Livestock updated successfully"
                                (mkUpdated "cow-1" ["zone_id"; "updated_at"; "zone_name"]))));
    [reflexivity|discriminate|reflexivity|reflexivity|reflexivity
    |reflexivity|discriminate|reflexivity|reflexivity|reflexivity].
Defined.

(** X24. A move is not a transaction, and the old zone is charged first.
    When the body names a zone that does not exist and the provider lets
    the calls through, the update is answered 500, the animal's document
    is unchanged, and the count of the zone it is still in has gone down
    by 1: a count that was exact is now one short. *)
Theorem livestock_move_to_unknown_zone_loses_one
    livestockId p new L old oldZone (w : World FarmStore) :
  patch_zone_id p = Some new ->
  new <> "" ->
  livestock (store w) !! livestockId = Some L ->
  zone_id L = Some old ->
  boundary_zones (store w) !! old = Some oldZone ->
  boundary_zones (store w) !! new = None ->
  accepts 3 (faults w) = true ->
  exists w',
    put_livestock livestockId p w
      = (Returned (mkResponse 500 (Failure "Failed to update livestock"
                                     (Some "No document to update"))), w') /\
    livestock (store w') = livestock (store w) /\
    (exists n, zone_count (store w) old = Some n /\
               zone_count (store w') old = Some (n - 1)%Z) /\
    (zone_exact (store w) old -> ~ zone_exact (store w') old).
Proof.
  intros Hnew Hne HL Hold Hoz Hnz Hacc.
  destruct w as [s fs c k l]; cbn [store faults] in *.
  pose proof (accepts_tail _ _ Hacc) as Hacc2.
  pose proof (accepts_tail _ _ Hacc2) as Hacc1.
  assert (Hdiff : new <> old) by congruence.
  cut (returns (put_livestock livestockId p)
         (fun resp w' =>
            resp = mkResponse 500 (Failure "Failed to update livestock"
                                     (Some "No document to update")) /\
            store w' = set_boundary_zones (alter (bump_zone (-1)) old) s)
         (mkWorld s fs c k l)).
  { intros (resp & w' & Hrun & -> & Hstore)%returns_exists. exists w'.
    split; [exact Hrun|]. rewrite Hstore. split; [done|].
    assert (Hcount : zone_count (set_boundary_zones (alter (bump_zone (-1)) old) s) old
                     = (fun n => n - 1)%Z <$> zone_count s old).
    { rewrite zone_count_bump. destruct (zone_count s old); [|done]. cbn.
      by rewrite decide_True. }
    split.
    - unfold zone_count at 1. rewrite Hoz. cbn. eexists. split; [done|].
      rewrite Hcount. unfold zone_count. rewrite Hoz. done.
    - unfold zone_exact. rewrite Hcount. intros ->. cbn.
      change (livestock_in_zone old (set_boundary_zones ?f s))
        with (livestock_in_zone old s).
      intros [=]. lia. }
  unfold returns, put_livestock. apply outcome_try_catch.
  apply outcome_bind. unfold move_zone. cbn [assign_updated_at patch_zone_id].
  rewrite Hnew, (bool_decide_eq_false_2 _ Hne).
  apply outcome_bind, (outcome_doc_get_accepts 2); [done|]. rewrite HL, Hold.
  cbn [doc_path]. apply outcome_bind, outcome_ret.
  apply outcome_bind, (outcome_doc_update_accepts 1 _ _ _ _ oldZone); [done|done|].
  apply outcome_bind. unfold doc_update.
  apply outcome_bind, (outcome_await_accepts 0); [done|].
  apply outcome_bind, outcome_read. cbn [store boundary_zones set_boundary_zones].
  rewrite lookup_alter_ne, Hnz by done. apply outcome_throw.
  apply outcome_bind, outcome_console_error, outcome_ret. done.
Qed.

Lemma livestock_move_to_unknown_zone_loses_one_witness :
  let p := mkLivestockPatch ["zone_id"] (Some "zone-9") None None None in
  exists w',
    put_livestock "cow-1" p sample_farm_world
      = (Returned (mkResponse 500 (Failure "Failed to update livestock"
                                     (Some "No document to update"))), w') /\
    livestock (store w') = livestock sample_farm_store /\
    zone_count (store w') "zone-1" = Some 0%Z /\
    livestock_in_zone "zone-1" (store w') = 1%nat.
Proof.
  intros p.
  destruct (livestock_move_to_unknown_zone_loses_one "cow-1" p "zone-9"
              (mkLivestockDoc (Some "zone-1") (Some "farm-1") (Some "North") "TAG-1")
              "zone-1" (mkZoneDoc "North" (Some 1%Z)) sample_farm_world)
    as (w' & Hrun & Hlive & (n & Hn & Hn') & _);
    [reflexivity|discriminate|reflexivity|reflexivity|reflexivity|reflexivity|reflexivity|].
  exists w'. split; [exact Hrun|]. split; [exact Hlive|].
  injection Hn as <-. split; [exact Hn'|].
  unfold livestock_in_zone. rewrite Hlive. reflexivity.
Defined.

(** X25. Nothing in the update looks at [farm_id]. A body that names
    another farm and no zone is answered 200 when the document exists and
    the call goes through: the animal now belongs to the other farm, and
    no farm document has changed, so the livestock count of a farm that
    was exact, on either side of the transfer, no longer is. *)
Theorem livestock_farm_change_leaves_counts
    livestockId p L farm farm' (w : World FarmStore) :
  patch_zone_id p = None \/ patch_zone_id p = Some "" ->
  patch_farm_id p = Some farm' ->
  livestock (store w) !! livestockId = Some L ->
  farm_id L = Some farm ->
  farm <> farm' ->
  accepts 1 (faults w) = true ->
  exists w',
    put_livestock livestockId p w
      = (Returned (mkResponse 200
                     (Success "Livestock updated successfully"
                        (mkUpdated livestockId (assign_key "updated_at" (patch_keys p))))), w') /\
    (exists L', livestock (store w') !! livestockId = Some L' /\ farm_id L' = Some farm') /\
    farms (store w') = farms (store w) /\
    boundary_zones (store w') = boundary_zones (store w) /\
    livestock_of_farm farm (store w) = S (livestock_of_farm farm (store w')) /\
    livestock_of_farm farm' (store w') = S (livestock_of_farm farm' (store w)) /\
    (forall f, f = farm \/ f = farm' -> farm_exact (store w) f -> ~ farm_exact (store w') f).
Proof.
  intros Hzone Hfarm' HL Hfarm Hdiff Hacc.
  destruct w as [s fs c k l]; cbn [store faults] in *.
  cut (returns (put_livestock livestockId p)
         (fun resp w' =>
            resp = mkResponse 200
                     (Success "Livestock updated successfully"
                        (mkUpdated livestockId (assign_key "updated_at" (patch_keys p)))) /\
            store w' = set_livestock (alter (apply_patch (assign_updated_at p)) livestockId) s)
         (mkWorld s fs c k l)).
  { intros (resp & w' & Hrun & -> & Hstore)%returns_exists. exists w'.
    split; [exact Hrun|]. rewrite Hstore.
    cbn [livestock farms boundary_zones set_livestock].
    pose proof (count_alter (fun row => farm_id row.2 = Some farm) (livestock s)
                  (apply_patch (assign_updated_at p)) livestockId L HL) as Hout.
    pose proof (count_alter (fun row => farm_id row.2 = Some farm') (livestock s)
                  (apply_patch (assign_updated_at p)) livestockId L HL) as Hin.
    cbn [snd apply_patch assign_updated_at patch_farm_id farm_id patched] in Hout, Hin.
    rewrite Hfarm', Hfarm in Hout, Hin. cbn [patched] in Hout, Hin.
    rewrite decide_True, decide_False in Hout by congruence.
    rewrite decide_False, decide_True in Hin by congruence.
    assert (Hless : livestock_of_farm farm s
                    = S (livestock_of_farm farm
                           (set_livestock (alter (apply_patch (assign_updated_at p))
                                             livestockId) s))).
    { unfold livestock_of_farm. cbn [livestock set_livestock]. lia. }
    assert (Hmore : livestock_of_farm farm'
                      (set_livestock (alter (apply_patch (assign_updated_at p))
                                        livestockId) s)
                    = S (livestock_of_farm farm' s)).
    { unfold livestock_of_farm. cbn [livestock set_livestock]. lia. }
    split.
    { eexists. rewrite lookup_alter_eq, HL. split; [reflexivity|].
      cbn. by rewrite Hfarm'. }
    split; [done|]. split; [done|]. split; [exact Hless|]. split; [exact Hmore|].
    intros f Hf. unfold farm_exact.
    change (farm_count (set_livestock ?g s) f) with (farm_count s f).
    intros -> [=Heq]. destruct Hf as [->| ->]; lia. }
  unfold returns, put_livestock. apply outcome_try_catch.
  apply outcome_bind.
  assert (Hstay : move_zone livestockId (assign_updated_at p)
                  = ret (assign_updated_at p)).
  { unfold move_zone. cbn [assign_updated_at patch_zone_id].
    destruct Hzone as [-> | ->]; [done|]. by rewrite bool_decide_eq_true_2. }
  rewrite Hstay. apply outcome_ret.
  apply outcome_bind, (outcome_doc_update_accepts 0 _ _ _ _ L); [done|done|].
  apply outcome_ret. done.
Qed.

Lemma livestock_farm_change_leaves_counts_witness :
  let p := mkLivestockPatch ["farm_id"] None (Some "farm-2") None None in
  exists w',
    put_livestock "cow-1" p sample_farm_world
      = (Returned (mkResponse 200
                     (Success "Livestock updated successfully"
                        (mkUpdated "cow-1" ["farm_id"; "updated_at"]))), w') /\
    farm_count (store w') "farm-1" = Some 1%Z /\
    livestock_of_farm "farm-1" (store w') = 0%nat /\
    ~ farm_exact (store w') "farm-1".
Proof.
  intros p.
  destruct (livestock_farm_change_leaves_counts "cow-1" p
              (mkLivestockDoc (Some "zone-1") (Some "farm-1") (Some "North") "TAG-1")
              "farm-1" "farm-2" sample_farm_world)
    as (w' & Hrun & _ & Hfarms & _ & Hless & _ & Hbroken);
    [by left|reflexivity|reflexivity|reflexivity|discriminate|reflexivity|].
  exists w'. split; [exact Hrun|].
  split; [unfold farm_count; rewrite Hfarms; reflexivity|].
  split.
  - change (livestock_of_farm "farm-1" (store sample_farm_world)) with 1%nat in Hless.
    by injection Hless as <-.
  - apply Hbroken; [by left|]. reflexivity.
Defined.


(** ** Farms behind an ownership check *)

(** X26. The newer farm deletion keeps the farmers' counts exact. An
    answer 200 means that the farm existed and was the caller's; it is
    gone, and every farmer whose [farms_count] was the number of their
    farm documents has a count that still is. *)
Theorem owned_farm_delete_keeps_count_exact
    user farmId (w w' : World FarmStoreV2) resp :
  delete_farm_v2 user farmId w = (Returned resp, w') ->
  code resp = 200%nat ->
  (exists d, Farms (store w) !! farmId = Some d /\ farmer_id d = user) /\
  Farms (store w') = delete farmId (Farms (store w)) /\
  (forall f, farmer_exact (store w) f -> farmer_exact (store w') f).
Proof.
  intros Hrun Hcode.
  cut (returns (delete_farm_v2 user farmId)
         (fun resp w' => code resp = 200%nat ->
            exists d, Farms (store w) !! farmId = Some d /\ farmer_id d = user /\
              Farms (store w') = delete farmId (Farms (store w)) /\
              Farmers (store w')
                = match Farmers (store w) !! user with
                  | Some _ => alter (bump_farmer (-1)) user (Farmers (store w))
                  | None => Farmers (store w)
                  end) w).
  { unfold returns, outcome. rewrite Hrun. intros Hw'.
    destruct (Hw' Hcode) as (d & Hd & Hown & HFarms & HFarmers).
    split; [by exists d|]. split; [exact HFarms|].
    intros f. unfold farmer_exact, Farmer_count, Farms_of.
    rewrite HFarms, HFarmers.
    rewrite (count_delete (fun row => farmer_id row.2 = f) _ _ _ Hd). cbn [snd].
    rewrite Hown. clear Hrun Hw' HFarms HFarmers.
    destruct (decide (f = user)) as [->|Hne].
    - rewrite decide_True by done.
      destruct (Farmers (store w) !! user) as [fd|] eqn:Hfd; [|done].
      rewrite lookup_alter_eq, Hfd. cbn. intros [= Heq]. f_equal. lia.
    - rewrite decide_False by congruence.
      destruct (Farmers (store w) !! user); [|done].
      by rewrite lookup_alter_ne. }
  clear Hrun Hcode resp w'. destruct w as [s fs c k l]; cbn [store] in *.
  unfold delete_farm_v2. apply outcome_caught.
  apply outcome_bind, outcome_doc_get.
  destruct (Farms s !! farmId) as [d|] eqn:Hd.
  2: { apply outcome_ret. discriminate. }
  case_bool_decide as Hown; cbn [negb].
  2: { apply outcome_ret. discriminate. }
  apply outcome_bind, outcome_doc_delete.
  apply outcome_bind, outcome_doc_get.
  cbn [Farmers set_Farms].
  destruct (Farmers s !! user) as [fd|] eqn:Hfd.
  - apply outcome_bind, outcome_doc_update. intros _ _. apply outcome_ret. intros _.
    by exists d.
  - apply outcome_bind, outcome_ret, outcome_ret. intros _. by exists d.
Qed.

Lemma owned_farm_delete_keeps_count_exact_witness :
  let run := delete_farm_v2 "farmer-1" "farm-1" sample_farm_world_v2 in
  Farms (store run.2) = delete "farm-1" (Farms sample_farm_store_v2) /\
  (forall f, farmer_exact sample_farm_store_v2 f -> farmer_exact (store run.2) f).
Proof.
  intros run.
  apply (owned_farm_delete_keeps_count_exact "farmer-1" "farm-1" sample_farm_world_v2
           run.2 (mkResponse 200 (Success "Farm deleted successfully" tt)));
    reflexivity.
Defined.

(** X27. The newer farm deletion refuses what the older one let through.
    When the first lookup goes through, a farm id that does not exist is
    answered 404 and a farm of another farmer 403, and either way the
    store and the console are as they were: no farm is deleted and no
    count is touched. *)
Theorem farm_delete_refuses_strangers user farmId (w : World FarmStoreV2) :
  accepts 1 (faults w) = true ->
  (forall d, Farms (store w) !! farmId = Some d -> farmer_id d <> user) ->
  exists resp w',
    delete_farm_v2 user farmId w = (Returned resp, w') /\
    store w' = store w /\ console w' = console w /\
    (Farms (store w) !! farmId = None ->
     resp = mkResponse 404 (Failure "Farm not found" None)) /\
    (is_Some (Farms (store w) !! farmId) ->
     resp = mkResponse 403 (Failure "Access denied" None)).
Proof.
  intros Hacc Hnot. destruct w as [s fs c k l]; cbn [store faults console] in *.
  apply returns_exists. unfold returns, delete_farm_v2.
  apply outcome_try_catch.
  apply outcome_bind, (outcome_doc_get_accepts 0); [done|].
  destruct (Farms s !! farmId) as [d|] eqn:Hd.
  - rewrite bool_decide_eq_false_2 by by apply Hnot. cbn [negb].
    apply outcome_ret. cbn. split; [done|]. split; [done|].
    split; [discriminate|done].
  - apply outcome_ret. cbn. split; [done|]. split; [done|].
    split; [done|]. by intros [? [=]].
Qed.

Lemma farm_delete_refuses_strangers_witness :
  (exists w', delete_farm_v2 "farmer-2" "farm-1" sample_farm_world_v2
     = (Returned (mkResponse 403 (Failure "Access denied" None)), w') /\
     store w' = sample_farm_store_v2) /\
  (exists w', delete_farm_v2 "farmer-1" "no-such-farm" sample_farm_world_v2
     = (Returned (mkResponse 404 (Failure "Farm not found" None)), w') /\
     store w' = sample_farm_store_v2).
Proof.
  split.
  - destruct (farm_delete_refuses_strangers "farmer-2" "farm-1" sample_farm_world_v2)
      as (resp & w' & Hrun & Hstore & _ & _ & H403).
    + reflexivity.
    + intros d Hd. vm_compute in Hd. injection Hd as <-. discriminate.
    + exists w'. rewrite Hrun, H403.
      * split; [reflexivity|exact Hstore].
      * eexists. reflexivity.
  - destruct (farm_delete_refuses_strangers "farmer-1" "no-such-farm" sample_farm_world_v2)
      as (resp & w' & Hrun & Hstore & _ & H404 & _).
    + reflexivity.
    + intros d Hd. vm_compute in Hd. discriminate.
    + exists w'. rewrite Hrun, H404.
      * split; [reflexivity|exact Hstore].
      * reflexivity.
Defined.

(** X28. The ownership check of the newer farm update guards who may
    write, not what. A body of the owner that names another farmer is
    answered 200 and hands the farm over; no farmer document changes, so
    the count of the old owner, if it was exact, is now one too high and
    that of the new owner one too low. *)
Theorem farm_hand_over_leaves_counts user other farmId d b (w : World FarmStoreV2) :
  Farms (store w) !! farmId = Some d ->
  farmer_id d = user ->
  patch_farmer_id b = Some other ->
  other <> user ->
  accepts 2 (faults w) = true ->
  exists w',
    put_farm_v2 user farmId b w
      = (Returned (mkResponse 200
                     (Success "Farm updated successfully"
                        (mkUpdated farmId (assign_key "updated_at" (farm_patch_keys b))))), w') /\
    farmer_id <$> Farms (store w') !! farmId = Some other /\
    Farmers (store w') = Farmers (store w) /\
    Farms_of user (store w) = S (Farms_of user (store w')) /\
    Farms_of other (store w') = S (Farms_of other (store w)) /\
    (forall f, f = user \/ f = other -> farmer_exact (store w) f -> ~ farmer_exact (store w') f).
Proof.
  intros Hd Hown Hother Hdiff Hacc.
  destruct w as [s fs c k l]; cbn [store faults] in *.
  pose proof (accepts_tail _ _ Hacc) as Hacc1.
  cut (returns (put_farm_v2 user farmId b)
         (fun resp w' =>
            resp = mkResponse 200
                     (Success "Farm updated successfully"
                        (mkUpdated farmId (assign_key "updated_at" (farm_patch_keys b)))) /\
            store w' = set_Farms (alter (apply_farm_patch b) farmId) s)
         (mkWorld s fs c k l)).
  { intros (resp & w' & Hrun & -> & Hstore)%returns_exists. exists w'.
    split; [exact Hrun|]. rewrite Hstore. cbn [Farms Farmers set_Farms].
    pose proof (count_alter (fun row => farmer_id row.2 = user) (Farms s)
                  (apply_farm_patch b) farmId d Hd) as Hout.
    pose proof (count_alter (fun row => farmer_id row.2 = other) (Farms s)
                  (apply_farm_patch b) farmId d Hd) as Hin.
    cbn [snd apply_farm_patch farmer_id] in Hout, Hin.
    rewrite Hother in Hout, Hin. unfold default, from_option, id in Hout, Hin.
    assert (Hless : Farms_of user s
                    = S (Farms_of user (set_Farms (alter (apply_farm_patch b) farmId) s))).
    { unfold Farms_of. cbn [Farms set_Farms].
      clear Hin. repeat case_decide; try congruence; lia. }
    assert (Hmore : Farms_of other (set_Farms (alter (apply_farm_patch b) farmId) s)
                    = S (Farms_of other s)).
    { unfold Farms_of. cbn [Farms set_Farms].
      clear Hout Hless. repeat case_decide; try congruence; lia. }
    split.
    { rewrite lookup_alter_eq, Hd. cbn. by rewrite Hother. }
    split; [done|]. split; [exact Hless|]. split; [exact Hmore|].
    intros f Hf. unfold farmer_exact.
    change (Farmer_count (set_Farms ?g s) f) with (Farmer_count s f).
    intros -> [=Heq]. destruct Hf as [->| ->]; lia. }
  unfold returns, put_farm_v2. apply outcome_try_catch.
  apply outcome_bind, (outcome_doc_get_accepts 1); [done|]. rewrite Hd.
  rewrite (bool_decide_eq_true_2 _ Hown). cbn [negb]. cbv zeta.
  apply outcome_bind, (outcome_doc_update_accepts 0 _ _ _ _ d); [done|done|].
  apply outcome_ret. done.
Qed.

Lemma farm_hand_over_leaves_counts_witness :
  let b := mkFarmPatch ["farmer_id"] (Some "farmer-2") None None None None None in
  exists w',
    put_farm_v2 "farmer-1" "farm-1" b sample_farm_world_v2
      = (Returned (mkResponse 200
                     (Success "Farm updated successfully"
                        (mkUpdated "farm-1" ["farmer_id"; "updated_at"]))), w') /\
    farmer_id <$> Farms (store w') !! "farm-1" = Some "farmer-2" /\
    Farmer_count (store w') "farmer-1" = Some 1%Z /\
    Farms_of "farmer-1" (store w') = 0%nat /\
    ~ farmer_exact (store w') "farmer-2".
Proof.
  intros b.
  destruct (farm_hand_over_leaves_counts "farmer-1" "farmer-2" "farm-1"
              (mkFarmDoc "farmer-1" "Hill farm" (Some 1%Z) (Some 1%Z) (Some 0%Z) (Some 0%Z))
              b sample_farm_world_v2)
    as (w' & Hrun & Hower & HFarmers & Hless & _ & Hbroken);
    [reflexivity|reflexivity|reflexivity|discriminate|reflexivity|].
  exists w'. split; [exact Hrun|]. split; [exact Hower|].
  split; [unfold Farmer_count; rewrite HFarmers; reflexivity|].
  split.
  - change (Farms_of "farmer-1" (store sample_farm_world_v2)) with 1%nat in Hless.
    by injection Hless as <-.
  - apply Hbroken; [by right|]. reflexivity.
Defined.


(** ** Sensors registered *)

(** A valid registration that the provider lets through. *)
Lemma post_register_runs b (w : World SensorStore) :
  register_validation b = [] ->
  accepts 2 (faults w) = true ->
  exists doc w1,
    post_register b w
      = (Returned (mkResponse 201 (Success "Sensor registered successfully"
                                     (mkRegistered (auto_id (next_key w)) doc))), w1) /\
    boundary_threshold doc = Some (num 50) /\
    sensor_farmer_id doc = None /\
    sensor_units (store w1) !! auto_id (next_key w) = Some doc /\
    sensor_status (store w1) !! auto_id (next_key w)
      = Some (mkLiveStatus (Some (num 0)) (Some (clock w)) (Some "inactive") (Some false) None) /\
    faults w1 = tail (tail (faults w)) /\ clock w1 = clock w.
Proof.
  intros Hvalid Hacc.
  destruct w as [s fs c k l]; cbn [store faults next_key clock] in *.
  pose proof (accepts_tail _ _ Hacc) as Hacc1.
  cut (returns (post_register b)
         (fun resp w1 => exists doc,
            resp = mkResponse 201 (Success "Sensor registered successfully"
                                     (mkRegistered (auto_id k) doc)) /\
            boundary_threshold doc = Some (num 50) /\
            sensor_farmer_id doc = None /\
            sensor_units (store w1) !! auto_id k = Some doc /\
            sensor_status (store w1) !! auto_id k
              = Some (mkLiveStatus (Some (num 0)) (Some c) (Some "inactive") (Some false) None) /\
            faults w1 = tail (tail fs) /\ clock w1 = c)
         (mkWorld s fs c k l)).
  { intros (resp & w1 & Hrun & doc & -> & H)%returns_exists. by exists doc, w1. }
  unfold returns, post_register. apply outcome_try_catch. cbv zeta.
  rewrite (bool_decide_eq_true_2 _ Hvalid). cbn [negb].
  apply outcome_bind, (outcome_add_doc_accepts 1); [done|].
  apply outcome_bind, outcome_Date_now. cbn [clock].
  apply outcome_bind, (outcome_await_accepts 0); [done|].
  apply outcome_bind, outcome_write, outcome_ret.
  eexists. split; [reflexivity|]. cbn.
  split; [done|]. split; [done|].
  split; [apply lookup_insert_eq|]. split; [apply lookup_insert_eq|]. done.
Qed.

(** X29. A sensor registered through the first generation of the routes
    is given the threshold 50, so the single-reading endpoint and the batch
    endpoint agree on it: when the registration and then a valid reading
    of the new sensor go through, the reading is answered 200 with the
    status the batch endpoint stores for the same distance, "alert" exactly
    below 50. Until then the live status of the new sensor is "inactive"
    and offline. *)
Theorem registered_sensor_reads_like_batch env b r (w : World SensorStore) :
  register_validation b = [] ->
  validationResult ["LIDAR"; "ULTRASONIC"] r = [] ->
  Some (api_key r) = IOT_API_KEY env ->
  sensor_id r = auto_id (next_key w) ->
  accepts 6 (faults w) = true ->
  exists doc w1 reply w2,
    post_register b w
      = (Returned (mkResponse 201 (Success "Sensor registered successfully"
                                     (mkRegistered (sensor_id r) doc))), w1) /\
    (exists live, sensor_status (store w1) !! sensor_id r = Some live /\
                  live_status live = Some "inactive" /\ is_online live = Some false) /\
    post_reading env r w1
      = (Returned (mkResponse 200 (Success "Sensor reading recorded" reply)), w2) /\
    (forall item, batch_distance item = distance_measured r ->
                  status reply = batch_status item) /\
    (status reply = "alert" <-> (distance_measured r < num 50)%Qc).
Proof.
  intros Hreg Hvalid Hkey Hid Hacc.
  assert (Hacc2 : accepts 2 (faults w) = true) by (by do 4 apply accepts_weaken).
  destruct (post_register_runs b w Hreg Hacc2)
    as (doc & w1 & Hrun1 & Hthreshold & _ & Hunits & Hlive & Hfaults & _).
  rewrite <- Hid in *.
  assert (Hacc4 : accepts 4 (faults w1) = true).
  { rewrite Hfaults. by do 2 apply accepts_tail. }
  pose proof (reading_handler_runs Legacy env r doc w1 Hvalid Hkey Hunits Hacc4) as Hrun2.
  apply returns_exists in Hrun2 as (resp & w2 & Hrun2 & (reply & -> & Hstatus & _) & _).
  cbn [threshold_of reading_handler] in *. rewrite Hthreshold in Hstatus.
  assert (H50 : js_or (Some (num 50)) (num 50) = num 50) by (by apply js_or_pos).
  rewrite H50 in Hstatus.
  exists doc, w1, reply, w2.
  split; [exact Hrun1|].
  split; [eexists; split; [exact Hlive|done]|].
  split; [exact Hrun2|].
  split.
  - intros item Hitem. unfold batch_status. by rewrite Hitem, Hstatus.
  - rewrite Hstatus. apply derive_status_alert.
Qed.

Lemma registered_sensor_reads_like_batch_witness :
  exists doc w1 reply w2,
    post_register sample_registration (sample_world [])
      = (Returned (mkResponse 201 (Success "Sensor registered successfully"
                                     (mkRegistered "0" doc))), w1) /\
    post_reading sample_env (mkReadingRequest "0" (num 49) "LIDAR" "secret") w1
      = (Returned (mkResponse 200 (Success "Sensor reading recorded" reply)), w2) /\
    status reply = "alert".
Proof.
  destruct (registered_sensor_reads_like_batch sample_env sample_registration
              (mkReadingRequest "0" (num 49) "LIDAR" "secret") (sample_world []))
    as (doc & w1 & reply & w2 & Hrun1 & _ & Hrun2 & _ & Halert);
    [reflexivity|reflexivity|reflexivity|reflexivity|reflexivity|].
  exists doc, w1, reply, w2. split; [exact Hrun1|]. split; [exact Hrun2|].
  apply Halert. by vm_compute.
Defined.


(** ** Alerts of the sensor routes and the analytics routes *)

Lemma blind_ret {S A} (a : A) : store_blind (ret (S := S) a).
Proof. intros w w' Hw. done. Qed.

Lemma blind_throw {S A} e : store_blind (throw (S := S) (A := A) e).
Proof. intros w w' Hw. done. Qed.

Lemma blind_bind {S A B} (m : M S A) (k : A -> M S B) :
  store_blind m -> (forall a, store_blind (k a)) -> store_blind (bind m k).
Proof.
  intros Hm Hk w w' Hw. unfold bind.
  destruct (Hm w w' Hw) as [H1 H2].
  destruct (m w) as [[a|e] w1], (m w') as [[a'|e'] w1']; cbn in *; simplify_eq.
  - by apply Hk.
  - done.
Qed.

Lemma blind_try_catch {S A} (m : M S A) (h : string -> M S A) :
  store_blind m -> (forall e, store_blind (h e)) -> store_blind (try_catch m h).
Proof.
  intros Hm Hh w w' Hw. unfold try_catch.
  destruct (Hm w w' Hw) as [H1 H2].
  destruct (m w) as [[a|e] w1], (m w') as [[a'|e'] w1']; cbn in *; simplify_eq.
  - done.
  - by apply Hh.
Qed.

Lemma blind_console_error {S} label : store_blind (console_error (S := S) label).
Proof.
  intros [s fs c k l] [s' fs' c' k' l'] (Hfs & Hc & Hk & Hl). cbn in *. simplify_eq. done.
Qed.

Lemma blind_await_db {S} : store_blind (await_db (S := S)).
Proof.
  intros [s fs c k l] [s' fs' c' k' l'] (Hfs & Hc & Hk & Hl). cbn in *. simplify_eq.
  unfold await_db. cbn. by destruct fs' as [|[] fs'].
Qed.

Lemma blind_heatmap_fold tz snapshot (heatmap : Heatmap) :
  store_blind (heatmap_fold tz snapshot heatmap).
Proof.
  revert heatmap. induction snapshot as [|data rest IH]; intros heatmap; cbn [heatmap_fold].
  - apply blind_ret.
  - destruct (created_at data); [|apply blind_throw].
    destruct (heatmap_incr _ _ heatmap); [apply IH|apply blind_throw].
Qed.

Lemma blind_hourly_fold tz snapshot (hourly : list HourBucket) :
  store_blind (hourly_fold tz snapshot hourly).
Proof.
  revert hourly. induction snapshot as [|data rest IH]; intros hourly; cbn [hourly_fold].
  - apply blind_ret.
  - destruct (created_at data); [|apply blind_throw]. cbv zeta.
    case_bool_decide; [|apply blind_throw].
    destruct (hourly !! _); [apply IH|apply blind_throw].
Qed.

Lemma blind_trends_fold tz interval snapshot (trends : list (TrendKey * TrendBucket)) :
  store_blind (trends_fold tz interval snapshot trends).
Proof.
  revert trends. induction snapshot as [|data rest IH]; intros trends; cbn [trends_fold].
  - apply blind_ret.
  - destruct (created_at data); [apply IH|apply blind_throw].
Qed.

(** A route that asks one query and then works on what it got answers the
    same on two logs that the query cannot tell apart. *)
Lemma same_answer {A} (conds : AlertRecord -> bool)
    (k : list AlertRecord -> M AlertLog A) (h : string -> M AlertLog A)
    (log log' : AlertLog) fs c key l :
  filter (fun r => conds r = true) log' = filter (fun r => conds r = true) log ->
  (forall snapshot, store_blind (k snapshot)) ->
  (forall e, store_blind (h e)) ->
  (try_catch (bind (query_get conds) k) h (mkWorld log' fs c key l)).1
    = (try_catch (bind (query_get conds) k) h (mkWorld log fs c key l)).1.
Proof.
  intros Hsame Hk Hh.
  assert (Hrun : forall fs',
            (try_catch (k (filter (fun r => conds r = true) log)) h
               (mkWorld log' fs' c key l)).1
            = (try_catch (k (filter (fun r => conds r = true) log)) h
                 (mkWorld log fs' c key l)).1).
  { intros fs'. apply blind_try_catch; [apply Hk|apply Hh|done]. }
  unfold try_catch in *. unfold query_get, await_db, read, bind.
  destruct fs as [|[] fs]; cbn [faults store clock next_key console fst snd];
    rewrite ?Hsame.
  - apply Hrun.
  - by apply Hh.
  - apply Hrun.
Qed.

Lemma blind_caught {S D} label message :
  forall e, store_blind
    (console_error (S := S) label;;
     ret (mkResponse (D := D) 500 (Failure message (Some e)))).
Proof. intros e. apply blind_bind; [apply blind_console_error|intros; apply blind_ret]. Qed.

(** A condition that no breach alert satisfies cannot tell a log with
    breach alerts from the log without them. *)
Lemma filter_breach_records (conds : AlertRecord -> bool)
    (before after : AlertLog) (rows : list (N * AlertDocV2)) :
  (forall d, conds (breach_record d) = false) ->
  filter (fun r => conds r = true)
    (before ++ map (fun row => breach_record row.2) rows ++ after)
  = filter (fun r => conds r = true) (before ++ after).
Proof.
  intros Hnone. rewrite !filter_app. f_equal.
  assert (Hrows : filter (fun r => conds r = true)
                    (map (fun row => breach_record row.2) rows) = []).
  { induction rows as [|row rows IH]; [done|]. cbn [map].
    rewrite filter_cons_False; [exact IH|]. by rewrite Hnone. }
  by rewrite Hrows.
Qed.

(** X30. The alerts that the sensor routes of part_003 record are invisible
    to the analytics routes, though both use the collection [Alerts]. A
    breach alert has no [created_at] and no [deviceId], so with any number
    of them in the collection the dashboard, the trends, the hourly
    breakdown, the heatmap and the detail of any device answer exactly as
    without them. *)
Theorem breach_alerts_are_invisible_to_analytics tz (before after : AlertLog)
    (rows : list (N * AlertDocV2)) fs c k l :
  let seen := mkWorld (before ++ after) fs c k l in
  let all := mkWorld (before ++ map (fun row => breach_record row.2) rows ++ after) fs c k l in
  (forall device timeRange startDate,
     (get_dashboard device timeRange startDate all).1
       = (get_dashboard device timeRange startDate seen).1) /\
  (forall startDate endDate device interval,
     (get_trends tz startDate endDate device interval all).1
       = (get_trends tz startDate endDate device interval seen).1) /\
  (forall device targetDate startOfDay endOfDay,
     (get_hourly tz device targetDate startOfDay endOfDay all).1
       = (get_hourly tz device targetDate startOfDay endOfDay seen).1) /\
  (forall device weeks weeksAgo,
     (get_heatmap tz device weeks weeksAgo all).1
       = (get_heatmap tz device weeks weeksAgo seen).1) /\
  (forall device startDate endDate,
     (get_device device startDate endDate all).1
       = (get_device device startDate endDate seen).1).
Proof.
  intros seen all. subst seen all.
  split; [|split; [|split; [|split]]].
  - intros device timeRange startDate. unfold get_dashboard.
    apply same_answer.
    + by apply filter_breach_records.
    + intros snapshot. apply blind_ret.
    + apply blind_caught.
  - intros [s|] [e|] device interval; unfold get_trends; try reflexivity.
    apply same_answer.
    + by apply filter_breach_records.
    + intros snapshot. apply blind_bind; [apply blind_trends_fold|intros; apply blind_ret].
    + apply blind_caught.
  - intros device targetDate startOfDay endOfDay. unfold get_hourly.
    apply same_answer.
    + by apply filter_breach_records.
    + intros snapshot. apply blind_bind; [apply blind_hourly_fold|intros; apply blind_ret].
    + apply blind_caught.
  - intros device weeks weeksAgo. unfold get_heatmap.
    apply same_answer.
    + by apply filter_breach_records.
    + intros snapshot. apply blind_bind; [apply blind_heatmap_fold|intros; apply blind_ret].
    + apply blind_caught.
  - intros device startDate endDate. unfold get_device.
    apply same_answer.
    + by apply filter_breach_records.
    + intros snapshot. apply blind_ret.
    + apply blind_caught.
Qed.

(** The breach alert that a reading of 30 leaves in [Alerts] is not among
    the alerts of the dashboard: the sample log alone and the sample log
    with that alert are answered the same, 2 alerts in the week. *)
Example breach_alert_sample :
  let rows := Alerts (store (post_reading_v2 sample_env (sample_reading 30) (sample_world [])).2) in
  let with_breach :=
    mkWorld (sample_log ++ map (fun row => breach_record row.2) rows) [] 1700010000000 0 [] in
  length rows = 1%nat /\
  (get_dashboard None "week" 1699400000000 with_breach).1
    = (get_dashboard None "week" 1699400000000 sample_log_world).1 /\
  totalAlerts <$> (match (get_dashboard None "week" 1699400000000 with_breach).1 with
                   | Returned (mkResponse _ (Success _ d)) => Some d
                   | _ => None
                   end) = Some 2%Z.
Proof. repeat split; vm_compute; reflexivity. Qed.
